(** * FeedFetcher: date normalisation, item validation and batch extraction

    A shallow embedding of the Go packages [dateparser], [validation] and
    [FeedFetcher] of reddot-watch/feedfetcher, with the properties the
    specification states about them.

    Go strings are byte sequences; they are modelled by [string] (one
    [ascii] per byte), so a non-ASCII literal below stands for its UTF-8
    bytes, exactly as in the Go source file. *)

From Stdlib Require Import List String Ascii ZArith Bool Lia Arith.
Import ListNotations.
Open Scope string_scope.
Open Scope Z_scope.

(* ===================================================================== *)
(** * Bytes and the Go [strings] package                                  *)
(* ===================================================================== *)

Definition byte (c : ascii) : Z := Z.of_N (N_of_ascii c).

Definition char (n : Z) : ascii := ascii_of_N (Z.to_N n).

(** [s[n:]] for [n <= len(s)]. *)
Fixpoint drop (n : nat) (s : string) : string :=
  match n, s with
  | O, _ => s
  | S _, EmptyString => EmptyString
  | S k, String _ s' => drop k s'
  end.

(** [s[:n]] for [n <= len(s)]. *)
Fixpoint take (n : nat) (s : string) : string :=
  match n, s with
  | O, _ => EmptyString
  | S _, EmptyString => EmptyString
  | S k, String c s' => String c (take k s')
  end.

Definition len (s : string) : Z := Z.of_nat (String.length s).

Module unicode.

Definition isUpperAZ (c : ascii) : bool := (65 <=? byte c) && (byte c <=? 90).
Definition isLowerAZ (c : ascii) : bool := (97 <=? byte c) && (byte c <=? 122).

  (** [unicode.IsSpace]: the Latin-1 cases are listed by hand in Go, the
      others come from the White_Space range table. *)
Definition IsSpace (r : Z) : bool :=
    if r <=? 255 then
      (r =? 9) || (r =? 10) || (r =? 11) || (r =? 12) || (r =? 13)
      || (r =? 32) || (r =? 133) || (r =? 160)
    else
      (r =? 5760)
      || ((8192 <=? r) && (r <=? 8202))
      || (r =? 8232) || (r =? 8233) || (r =? 8239) || (r =? 8287)
      || (r =? 12288).

  (** The code points of a text that are not white space. *)
Definition visible (rs : list Z) : list Z :=
    filter (fun r => negb (IsSpace r)) rs.

End unicode.

Module utf8.

Definition RuneError : Z := 65533.

Definition cont (c : ascii) : bool := (128 <=? byte c) && (byte c <=? 191).

Definition inRange (lo hi : Z) (c : ascii) : bool :=
    (lo <=? byte c) && (byte c <=? hi).

  (** [utf8.DecodeRuneInString]: the rune at the head of [s] and its width
      in bytes.  An invalid or truncated encoding yields [(RuneError, 1)];
      the empty string yields [(RuneError, 0)].  The accepted second-byte
      ranges are those of Go's [acceptRanges] table (no overlong forms, no
      surrogates, nothing above U+10FFFF). *)
Definition DecodeRuneInString (s : string) : Z * nat :=
    match s with
    | EmptyString => (RuneError, 0%nat)
    | String c0 r0 =>
        let b0 := byte c0 in
        if b0 <? 128 then (b0, 1%nat)
        else if (194 <=? b0) && (b0 <=? 223) then
          match r0 with
          | String c1 _ =>
              if cont c1
              then (Z.lor (Z.shiftl (Z.land b0 31) 6) (Z.land (byte c1) 63), 2%nat)
              else (RuneError, 1%nat)
          | _ => (RuneError, 1%nat)
          end
        else if (224 <=? b0) && (b0 <=? 239) then
          let lo := if b0 =? 224 then 160 else 128 in
          let hi := if b0 =? 237 then 159 else 191 in
          match r0 with
          | String c1 (String c2 _) =>
              if inRange lo hi c1 && cont c2
              then (Z.lor (Z.shiftl (Z.land b0 15) 12)
                      (Z.lor (Z.shiftl (Z.land (byte c1) 63) 6)
                             (Z.land (byte c2) 63)), 3%nat)
              else (RuneError, 1%nat)
          | _ => (RuneError, 1%nat)
          end
        else if (240 <=? b0) && (b0 <=? 244) then
          let lo := if b0 =? 240 then 144 else 128 in
          let hi := if b0 =? 244 then 143 else 191 in
          match r0 with
          | String c1 (String c2 (String c3 _)) =>
              if inRange lo hi c1 && cont c2 && cont c3
              then (Z.lor (Z.shiftl (Z.land b0 7) 18)
                      (Z.lor (Z.shiftl (Z.land (byte c1) 63) 12)
                         (Z.lor (Z.shiftl (Z.land (byte c2) 63) 6)
                                (Z.land (byte c3) 63))), 4%nat)
              else (RuneError, 1%nat)
          | _ => (RuneError, 1%nat)
          end
        else (RuneError, 1%nat)
    end.

  (** The string cut into its runes, each with the bytes that encode it:
      what a [for _, r := range s] loop visits. *)
Fixpoint chunks (fuel : nat) (s : string) : list (Z * string) :=
    match fuel with
    | O => []
    | S f =>
        match s with
        | EmptyString => []
        | _ =>
            let '(r, w) := DecodeRuneInString s in
            (r, take w s) :: chunks f (drop w s)
        end
    end.

Definition decode (s : string) : list (Z * string) :=
    chunks (String.length s) s.

  (** [[]rune(s)]. *)
Definition runes (s : string) : list Z := map fst (decode s).

  (** [utf8.RuneCountInString(s)], also [len([]rune(s))]. *)
Definition RuneCountInString (s : string) : Z :=
    Z.of_nat (List.length (runes s)).

Definition encode (cs : list (Z * string)) : string :=
    fold_right (fun c acc => snd c ++ acc) EmptyString cs.

  (** Every byte is outside ASCII. *)
Definition highBytes (s : string) : Prop :=
    forallb (fun c => 128 <=? byte c) (list_ascii_of_string s) = true.

  (** Every rune of the string is white space for [unicode.IsSpace]. *)
Definition allSpace (s : string) : Prop :=
    forallb unicode.IsSpace (runes s) = true.

End utf8.

Module strings.

Fixpoint HasPrefix (s prefix : string) {struct prefix} : bool :=
    match prefix with
    | EmptyString => true
    | String p prefix' =>
        match s with
        | EmptyString => false
        | String c s' => Ascii.eqb c p && HasPrefix s' prefix'
        end
    end.

Fixpoint Contains (s substr : string) : bool :=
    HasPrefix s substr
    || match s with
       | EmptyString => false
       | String _ s' => Contains s' substr
       end.

  (** [strings.Replace(s, old, new, 1)]: the first occurrence only. *)
Fixpoint Replace1 (s old new : string) : string :=
    if HasPrefix s old then new ++ drop (String.length old) s
    else match s with
         | EmptyString => EmptyString
         | String c s' => String c (Replace1 s' old new)
         end.

Definition TrimPrefix (s prefix : string) : string :=
    if HasPrefix s prefix then drop (String.length prefix) s else s.

Definition lowerByte (c : ascii) : ascii :=
    if unicode.isUpperAZ c then char (byte c + 32) else c.

  (** [strings.ToLower] on the bytes below 0x80.  The program applies it to
      groups captured by [eetePattern], which are ASCII letters. *)
Fixpoint ToLower (s : string) : string :=
    match s with
    | EmptyString => EmptyString
    | String c s' => String (lowerByte c) (ToLower s')
    end.

Fixpoint dropWhile {A} (p : A -> bool) (l : list A) : list A :=
    match l with
    | [] => []
    | x :: l' => if p x then dropWhile p l' else l
    end.

Definition isSpaceChunk (c : Z * string) : bool := unicode.IsSpace (fst c).

  (** [strings.TrimSpace]: leading and trailing runes for which
      [unicode.IsSpace] holds are cut off; the bytes between are kept as
      they are (an invalid byte decodes to [RuneError], which is no
      space). *)
Definition TrimSpace (s : string) : string :=
    utf8.encode
      (rev (dropWhile isSpaceChunk
              (rev (dropWhile isSpaceChunk (utf8.decode s))))).

End strings.

(* ===================================================================== *)
(** * The regular expression of the headline                              *)
(* ===================================================================== *)

Module regexp.

  (** The class [\s] of Go's regexp syntax: [[\t\n\f\r ]], ASCII only (the
      vertical tab is not in it). *)
Definition isSpace (c : ascii) : bool :=
    let b := byte c in
    (b =? 9) || (b =? 10) || (b =? 12) || (b =? 13) || (b =? 32).

  (** [regexp.MustCompile(`\s+`).ReplaceAllString(s, " ")]: each maximal
      run of [\s] bytes becomes one space.  [inRun] tells that the byte
      before the head of [s] was part of a run already replaced. *)
Fixpoint collapse (inRun : bool) (s : string) : string :=
    match s with
    | EmptyString => EmptyString
    | String c s' =>
        if isSpace c
        then if inRun then collapse true s' else String " " (collapse true s')
        else String c (collapse false s')
    end.

  (** The strings [collapse] leaves as they are: every [\s] byte is a
      space, and no two of them are neighbours.  [afterSpace] tells that
      the byte before the head of [s] was a space. *)
Fixpoint collapsed (afterSpace : bool) (s : string) : bool :=
    match s with
    | EmptyString => true
    | String c s' =>
        if isSpace c
        then Ascii.eqb c " " && negb afterSpace && collapsed true s'
        else collapsed false s'
    end.

End regexp.

Definition spaceRegexp_ReplaceAllString (s : string) : string :=
  regexp.collapse false s.

(* ===================================================================== *)
(** * The Go [time] package, as far as the program uses it                *)
(* ===================================================================== *)

(** The zone of the process ([time.Local]): [localOffset] is the offset
    east of UTC, in seconds, in force at a given Unix second. *)
Class LocalZone :=
  { localOffset : Z -> Z;
    (** [lookupName] of the local zone: the offset of a zone abbreviation
        the local zone uses, at a given Unix second. *)
    localAbbrev : string -> Z -> option Z }.

Module time.

  (** A [*time.Location] is compared by pointer in the program
      ([t.Location() == time.Local]); the three kinds of pointer a parsed
      or constructed [Time] can hold are the constructors. *)
Inductive Location :=
  | UTC
  | Local
  | FixedZone (name : string) (offset : Z).

  (** An instant (nanoseconds since the Unix epoch, unbounded as in Go's
      seconds-since-year-1 representation) shown in a location. *)
Record Time := mkTime { unixNano : Z; loc : Location }.

  (** [time.Duration] is an [int64] count of nanoseconds. *)
Definition Duration := Z.
Definition minDuration : Duration := - 2 ^ 63.
Definition maxDuration : Duration := 2 ^ 63 - 1.
Definition Second : Duration := 1000000000.
Definition Minute : Duration := 60 * Second.
Definition Hour : Duration := 60 * Minute.

Definition isDuration (d : Z) : Prop := minDuration <= d <= maxDuration.

  (** Days since 1970-01-01 of a date of the proleptic Gregorian calendar,
      [m] in 1..12. *)
Definition daysFromCivil (y m d : Z) : Z :=
    let y' := if m <=? 2 then y - 1 else y in
    let era := y' / 400 in
    let yoe := y' - era * 400 in
    let mp := if m <=? 2 then m + 9 else m - 3 in
    let doy := (153 * mp + 2) / 5 + d - 1 in
    let doe := yoe * 365 + yoe / 4 - yoe / 100 + doy in
    era * 146097 + doe - 719468.

Definition civilFromDays (z : Z) : Z * Z * Z :=
    let z' := z + 719468 in
    let era := z' / 146097 in
    let doe := z' - era * 146097 in
    let yoe := (doe - doe / 1460 + doe / 36524 - doe / 146096) / 365 in
    let doy := doe - (365 * yoe + yoe / 4 - yoe / 100) in
    let mp := (5 * doy + 2) / 153 in
    let d := doy - (153 * mp + 2) / 5 + 1 in
    let m := if mp <? 10 then mp + 3 else mp - 9 in
    let y := yoe + era * 400 in
    (if m <=? 2 then y + 1 else y, m, d).

Definition isLeap (y : Z) : bool :=
    (y mod 4 =? 0) && (negb (y mod 100 =? 0) || (y mod 400 =? 0)).

Definition daysIn (m y : Z) : Z :=
    if m =? 2 then (if isLeap y then 29 else 28)
    else if (m =? 4) || (m =? 6) || (m =? 9) || (m =? 11) then 30
    else 31.

  (** [time.Date(year, month, day, hour, min, sec, nsec, time.UTC)]; every
      call of the program and of [time.Parse] passes [time.UTC].  Values
      out of range are normalised as Go does: the month overflows into the
      year, the other fields add up. *)
Definition Date (year month day hour min sec nsec : Z) : Time :=
    let m0 := month - 1 in
    let y := year + m0 / 12 in
    let m := m0 mod 12 + 1 in
    let days := daysFromCivil y m 1 + (day - 1) in
    mkTime ((days * 86400 + hour * 3600 + min * 60 + sec) * 1000000000 + nsec)
           UTC.

Section Zone.
Context {lz : LocalZone}.

Definition offsetAt (l : Location) (sec : Z) : Z :=
      match l with
      | UTC => 0
      | Local => localOffset sec
      | FixedZone _ off => off
      end.

Definition unixSec (t : Time) : Z := unixNano t / 1000000000.

    (** Second result of [t.Zone()]: the offset east of UTC. *)
Definition ZoneOffset (t : Time) : Z := offsetAt (loc t) (unixSec t).

    (** Seconds of the wall clock the location shows. *)
Definition wallSec (t : Time) : Z := unixSec t + ZoneOffset t.

Definition civil (t : Time) : Z * Z * Z := civilFromDays (wallSec t / 86400).

Definition Year (t : Time) : Z := fst (fst (civil t)).
Definition Month (t : Time) : Z := snd (fst (civil t)).
Definition Day (t : Time) : Z := snd (civil t).
Definition Hour_ (t : Time) : Z := (wallSec t mod 86400) / 3600.
Definition Minute_ (t : Time) : Z := (wallSec t mod 3600) / 60.
Definition Second_ (t : Time) : Z := wallSec t mod 60.
Definition Nanosecond (t : Time) : Z := unixNano t mod 1000000000.

    (** Sunday = 0 ... Saturday = 6; 1970-01-01 was a Thursday. *)
Definition Weekday (t : Time) : Z := (wallSec t / 86400 + 4) mod 7.

    (** [t.AddDate(years, months, days)] for [t] in UTC, the only use in
        the program. *)
Definition AddDate (t : Time) (years months days : Z) : Time :=
      Date (Year t + years) (Month t + months) (Day t + days)
           (Hour_ t) (Minute_ t) (Second_ t) (Nanosecond t).

End Zone.

Definition Location_ (t : Time) : Location := loc t.

  (** [t.UTC()]: the same instant, shown in UTC. *)
Definition Time_UTC (t : Time) : Time := mkTime (unixNano t) UTC.

  (** [t.Sub(u)]: the difference as a [Duration]; where it does not fit
      [int64], Go returns the largest or least [Duration]. *)
Definition Sub (t u : Time) : Duration :=
    let d := unixNano t - unixNano u in
    if d <? minDuration then minDuration
    else if maxDuration <? d then maxDuration
    else d.

Definition Location_eqb (a b : Location) : bool :=
    match a, b with
    | UTC, UTC => true
    | Local, Local => true
    | FixedZone n o, FixedZone n' o' => String.eqb n n' && (o =? o')
    | _, _ => false
    end.

Definition January : Z := 1.
Definition Sunday : Z := 0.

End time.

(* ===================================================================== *)
(** * Errors                                                              *)
(* ===================================================================== *)

(** The error values declared with [errors.New] in package [validation],
    and the two of package [context] the fetcher tests for. *)
Inductive sentinel :=
| ErrInvalidURL
| ErrEmptyHeadline
| ErrFeedPublicationDateFormat
| ErrHeadlineTooLong
| ErrPublicationTooOld
| ErrFuturePublication
| ErrMissingPublishDate
| context_Canceled
| context_DeadlineExceeded.

(** An [error]: one of the package-level values, a fresh value made by
    [errors.New], or the result of a call to [fmt.Errorf], recorded with
    its format and operands; the operand of a [%w] verb is the error the
    result wraps. *)
Inductive error :=
| Sentinel (s : sentinel)
| errors_New (msg : string)
| fmt_Errorf (format : string) (operands : list operand)
with operand :=
| opString (s : string)
| opDuration (d : Z)
| opError (e : error)
| opWrapped (e : error).

Definition sentinel_eqb (a b : sentinel) : bool :=
  match a, b with
  | ErrInvalidURL, ErrInvalidURL
  | ErrEmptyHeadline, ErrEmptyHeadline
  | ErrFeedPublicationDateFormat, ErrFeedPublicationDateFormat
  | ErrHeadlineTooLong, ErrHeadlineTooLong
  | ErrPublicationTooOld, ErrPublicationTooOld
  | ErrFuturePublication, ErrFuturePublication
  | ErrMissingPublishDate, ErrMissingPublishDate
  | context_Canceled, context_Canceled
  | context_DeadlineExceeded, context_DeadlineExceeded => true
  | _, _ => false
  end.

Module errors.

  (** [errors.Is(err, target)] for a package-level [target]: [err] itself
      or an error it wraps, through any number of [%w]. *)
Fixpoint Is (e : error) (target : sentinel) : bool :=
    match e with
    | Sentinel s => sentinel_eqb s target
    | errors_New _ => false
    | fmt_Errorf _ ops =>
        (fix wrapped (l : list operand) : bool :=
           match l with
           | [] => false
           | opWrapped e' :: _ => Is e' target
           | _ :: l' => wrapped l'
           end) ops
    end.

End errors.

(** The failures that concern one entry only. *)
Definition entryScoped (err : error) : bool :=
  errors.Is err ErrInvalidURL
  || errors.Is err ErrEmptyHeadline
  || errors.Is err ErrHeadlineTooLong
  || errors.Is err ErrMissingPublishDate
  || errors.Is err ErrPublicationTooOld
  || errors.Is err ErrFuturePublication.

(** A Go result pair [(value, error)] of which one side is the zero
    value. *)
Inductive result (A : Type) :=
| Ok (a : A)
| Err (e : error).
Arguments Ok {A} a.
Arguments Err {A} e.

(* ===================================================================== *)
(** * The wall clock                                                      *)
(* ===================================================================== *)

(** The readings [time.Now()] returns, in the order of the calls, as
    nanoseconds since the Unix epoch. *)
Class Clock := clock : nat -> Z.

(** A computation that may read the clock: the state is the number of
    readings taken so far. *)
Definition M (A : Type) : Type := nat -> A * nat.

Definition ret {A} (a : A) : M A := fun n => (a, n).

Definition bind {A B} (m : M A) (k : A -> M B) : M B :=
  fun n => let (a, n') := m n in k a n'.

Notation "x <- m ;; k" := (bind m (fun x => k))
  (at level 61, m at next level, right associativity).

Section Now.
Context {ck : Clock}.
  (** [time.Now()]: the next reading, in the local zone. *)
Definition Now : M time.Time :=
    fun n => (time.mkTime (clock n) time.Local, S n).
End Now.

(* ===================================================================== *)
(** * The Go [net/url] package: the [URL] value and its methods           *)
(* ===================================================================== *)

Module url.

Record Userinfo := mkUserinfo
    { username : string; password : string; passwordSet : bool }.

Record URL := mkURL
    { Scheme : string;
      Opaque : string;
      User : option Userinfo;
      Host : string;
      Path : string;
      RawPath : string;
      OmitHost : bool;
      ForceQuery : bool;
      RawQuery : string;
      Fragment : string;
      RawFragment : string }.

Definition empty : URL :=
    mkURL "" "" None "" "" "" false false "" "" "".

  (** [u.IsAbs()]: "reports whether the URL is absolute. Absolute means
      that it has a non-empty scheme." *)
Definition IsAbs (u : URL) : bool := negb (String.eqb (Scheme u) "").

Inductive encoding :=
  | encodePath | encodePathSegment | encodeHost | encodeZone
  | encodeUserPassword | encodeQueryComponent | encodeFragment.

Fixpoint mem (c : ascii) (set : string) : bool :=
    match set with
    | EmptyString => false
    | String d set' => Ascii.eqb c d || mem c set'
    end.

Definition isDigit (c : ascii) : bool := (48 <=? byte c) && (byte c <=? 57).

Definition isAlnum (c : ascii) : bool :=
    unicode.isLowerAZ c || unicode.isUpperAZ c || isDigit c.

Definition dquote : ascii := char 34.

Definition isHostMode (mode : encoding) : bool :=
    match mode with encodeHost | encodeZone => true | _ => false end.

  (** [shouldEscape(c, mode)], RFC 3986 as Go reads it. *)
Definition shouldEscape (c : ascii) (mode : encoding) : bool :=
    if isAlnum c then false
    else if isHostMode mode
            && (mem c "!$&'()*+,;=:[]<>" || Ascii.eqb c dquote) then false
    else if mem c "-_.~" then false
    else if mem c "$&+,/:;=?@" then
      match mode with
      | encodePath => Ascii.eqb c "?"
      | encodePathSegment => mem c "/;,?"
      | encodeUserPassword => mem c "@/?:"
      | encodeQueryComponent => true
      | encodeFragment => false
      | encodeHost | encodeZone => true
      end
    else match mode with
         | encodeFragment => negb (mem c "!()*")
         | _ => true
         end.

Definition upperhex (n : Z) : ascii :=
    if n <? 10 then char (48 + n) else char (55 + n).

  (** [escape(s, mode)]. *)
Fixpoint escape (s : string) (mode : encoding) : string :=
    match s with
    | EmptyString => EmptyString
    | String c s' =>
        if shouldEscape c mode then
          match mode with
          | encodeQueryComponent =>
              if Ascii.eqb c " " then String "+" (escape s' mode)
              else String "%" (String (upperhex (byte c / 16))
                     (String (upperhex (byte c mod 16)) (escape s' mode)))
          | _ =>
              String "%" (String (upperhex (byte c / 16))
                (String (upperhex (byte c mod 16)) (escape s' mode)))
          end
        else String c (escape s' mode)
    end.

Definition ishex (c : ascii) : bool :=
    isDigit c || ((97 <=? byte c) && (byte c <=? 102))
    || ((65 <=? byte c) && (byte c <=? 70)).

Definition unhex (c : ascii) : Z :=
    if isDigit c then byte c - 48
    else if (97 <=? byte c) && (byte c <=? 102) then byte c - 97 + 10
    else if (65 <=? byte c) && (byte c <=? 70) then byte c - 65 + 10
    else 0.

  (** [unescape(s, mode)]: the percent-escapes decoded, or an error for a
      malformed escape or, in a host, a byte a host cannot hold.  [skip]
      counts the bytes of an escape already consumed. *)
Fixpoint unescape_from (skip : nat) (s : string) (mode : encoding)
    : result string :=
    match s with
    | EmptyString => Ok EmptyString
    | String c s' =>
        match skip with
        | S k => unescape_from k s' mode
        | O =>
            if Ascii.eqb c "%" then
              match s' with
              | String h1 (String h2 _) =>
                  if ishex h1 && ishex h2 then
                    let v := unhex h1 * 16 + unhex h2 in
                    let bad :=
                      match mode with
                      | encodeHost =>
                          (unhex h1 <? 8) && negb (String.eqb (take 3 s) "%25")
                      | encodeZone =>
                          negb (String.eqb (take 3 s) "%25")
                          && negb (v =? 32)
                          && shouldEscape (char v) encodeHost
                      | _ => false
                      end in
                    if bad then Err (errors_New ("invalid URL escape " ++ take 3 s))
                    else match unescape_from 2 s' mode with
                         | Ok r => Ok (String (char v) r)
                         | Err e => Err e
                         end
                  else Err (errors_New ("invalid URL escape " ++ take 3 s))
              | _ => Err (errors_New ("invalid URL escape " ++ take 3 s))
              end
            else if isHostMode mode && (byte c <? 128)
                    && shouldEscape c encodeHost then
              Err (errors_New "invalid character in host name")
            else
              match unescape_from 0 s' mode with
              | Ok r =>
                  match mode with
                  | encodeQueryComponent =>
                      Ok (String (if Ascii.eqb c "+" then " "%char else c) r)
                  | _ => Ok (String c r)
                  end
              | Err e => Err e
              end
        end
    end.

Definition unescape (s : string) (mode : encoding) : result string :=
    unescape_from 0 s mode.

  (** [validEncoded(s, mode)]. *)
Fixpoint validEncoded (s : string) (mode : encoding) : bool :=
    match s with
    | EmptyString => true
    | String c s' =>
        (mem c "!$&'()*+,;=:@[]%" || negb (shouldEscape c mode))
        && validEncoded s' mode
    end.

  (** [u.setPath(p)]. *)
Definition setPath (u : URL) (p : string) : result URL :=
    match unescape p encodePath with
    | Err e => Err e
    | Ok path =>
        let raw := if String.eqb p (escape path encodePath) then "" else p in
        Ok (mkURL (Scheme u) (Opaque u) (User u) (Host u) path raw
                  (OmitHost u) (ForceQuery u) (RawQuery u)
                  (Fragment u) (RawFragment u))
    end.

  (** [u.setFragment(f)]. *)
Definition setFragment (u : URL) (f : string) : result URL :=
    match unescape f encodeFragment with
    | Err e => Err e
    | Ok frag =>
        let raw := if String.eqb f (escape frag encodeFragment) then "" else f in
        Ok (mkURL (Scheme u) (Opaque u) (User u) (Host u) (Path u) (RawPath u)
                  (OmitHost u) (ForceQuery u) (RawQuery u) frag raw)
    end.

Definition sameAs (r : result string) (s : string) : bool :=
    match r with Ok p => String.eqb p s | Err _ => false end.

  (** [u.EscapedPath()]. *)
Definition EscapedPath (u : URL) : string :=
    if negb (String.eqb (RawPath u) "")
       && validEncoded (RawPath u) encodePath
       && sameAs (unescape (RawPath u) encodePath) (Path u)
    then RawPath u
    else if String.eqb (Path u) "*" then "*"
    else escape (Path u) encodePath.

  (** [u.EscapedFragment()]. *)
Definition EscapedFragment (u : URL) : string :=
    if negb (String.eqb (RawFragment u) "")
       && validEncoded (RawFragment u) encodeFragment
       && sameAs (unescape (RawFragment u) encodeFragment) (Fragment u)
    then RawFragment u
    else escape (Fragment u) encodeFragment.

  (** The [String] method of [Userinfo]. *)
Definition Userinfo_String (ui : Userinfo) : string :=
    escape (username ui) encodeUserPassword
    ++ (if passwordSet ui
        then ":" ++ escape (password ui) encodeUserPassword else "").

  (** The part of [s] before the first [sep], the part after it, and
      whether [sep] was found: [strings.Cut] for a one-byte separator. *)
Fixpoint Cut (s : string) (sep : ascii) : string * string * bool :=
    match s with
    | EmptyString => (EmptyString, EmptyString, false)
    | String c s' =>
        if Ascii.eqb c sep then (EmptyString, s', true)
        else let '(a, b, f) := Cut s' sep in (String c a, b, f)
    end.

Definition firstSegmentHasColon (path : string) : bool :=
    mem ":" (fst (fst (Cut path "/"))).

Definition isSome {A} (o : option A) : bool :=
    match o with Some _ => true | None => false end.

  (** [u.String()]. *)
Definition String_ (u : URL) : string :=
    let scheme := if String.eqb (Scheme u) "" then "" else Scheme u ++ ":" in
    let body :=
      if negb (String.eqb (Opaque u) "") then scheme ++ Opaque u
      else
        let authority :=
          if negb (String.eqb (Scheme u) "") || negb (String.eqb (Host u) "")
             || isSome (User u)
          then
            if OmitHost u && String.eqb (Host u) "" && negb (isSome (User u))
            then ""
            else
              (if negb (String.eqb (Host u) "") || negb (String.eqb (Path u) "")
                  || isSome (User u)
               then "//" else "")
              ++ match User u with
                 | Some ui => Userinfo_String ui ++ "@"
                 | None => ""
                 end
              ++ (if String.eqb (Host u) "" then ""
                  else escape (Host u) encodeHost)
          else "" in
        let path := EscapedPath u in
        let slash :=
          if negb (String.eqb path "") && negb (strings.HasPrefix path "/")
             && negb (String.eqb (Host u) "")
          then "/" else "" in
        let head := scheme ++ authority ++ slash in
        let dot :=
          if String.eqb head "" && firstSegmentHasColon path then "./" else "" in
        head ++ dot ++ path in
    body
    ++ (if ForceQuery u || negb (String.eqb (RawQuery u) "")
        then "?" ++ RawQuery u else "")
    ++ (if String.eqb (Fragment u) "" then ""
        else "#" ++ EscapedFragment u).

  (** The segments of a path, split at every ["/"]. *)
Fixpoint split (s : string) : list string :=
    match s with
    | EmptyString => [EmptyString]
    | String c s' =>
        match split s' with
        | seg :: segs =>
            if Ascii.eqb c "/" then EmptyString :: seg :: segs
            else String c seg :: segs
        | [] => [String c EmptyString]
        end
    end.

  (** [s[:i+1]] for [i] the index of the last ["/"] of [s], empty when
      there is none. *)
Fixpoint uptoLastSlash (s : string) : string :=
    match s with
    | EmptyString => EmptyString
    | String c s' =>
        if mem "/" s' then String c (uptoLastSlash s')
        else if Ascii.eqb c "/" then String c EmptyString
        else EmptyString
    end.

  (** [str[:i]] for [i] the index of the last ["/"] of [str]; [None] when
      there is none ([strings.LastIndexByte] returns -1). *)
Fixpoint beforeLastSlash (str : string) : option string :=
    match str with
    | EmptyString => None
    | String c s' =>
        match beforeLastSlash s' with
        | Some r => Some (String c r)
        | None => if Ascii.eqb c "/" then Some EmptyString else None
        end
    end.

  (** The loop of [resolvePath] over the segments of the path: [str] is
      what the builder holds after its leading ["/"]. *)
Fixpoint removeDots (segs : list string) (str : string) (first : bool)
    : string :=
    match segs with
    | [] => str
    | elem :: rest =>
        if String.eqb elem "." then removeDots rest str false
        else if String.eqb elem ".." then
          match beforeLastSlash str with
          | None => removeDots rest EmptyString true
          | Some p => removeDots rest p first
          end
        else removeDots rest (str ++ (if first then "" else "/") ++ elem) false
    end.

  (** [resolvePath(base, ref)], RFC 3986 sections 5.2.2 to 5.2.4. *)
Definition resolvePath (base ref : string) : string :=
    let full :=
      if String.eqb ref "" then base
      else if strings.HasPrefix ref "/" then ref
      else uptoLastSlash base ++ ref in
    if String.eqb full "" then ""
    else
      let segs := split full in
      let last := List.last segs EmptyString in
      let r := "/" ++ removeDots segs EmptyString true
               ++ (if String.eqb last "." || String.eqb last ".."
                   then "/" else "") in
      if strings.HasPrefix r "//" then drop 1 r else r.

Definition withPath (u : URL) (p : string) : URL :=
    match setPath u p with Ok u' => u' | Err _ => u end.

  (** [u.ResolveReference(ref)], with [u] the base. *)
Definition ResolveReference (u ref : URL) : URL :=
    let scheme := if String.eqb (Scheme ref) "" then Scheme u else Scheme ref in
    let url := mkURL scheme (Opaque ref) (User ref) (Host ref) (Path ref)
                     (RawPath ref) (OmitHost ref) (ForceQuery ref)
                     (RawQuery ref) (Fragment ref) (RawFragment ref) in
    if negb (String.eqb (Scheme ref) "") || negb (String.eqb (Host ref) "")
       || isSome (User ref)
    then withPath url (resolvePath (EscapedPath ref) "")
    else if negb (String.eqb (Opaque ref) "") then
      mkURL scheme (Opaque ref) None "" "" (RawPath ref) (OmitHost ref)
            (ForceQuery ref) (RawQuery ref) (Fragment ref) (RawFragment ref)
    else
      let inherit :=
        String.eqb (Path ref) "" && negb (ForceQuery ref)
        && String.eqb (RawQuery ref) "" in
      let query := if inherit then RawQuery u else RawQuery ref in
      let frag :=
        if inherit && String.eqb (Fragment ref) "" then Fragment u
        else Fragment ref in
      let rawfrag :=
        if inherit && String.eqb (Fragment ref) "" then RawFragment u
        else RawFragment ref in
      if String.eqb (Path ref) "" && negb (String.eqb (Opaque u) "") then
        mkURL scheme (Opaque u) None "" "" (RawPath ref) (OmitHost ref)
              (ForceQuery ref) query frag rawfrag
      else
        withPath
          (mkURL scheme (Opaque ref) (User u) (Host u) (Path ref) (RawPath ref)
                 (OmitHost ref) (ForceQuery ref) query frag rawfrag)
          (resolvePath (EscapedPath u) (EscapedPath ref)).

End url.

(* ===================================================================== *)
(** * What the program takes from outside                                 *)
(* ===================================================================== *)

(** The two parsers of the Go standard library the program calls.  Only
    the success of [time.Parse(layout, value)] and its value are used (the
    error is dropped by [ParseDate]); of the error of [url.Parse] only the
    message is used. *)
Class GoParsers :=
  { time_Parse : string -> string -> option time.Time;
    url_Parse : string -> result url.URL }.

(** [gofeed.Item], the fields the program reads. *)
Module gofeed.

Record Item := mkItem
    { Title : string;
      Description : string;
      Content : string;
      Link : string;
      Published : string;
      PublishedParsed : option time.Time }.

  (** [Items] is a slice of pointers; [None] is a nil pointer. *)
Record Feed := mkFeed { Items : list (option Item) }.

Definition setPublishedParsed (item : Item) (t : time.Time) : Item :=
    mkItem (Title item) (Description item) (Content item) (Link item)
           (Published item) (Some t).

End gofeed.

(* ===================================================================== *)
(** * Package [dateparser]                                                *)
(* ===================================================================== *)

Module dateparser.

  (** ** The regular expression
      [^([A-Z][a-z]{2})(AM|PM)(EETE_R|EESTE_R)([A-Z][a-z]+)C822$] *)

Definition cutPrefix (s prefix : string) : option string :=
    if strings.HasPrefix s prefix
    then Some (drop (String.length prefix) s) else None.

  (** An alternation of literals: the first alternative that is a prefix.
      No alternative of the two groups is a prefix of another one, so the
      matcher never has to come back to a later alternative. *)
Fixpoint alt (alts : list string) (s : string) : option (string * string) :=
    match alts with
    | [] => None
    | a :: alts' =>
        match cutPrefix s a with
        | Some rest => Some (a, rest)
        | None => alt alts' s
        end
    end.

  (** The longest prefix of bytes satisfying [p], and the rest. *)
Fixpoint span (p : ascii -> bool) (s : string) : string * string :=
    match s with
    | EmptyString => (EmptyString, EmptyString)
    | String c s' =>
        if p c then let (a, b) := span p s' in (String c a, b)
        else (EmptyString, s)
    end.

  (** [eetePattern.FindStringSubmatch(dateStr)]: [None] for Go's [nil];
      otherwise the whole match followed by the four groups.  After
      [[a-z]+] the pattern wants the upper-case [C], so the group is the
      longest run of lower-case letters. *)
Definition eetePattern_FindStringSubmatch (dateStr : string)
    : option (list string) :=
    match dateStr with
    | String c1 (String c2 (String c3 r1)) =>
        if unicode.isUpperAZ c1 && unicode.isLowerAZ c2 && unicode.isLowerAZ c3
        then
          match alt ["AM"; "PM"] r1 with
          | Some (ampm, r2) =>
              match alt ["EETE_R"; "EESTE_R"] r2 with
              | Some (patternType, String m0 r3) =>
                  let (lows, r4) := span unicode.isLowerAZ r3 in
                  if unicode.isUpperAZ m0 && negb (String.eqb lows "")
                     && String.eqb r4 "C822"
                  then Some [dateStr;
                             String c1 (String c2 (String c3 EmptyString));
                             ampm; patternType; String m0 lows]
                  else None
              | _ => None
              end
          | None => None
          end
        else None
    | _ => None
    end.

  (** The strings the expression matches, token by token: a weekday of
      one upper-case and two lower-case letters, [AM] or [PM], one of the
      two region tokens, a month name of an upper-case letter and at least
      one lower-case letter, and the suffix [C822]. *)
Definition isWeekdayToken (w : string) : bool :=
    match w with
    | String c1 (String c2 (String c3 EmptyString)) =>
        unicode.isUpperAZ c1 && unicode.isLowerAZ c2 && unicode.isLowerAZ c3
    | _ => false
    end.

Definition isMonthToken (m : string) : bool :=
    match m with
    | String m0 (String l lows) =>
        unicode.isUpperAZ m0
        && forallb unicode.isLowerAZ (list_ascii_of_string (String l lows))
    | _ => false
    end.

Definition eeteShape (weekday ampm patternType month : string) : Prop :=
    isWeekdayToken weekday = true
    /\ (ampm = "AM" \/ ampm = "PM")
    /\ (patternType = "EETE_R" \/ patternType = "EESTE_R")
    /\ isMonthToken month = true.

Definition eeteString (weekday ampm patternType month : string) : string :=
    weekday ++ ampm ++ patternType ++ month ++ "C822".

  (** The whole string matches the expression. *)
Definition matchesEETE (dateStr : string) : Prop :=
    exists weekday ampm patternType month,
      eeteShape weekday ampm patternType month
      /\ dateStr = eeteString weekday ampm patternType month.

  (** A Go map literal with string keys. *)
Fixpoint lookup {V} (m : list (string * V)) (k : string) : option V :=
    match m with
    | [] => None
    | (k', v) :: m' => if String.eqb k k' then Some v else lookup m' k
    end.

Definition monthMap : list (string * Z) :=
    [ ("january", 1); ("february", 2); ("march", 3); ("april", 4);
      ("may", 5); ("june", 6); ("july", 7); ("august", 8);
      ("september", 9); ("october", 10); ("november", 11);
      ("december", 12) ].

Definition weekdayMap : list (string * Z) :=
    [ ("sun", 0); ("mon", 1); ("tue", 2); ("wed", 3); ("thu", 4);
      ("fri", 5); ("sat", 6) ].

Definition parseWeekday (day : string) : Z :=
    match lookup weekdayMap (strings.ToLower day) with
    | None => -1
    | Some weekday => weekday
    end.

Definition dateLayouts : list string :=
    [ "Dom, 02 Jan 2006 15:04:05 -0700 2006-01-02 15:04:05";
      "Sáb, 02 Jan 2006 15:04:05 -0700 2006-01-02 15:04:05";
      "Mon, 02 Jan 2006 15:04:05 MST/City";
      "Mon, 02 Jan 2006 15:04:05 TIME_ZONE";
      "Mon, 02 Jan 2006 15:04:05 MST";
      "Mon, 02 Jan 2006  MST";
      "Monday, January 2, 2006, 15:04 GMT -0700";
      "Monday, January 2, 2006, 15:04 GMT +0700";
      "Monday, January 2, 2006, 15:04 GMT -07:00";
      "Monday, January 2, 2006, 15:04 GMT +07:00";
      "Monday, January 2, 2006, 15:04 GMT-0700";
      "Monday, January 2, 2006, 15:04 GMT+0700";
      "Monday, January 2, 2006, 15:04 GMT-07:00";
      "Monday, January 2, 2006, 15:04 GMT+07:00";
      "Vie, 01/02/2006 - 15:04";
      "dom, 02 Jan 2006 15:04:05 -0700";
      "ven, 02 Jan 2006 15:04:05 MST";
      "Vie, 02 Jan 2006 15:04:05 -0700";
      "Jue, 02 Jan 06 15:04:05 -0700";
      "Mar, 02 Jan 2006 15:04:05 -0700";
      "Mar, 02 Ago 2006 15:04:05 -0700";
      "Domenica, 02 Marzo, 2006 - 15:04";
      "Domenica, 02 Gennaio, 2006 - 15:04";
      "Lunedì, 02 Gennaio, 2006 - 15:04";
      "Martedì, 02 Gennaio, 2006 - 15:04";
      "Mercoledì, 02 Gennaio, 2006 - 15:04";
      "Giovedì, 02 Gennaio, 2006 - 15:04";
      "Venerdì, 02 Gennaio, 2006 - 15:04";
      "Sabato, 02 Gennaio, 2006 - 15:04";
      "2006-01-02T15:04:05Z -0700";
      "02 Μαρ 2006 15:04:00 -0700";
      "02 Mars 2006";
      "02 مارس 2006";
      "Mon, 02 January 2006, 03:04:05 PM -0700";
      "Mon, 02 Jan 2006 03:04 PM MST";
      "Mon, 02 Jan 2006 03:04 AM MST";
      "02 January 2006 - 15:04";
      "02-01-2006 15:04";
      "15:04 02.01.2006";
      "02.01.2006 | 15:04";
      "Monday Jan 02 2006 15:04:05";
      "Monday Jan 2 2006 15:04:05";
      "January 02, 2006, 3:04 pm";
      "Jan 02, 2006, 3:04pm";
      "Jan 2, 2006, 3:04pm";
      "Jan 02, 2006, 3:04am";
      "Jan 2, 2006, 3:04am";
      "Monday 02 Jan 2006 15:04:05 -0700";
      "Mon,02 Jan 2006 15:04:05 -07";
      "Mon, 02 Jan 2006 15:04:05 z";
      "Mon, 2 Jan 2006 24:04:05 -0700";
      "Mon, 02 Jan 2006 24:04:05 -0700";
      "Mon, 02 Jan 2006 15:04:05 -0700";
      "Mon, 02 Jan 2006 03:04:05 PM";
      "Mon, 02 Jan 2006 03:04:05 AM";
      "Mon, 02 Jan 2006 15:04:05";
      "Vie, 02/01/2006 - 15:04";
      "02.01.2006";
      "Mon, 2 Jan 2006 3:04:05 PM";
      "Mon, 2 Jan 2006 3:04:05 AM";
      "Mon, 02 Jan 2006 3:04:05 PM";
      "Mon, 02 Jan 2006 3:04:05 AM";
      " Mon, 2 Jan 2006 15:04:05 MST ";
      "Mon, 02 Jan 2006 3:04:05 PM -0700";
      "Mon, Jan 2 2006 12:04:05 AM";
      "Mon, Jan 2 2006 03:04:05 PM";
      "2 Jan 2006 15:04 MST";
      "2 Jan 2006 15:04" ].

Section WithEnvironment.
Context {lz : LocalZone} {ck : Clock} {lib : GoParsers}.

    (** [parseEETEPattern]: an approximate time for the EETE_R pattern.
        The clock is read once for the year and, when the month name is
        not in [monthMap], once more for the month. *)
Definition parseEETEPattern (dateStr : string) : M (result time.Time) :=
      match eetePattern_FindStringSubmatch dateStr with
      | None =>
          ret (Err (fmt_Errorf "invalid EETE_R format: %s" [opString dateStr]))
      | Some matches =>
          if negb (List.length matches =? 5)%nat then
            ret (Err (fmt_Errorf "invalid EETE_R format: %s" [opString dateStr]))
          else
            let weekday := nth 1 matches "" in
            let ampm := nth 2 matches "" in
            let patternType := nth 3 matches "" in
            let month := nth 4 matches "" in
            now1 <- Now ;;
            let currentYear := time.Year now1 in
            monthNum <-
              match lookup monthMap (strings.ToLower month) with
              | Some m => ret m
              | None => now2 <- Now ;; ret (time.Month now2)
              end ;;
            let t := time.Date currentYear monthNum 1 0 0 0 0 in
            let weekdayNum := parseWeekday weekday in
            let t :=
              if 0 <=? weekdayNum then
                let daysToAdd := Z.rem (weekdayNum - time.Weekday t + 7) 7 in
                time.AddDate t 0 0 daysToAdd
              else t in
            let hour := if String.eqb ampm "PM" then 15 else 9 in
            let minute := if String.eqb patternType "EESTE_R" then 30 else 0 in
            ret (Ok (time.Date (time.Year t) (time.Month t) (time.Day t)
                               hour minute 0 0))
      end.

    (** The loop over [dateLayouts]: the first layout that parses wins. *)
Fixpoint tryLayouts (layouts : list string) (dateStr : string)
      : option time.Time :=
      match layouts with
      | [] => None
      | layout :: rest =>
          match time_Parse layout dateStr with
          | Some t => Some t
          | None => tryLayouts rest dateStr
          end
      end.

    (** The layout that wins for a string: the first one of the list
        that parses it. *)
Fixpoint matchedLayout (layouts : list string) (dateStr : string)
      : option string :=
      match layouts with
      | [] => None
      | layout :: rest =>
          match time_Parse layout dateStr with
          | Some _ => Some layout
          | None => matchedLayout rest dateStr
          end
      end.

    (** The two rewritings of [ParseDate] before the layouts are tried. *)
Definition substitute (dateStr : string) : string :=
      let dateStr :=
        if strings.Contains dateStr "Europe/Dublin"
        then strings.Replace1 dateStr "Europe/Dublin" "GMT"
        else dateStr in
      if strings.Contains dateStr "GMT +" || strings.Contains dateStr "GMT -"
      then strings.Replace1 (strings.Replace1 dateStr "GMT +" "GMT+")
                            "GMT -" "GMT-"
      else dateStr.

    (** [ParseDate] attempts to parse a date string using all available
        layouts. *)
Definition ParseDate (dateStr : string) : M (result time.Time) :=
      if strings.Contains dateStr "EETE_R" || strings.Contains dateStr "EESTE_R"
      then parseEETEPattern dateStr
      else
        let dateStr := substitute dateStr in
        match tryLayouts dateLayouts dateStr with
        | Some t => ret (Ok t)
        | None =>
            ret (Err (fmt_Errorf "unable to parse date: %s" [opString dateStr]))
        end.

    (** [ParseDateWithDefaultTZ] sets timezone to UTC if not specified. *)
Definition ParseDateWithDefaultTZ (dateStr : string)
      : M (result time.Time) :=
      r <- ParseDate dateStr ;;
      match r with
      | Err err => ret (Err err)
      | Ok t =>
          if time.Location_eqb (time.Location_ t) time.Local
          then ret (Ok (time.Time_UTC t))
          else ret (Ok t)
      end.

End WithEnvironment.

End dateparser.

(* ===================================================================== *)
(** * Package [validation]                                                *)
(* ===================================================================== *)

Module validation.

  (** [ValidateAndSanitizeHeadline] cleans and validates the item
      headline. *)
Definition ValidateAndSanitizeHeadline (rawHeadline : string) (maxLength : Z)
    : result string :=
    if String.eqb rawHeadline "" then Err (Sentinel ErrEmptyHeadline)
    else
      let headline := spaceRegexp_ReplaceAllString rawHeadline in
      let headline := strings.TrimSpace headline in
      if maxLength <? utf8.RuneCountInString headline
      then Err (Sentinel ErrHeadlineTooLong)
      else Ok headline.

  (** [ExtractContent] gets the best available content from an item. *)
Definition ExtractContent (item : gofeed.Item) : string :=
    let content := strings.TrimSpace (gofeed.Description item) in
    if negb (String.eqb content "") then content
    else strings.TrimSpace (gofeed.Content item).

Section WithEnvironment.
Context {lz : LocalZone} {ck : Clock} {lib : GoParsers}.

    (** [ValidateAndResolveURL] validates and resolves a relative url
        against the feed url. *)
Definition ValidateAndResolveURL (feedURL : url.URL) (rawURL : string)
      : result string :=
      let rawURL := strings.TrimSpace rawURL in
      if String.eqb rawURL "" then Err (Sentinel ErrInvalidURL)
      else
        match url_Parse rawURL with
        | Err err =>
            Err (fmt_Errorf "%w: %s"
                   [opWrapped (Sentinel ErrInvalidURL); opError err])
        | Ok parsed => Ok (url.String_ (url.ResolveReference feedURL parsed))
        end.

    (** [ValidatePublicationDate] validates that the item's publication
        date is within acceptable bounds.  The item is behind a pointer:
        the function stores a freshly parsed date in [PublishedParsed], so
        the item as it is afterwards is returned with the result. *)
Definition ValidatePublicationDate (item : gofeed.Item)
        (maxAge futureTolerance : time.Duration)
      : M (gofeed.Item * result time.Time) :=
      resolved <-
        match gofeed.PublishedParsed item with
        | Some parsed => ret (Ok (item, parsed))
        | None =>
            let pubDate := gofeed.Published item in
            if String.eqb pubDate "" then
              ret (Err (Sentinel ErrMissingPublishDate))
            else
              r <- dateparser.ParseDateWithDefaultTZ pubDate ;;
              match r with
              | Ok t => ret (Ok (gofeed.setPublishedParsed item t, t))
              | Err err =>
                  ret (Err (fmt_Errorf "%w: %s"
                              [opWrapped (Sentinel ErrFeedPublicationDateFormat);
                               opError err]))
              end
        end ;;
      match resolved with
      | Err err => ret (item, Err err)
      | Ok (item, parsed) =>
          t <- Now ;;
          let now := time.Time_UTC t in
          let pubDate := time.Time_UTC parsed in
          if futureTolerance <? time.Sub pubDate now
          then ret (item, Err (Sentinel ErrFuturePublication))
          else if maxAge <? time.Sub now pubDate
          then ret (item, Err (Sentinel ErrPublicationTooOld))
          else ret (item, Ok pubDate)
      end.

    (** The entry has a publication instant: the decoder supplied one, or
        the raw date is there and [ParseDateWithDefaultTZ], called when the
        clock has been read [n] times, yields one and leaves the clock at
        [n1] readings. *)
Definition resolvesTo (item : gofeed.Item) (n : nat)
        (parsed : time.Time) (n1 : nat) : Prop :=
      (gofeed.PublishedParsed item = Some parsed /\ n1 = n)
      \/ (gofeed.PublishedParsed item = None
          /\ gofeed.Published item <> ""
          /\ dateparser.ParseDateWithDefaultTZ (gofeed.Published item) n
             = (Ok parsed, n1)).

End WithEnvironment.

End validation.

(* ===================================================================== *)
(** * Packages [limiter] and [feedparser]                                 *)
(* ===================================================================== *)

Module context.

Inductive Context :=
  | Background
  | WithCancel (parent : Context) (canceled : bool)
  | WithTimeout (parent : Context) (timeout : time.Duration).

End context.

(** golang.org/x/time/rate, as far as package [limiter] uses it: the
    limiters are made and kept, nothing of them is read. *)
Module rate.

Section Limit.
  (** [rate.Limit], a [float64] number of events per second. *)
Variable Limit : Type.

  (** A limiter as [rate.NewLimiter(r, b)] makes it. *)
Record Limiter := mkLimiter { limit : Limit; burst : Z }.

  (** The limiters allocated so far, in the order of their allocation; a
      [*rate.Limiter] is the index of its limiter. *)
Definition Heap := list Limiter.

  (** [rate.NewLimiter(r, b)]: a pointer to a limiter of its own. *)
Definition NewLimiter (r : Limit) (b : Z) (heap : Heap) : nat * Heap :=
    (List.length heap, (heap ++ [mkLimiter r b])%list).

End Limit.

Arguments mkLimiter {Limit} limit burst.
Arguments limit {Limit} l.
Arguments burst {Limit} l.
Arguments NewLimiter {Limit} r b heap.

End rate.

Module limiter.

  (** The interface [RateLimiter], for the limiter [getLimiter] keeps for
      a domain: what [Wait(ctx)] on it returns ([None] for a nil error).
      How long the call blocks is not part of the model. *)
Class RateLimiter := Wait : string -> context.Context -> option error.

Section Domains.
Variable Limit : Type.

  (** [DomainRateLimiter] limits requests by domain.  The map is a list of
      bindings of which the first for a key counts; the mutex is in the
      steps of [getLimiter] below. *)
Record DomainRateLimiter := mkDomainRateLimiter
    { limiters : list (string * nat);
      r : Limit;
      b : Z }.

  (** [NewDomainRateLimiter] creates a rate limiter that limits by
      domain. *)
Definition NewDomainRateLimiter (r : Limit) (b : Z) : DomainRateLimiter :=
    mkDomainRateLimiter [] r b.

  (** The first part of [getLimiter]: the map is read under the read
      lock. *)
Definition readLocked (l : DomainRateLimiter) (domain : string) : option nat :=
    dateparser.lookup (limiters l) domain.

  (** The second part, under the write lock: the map is read once more,
      and a limiter is made and stored when the domain still has none. *)
Definition writeLocked (l : DomainRateLimiter) (domain : string)
      (heap : rate.Heap Limit) : nat * DomainRateLimiter * rate.Heap Limit :=
    match dateparser.lookup (limiters l) domain with
    | Some limiter => (limiter, l, heap)
    | None =>
        let (limiter, heap') := rate.NewLimiter (r l) (b l) heap in
        (limiter,
         mkDomainRateLimiter ((domain, limiter) :: limiters l) (r l) (b l),
         heap')
    end.

  (** [getLimiter] gets or creates a limiter for a domain: the call of one
      goroutine with no other at work. *)
Definition getLimiter (l : DomainRateLimiter) (domain : string)
      (heap : rate.Heap Limit) : nat * DomainRateLimiter * rate.Heap Limit :=
    match readLocked l domain with
    | Some limiter => (limiter, l, heap)
    | None => writeLocked l domain heap
    end.

  (** A call of [getLimiter] by one goroutine among others: where it is,
      with its local variables.  The read lock keeps every writer out
      while the map is read, and the write lock keeps everyone out from
      the second reading to the assignment, so each of the two is one step
      for the other goroutines. *)
Inductive call :=
  | entered (domain : string)
  | looked (domain : string) (limiter : option nat)
  | returned (domain : string) (limiter : nat).

  (** One step of a call. *)
Definition advance (c : call) (l : DomainRateLimiter) (heap : rate.Heap Limit)
      : call * DomainRateLimiter * rate.Heap Limit :=
    match c with
    | entered domain => (looked domain (readLocked l domain), l, heap)
    | looked domain (Some limiter) => (returned domain limiter, l, heap)
    | looked domain None =>
        let '(limiter, l', heap') := writeLocked l domain heap in
        (returned domain limiter, l', heap')
    | returned _ _ => (c, l, heap)
    end.

  (** The goroutines at work on one [DomainRateLimiter]. *)
Record world := mkWorld
    { shared : DomainRateLimiter;
      heap : rate.Heap Limit;
      calls : list call }.

Fixpoint replace {A} (i : nat) (x : A) (l : list A) : list A :=
    match l, i with
    | [], _ => []
    | _ :: l', O => x :: l'
    | y :: l', S i' => y :: replace i' x l'
    end.

  (** The goroutine [i] takes its next step (nothing happens when there is
      no such goroutine). *)
Definition step (w : world) (i : nat) : world :=
    match nth_error (calls w) i with
    | None => w
    | Some c =>
        let '(c', l', heap') := advance c (shared w) (heap w) in
        mkWorld l' heap' (replace i c' (calls w))
    end.

  (** A schedule names the goroutine that takes each step in turn. *)
Definition run (schedule : list nat) (w : world) : world :=
    fold_left step schedule w.

  (** Calls for the given domains, all about to start, on a limiter that
      [NewDomainRateLimiter] has just made. *)
Definition start (r : Limit) (b : Z) (heap : rate.Heap Limit)
      (domains : list string) : world :=
    mkWorld (NewDomainRateLimiter r b) heap (map entered domains).

  (** A call knows the limiter of its domain, if it knows one. *)
Definition known (m : list (string * nat)) (domains : list string)
      (c : call) : Prop :=
    match c with
    | entered d => In d domains
    | looked d o =>
        In d domains /\ forall p, o = Some p -> dateparser.lookup m d = Some p
    | returned d p => In d domains /\ dateparser.lookup m d = Some p
    end.

  (** What holds of a [DomainRateLimiter] made with a limit and a burst, whatever
      the goroutines have done so far: it has made one limiter for each
      domain of its map, after the limiters [heap0] that were there, and
      no call holds another limiter than the one of its domain. *)
Definition sound (limit : Limit) (burst : Z) (heap0 : rate.Heap Limit)
      (domains : list string) (w : world) : Prop :=
    let m := limiters (shared w) in
    r (shared w) = limit
    /\ b (shared w) = burst
    /\ NoDup (map fst m)
    /\ map snd m = rev (seq (List.length heap0) (List.length m))
    /\ heap w
       = (heap0 ++ repeat (rate.mkLimiter limit burst) (List.length m))%list
    /\ Forall (known m domains) (calls w).

End Domains.

Arguments mkDomainRateLimiter {Limit} limiters r b.
Arguments limiters {Limit} d.
Arguments r {Limit} d.
Arguments b {Limit} d.
Arguments NewDomainRateLimiter {Limit} r b.
Arguments readLocked {Limit} l domain.
Arguments writeLocked {Limit} l domain heap.
Arguments getLimiter {Limit} l domain heap.
Arguments advance {Limit} c l heap.
Arguments mkWorld {Limit} shared heap calls.
Arguments shared {Limit} w.
Arguments heap {Limit} w.
Arguments calls {Limit} w.
Arguments step {Limit} w i.
Arguments run {Limit} schedule w.
Arguments start {Limit} r b heap domains.
Arguments sound {Limit} limit burst heap0 domains w.

Section WithEnvironment.
Context {lib : GoParsers} {rl : RateLimiter}.

    (** [WaitForDomain] waits until a request is allowed for the domain. *)
Definition WaitForDomain (ctx : context.Context) (urlStr : string)
      : option error :=
      match url_Parse urlStr with
      | Err err =>
          Some (fmt_Errorf "failed to parse URL for rate limiting: %w"
                  [opWrapped err])
      | Ok u =>
          let host := strings.TrimPrefix (url.Host u) "www." in
          if String.eqb host "" then
            Some (fmt_Errorf "empty host in URL: %s" [opString urlStr])
          else Wait host ctx
      end.

End WithEnvironment.

End limiter.

Module feedparser.

  (** The interface [Parser]. *)
Class Parser :=
    ParseURLWithContext : string -> context.Context -> result gofeed.Feed.

  (** The parser of the gofeed library with its [UserAgent] set: what
      [ParseURLWithContext(url, ctx)] on it returns. *)
Class GoFeed :=
    gofeed_ParseURLWithContext
      : string -> string -> context.Context -> result gofeed.Feed.

  (** [NewGoFeedParser(userAgent)]: a [GoFeedParser], whose
      [ParseURLWithContext] hands the call to the gofeed parser it
      holds. *)
Definition NewGoFeedParser {gf : GoFeed} (userAgent : string) : Parser :=
    gofeed_ParseURLWithContext userAgent.

End feedparser.

(* ===================================================================== *)
(** * Package [FeedFetcher]                                               *)
(* ===================================================================== *)

Module FeedFetcher.

  (** [Config] holds the configuration for the feed fetcher. *)
Record Config := mkConfig
    { UserAgent : string;
      RequestTimeout : time.Duration;
      MaxItems : Z;
      MaxHeadingLength : Z;
      MaxAge : time.Duration;
      FutureDriftTolerance : time.Duration }.

Definition DefaultConfig : Config :=
    mkConfig
      "Mozilla/5.0 (compatible; ReddotWatchBot/1.0; +https://reddot.watch/bot)"
      (10 * time.Second) 1000 250 (24 * time.Hour) (24 * time.Hour).

  (** [FeedItem] represents a single item from a feed. *)
Record FeedItem := mkFeedItem
    { ID : Z;
      FeedURL : string;
      URL : string;
      Headline : string;
      Content : string;
      PublishedAt : time.Time }.

  (** [FeedFetcher] handles retrieving and processing feed data (the
      logger is left out: nothing it does reaches a result). *)
Record FeedFetcher := mkFeedFetcher
    { config : Config;
      parser : feedparser.Parser;
      rateLimiter : limiter.RateLimiter }.

Record feed := mkfeed
    { feed_url : string;
      parsedURL : option url.URL;
      data : option gofeed.Feed }.

  (** The setters: each returns a copy of the fetcher with one setting
      changed; the copy holds the same rate limiter as the original. *)
Definition WithMaxItems (f : FeedFetcher) (maxItems : Z) : FeedFetcher :=
    let c := config f in
    mkFeedFetcher
      (mkConfig (UserAgent c) (RequestTimeout c) maxItems (MaxHeadingLength c)
                (MaxAge c) (FutureDriftTolerance c))
      (parser f) (rateLimiter f).

Definition WithMaxAge (f : FeedFetcher) (duration : time.Duration)
    : FeedFetcher :=
    let c := config f in
    mkFeedFetcher
      (mkConfig (UserAgent c) (RequestTimeout c) (MaxItems c)
                (MaxHeadingLength c) duration (FutureDriftTolerance c))
      (parser f) (rateLimiter f).

  (** [WithUserAgent] also replaces the parser by a new one made for the
      user agent. *)
Definition WithUserAgent {gf : feedparser.GoFeed} (f : FeedFetcher)
      (userAgent : string) : FeedFetcher :=
    let c := config f in
    mkFeedFetcher
      (mkConfig userAgent (RequestTimeout c) (MaxItems c) (MaxHeadingLength c)
                (MaxAge c) (FutureDriftTolerance c))
      (feedparser.NewGoFeedParser userAgent) (rateLimiter f).

Definition WithRequestTimeout (f : FeedFetcher) (timeout : time.Duration)
    : FeedFetcher :=
    let c := config f in
    mkFeedFetcher
      (mkConfig (UserAgent c) timeout (MaxItems c) (MaxHeadingLength c)
                (MaxAge c) (FutureDriftTolerance c))
      (parser f) (rateLimiter f).

Definition WithMaxHeadingLength (f : FeedFetcher) (length : Z) : FeedFetcher :=
    let c := config f in
    mkFeedFetcher
      (mkConfig (UserAgent c) (RequestTimeout c) (MaxItems c) length
                (MaxAge c) (FutureDriftTolerance c))
      (parser f) (rateLimiter f).

Definition WithFutureDriftTolerance (f : FeedFetcher)
      (duration : time.Duration) : FeedFetcher :=
    let c := config f in
    mkFeedFetcher
      (mkConfig (UserAgent c) (RequestTimeout c) (MaxItems c)
                (MaxHeadingLength c) (MaxAge c) duration)
      (parser f) (rateLimiter f).

Section WithEnvironment.
Context {lz : LocalZone} {ck : Clock} {lib : GoParsers}.

Definition newFeed (f : FeedFetcher) (feedURL : string) : result feed :=
      match url_Parse feedURL with
      | Err err =>
          Err (fmt_Errorf "invalid feed url %s: %w"
                 [opString feedURL; opWrapped err])
      | Ok parsedURL => Ok (mkfeed feedURL (Some parsedURL) None)
      end.

    (** [download] retrieves a feed from the given url.  The clock is read
        for the log entry: once before the retrieval and once more after a
        successful one. *)
Definition download (f : FeedFetcher) (ctx : context.Context) (fd : feed)
      : M (feed * option error) :=
      let ctx := context.WithTimeout ctx (RequestTimeout (config f)) in
      startTime <- Now ;;
      match @feedparser.ParseURLWithContext (parser f) (feed_url fd) ctx with
      | Err err =>
          if errors.Is err context_DeadlineExceeded then
            ret (fd, Some (fmt_Errorf "timed out after %v fetching feed %s: %w"
                             [opDuration (RequestTimeout (config f));
                              opString (feed_url fd); opWrapped err]))
          else if errors.Is err context_Canceled then
            ret (fd, Some (fmt_Errorf "feed fetch canceled for %s: %w"
                             [opString (feed_url fd); opWrapped err]))
          else
            ret (fd, Some (fmt_Errorf "failed to parse feed url %s: %w"
                             [opString (feed_url fd); opWrapped err]))
      | Ok result =>
          since <- Now ;;
          ret (mkfeed (feed_url fd) (parsedURL fd) (Some result), None)
      end.

Definition validateAndConvertItem (f : FeedFetcher)
        (feedURL : option url.URL) (item : option gofeed.Item)
      : M (option gofeed.Item * result FeedItem) :=
      match feedURL, item with
      | Some feedURL, Some item =>
          match validation.ValidateAndResolveURL feedURL (gofeed.Link item) with
          | Err err => ret (Some item, Err err)
          | Ok itemURL =>
              r <- validation.ValidatePublicationDate item
                     (MaxAge (config f)) (FutureDriftTolerance (config f)) ;;
              let (item, dated) := r in
              match dated with
              | Err err => ret (Some item, Err err)
              | Ok publishedAt =>
                  match validation.ValidateAndSanitizeHeadline
                          (gofeed.Title item) (MaxHeadingLength (config f)) with
                  | Err err => ret (Some item, Err err)
                  | Ok headline =>
                      let content := validation.ExtractContent item in
                      ret (Some item,
                           Ok (mkFeedItem 0 (url.String_ feedURL) itemURL
                                          headline content publishedAt))
                  end
              end
          end
      | _, _ => ret (item, Err (errors_New "feedURL and item cannot be nil"))
      end.

    (** The loop of [extractItems] over [feed.data.Items[0:itemCount]],
        with the slice [result] built so far.  Every index is visited
        once, and the decoder allocates each item by itself, so the date
        [ValidatePublicationDate] stores in an item is not read again: the
        items as they are afterwards are dropped here. *)
Fixpoint extractLoop (f : FeedFetcher) (feedURL : option url.URL)
        (items : list (option gofeed.Item)) (result : list FeedItem)
      : M (list FeedItem * option error) :=
      match items with
      | [] => ret (result, None)
      | None :: rest => extractLoop f feedURL rest result
      | Some item :: rest =>
          r <- validateAndConvertItem f feedURL (Some item) ;;
          match snd r with
          | Err err =>
              if errors.Is err ErrFeedPublicationDateFormat then
                ret ([], Some (Sentinel ErrFeedPublicationDateFormat))
              else extractLoop f feedURL rest result
          | Ok parsed => extractLoop f feedURL rest (result ++ [parsed])
          end
      end.

    (** What the validation of one entry returns when the clock has been
        read [n] times. *)
Definition outcome (f : FeedFetcher) (feedURL : url.URL)
        (item : gofeed.Item) (n : nat) : result FeedItem :=
      snd (fst (validateAndConvertItem f (Some feedURL) (Some item) n)).

    (** The entries validated one after the other, and those accepted kept
        in their order: what a batch without a date-format failure is to
        return. *)
Fixpoint accepted (f : FeedFetcher) (feedURL : url.URL)
        (items : list (option gofeed.Item)) (n : nat) : list FeedItem * nat :=
      match items with
      | [] => ([], n)
      | None :: rest => accepted f feedURL rest n
      | Some item :: rest =>
          let '(r, n1) := validateAndConvertItem f (Some feedURL) (Some item) n in
          let '(l, n2) := accepted f feedURL rest n1 in
          (match snd r with Ok parsed => parsed :: l | Err _ => l end, n2)
      end.

    (** How many items [extractItems] processes. *)
Definition itemCount (f : FeedFetcher) (items : list (option gofeed.Item))
      : Z :=
      let n := Z.of_nat (List.length items) in
      if (0 <? MaxItems (config f)) && (MaxItems (config f) <? n)
      then MaxItems (config f) else n.

    (** The entries [extractItems] goes through: the first [itemCount]. *)
Definition processed (f : FeedFetcher) (items : list (option gofeed.Item))
      : list (option gofeed.Item) :=
      firstn (Z.to_nat (itemCount f items)) items.

    (** [extractItems].  A feed without [data] makes the Go function
        panic on [feed.data.Items]; [FetchAndProcess] never passes one, and
        the model answers with an error value that marks the panic. *)
Definition extractItems (f : FeedFetcher) (fd : option feed)
      : M (list FeedItem * option error) :=
      match fd with
      | None => ret ([], Some (errors_New "feed cannot be nil"))
      | Some fd =>
          match data fd with
          | None => ret ([], Some (errors_New "panic: nil pointer dereference"))
          | Some d =>
              extractLoop f (parsedURL fd) (processed f (gofeed.Items d)) []
          end
      end.

    (** [FetchAndProcess] fetches and processes a feed, returning the
        parsed items. *)
Definition FetchAndProcess (f : FeedFetcher) (ctx : context.Context)
        (feedURL : string) : M (list FeedItem * option error) :=
      match @limiter.WaitForDomain lib (rateLimiter f) ctx feedURL with
      | Some err => ret ([], Some err)
      | None =>
          match newFeed f feedURL with
          | Err err => ret ([], Some err)
          | Ok ff =>
              r <- download f ctx ff ;;
              match r with
              | (_, Some err) => ret ([], Some err)
              | (ff, None) => extractItems f (Some ff)
              end
          end
      end.

End WithEnvironment.

End FeedFetcher.

(* ===================================================================== *)
(** * A model of [time.Parse] (Go's time/format.go)                       *)
(* ===================================================================== *)

(** The program hands every layout of [dateLayouts] to [time.Parse].  The
    theorems below hold for any [time_Parse]; this model follows the
    library's algorithm and is what the program is run with on concrete
    inputs. *)
Module timefmt.

Inductive std :=
  | stdLongMonth | stdMonth | stdNumMonth | stdZeroMonth
  | stdLongWeekDay | stdWeekDay
  | stdDay | stdUnderDay | stdZeroDay | stdUnderYearDay | stdZeroYearDay
  | stdHour | stdHour12 | stdZeroHour12
  | stdMinute | stdZeroMinute | stdSecond | stdZeroSecond
  | stdLongYear | stdYear | stdPM | stdpm | stdTZ
  | stdISO8601TZ | stdISO8601SecondsTZ | stdISO8601ShortTZ
  | stdISO8601ColonTZ | stdISO8601ColonSecondsTZ
  | stdNumTZ | stdNumSecondsTz | stdNumShortTZ
  | stdNumColonTZ | stdNumColonSecondsTZ
  | stdFracSecond0 (digits : nat)
  | stdFracSecond9 (digits : nat).

Definition isDigit (s : string) : bool :=
    match s with
    | String c _ => (48 <=? byte c) && (byte c <=? 57)
    | EmptyString => false
    end.

Definition startsWithLowerCase (s : string) : bool :=
    match s with
    | String c _ => unicode.isLowerAZ c
    | EmptyString => false
    end.

  (** The longest run of the byte [ch] at the head of [s]: its length and
      what follows. *)
Fixpoint run (ch : ascii) (s : string) : nat * string :=
    match s with
    | String c s' =>
        if Ascii.eqb c ch then let (n, r) := run ch s' in (S n, r)
        else (O, s)
    | EmptyString => (O, s)
    end.

Definition after (n : nat) (k : std) (layout : string)
    : option (string * std * string) :=
    Some (EmptyString, k, drop n layout).

  (** One step of the scan of [nextStdChunk]: the element that starts at
      the head of [layout], with the text the library counts to the prefix
      (the underscore of [_2006]). *)
Definition stdAt (layout : string) : option (string * std * string) :=
    let has := strings.HasPrefix layout in
    match layout with
    | EmptyString => None
    | String c rest =>
        if Ascii.eqb c "J" then
          if has "Jan" then
            if has "January" then after 7 stdLongMonth layout
            else if negb (startsWithLowerCase (drop 3 layout))
            then after 3 stdMonth layout else None
          else None
        else if Ascii.eqb c "M" then
          if has "Monday" then after 6 stdLongWeekDay layout
          else if has "Mon" && negb (startsWithLowerCase (drop 3 layout))
          then after 3 stdWeekDay layout
          else if has "MST" then after 3 stdTZ layout
          else None
        else if Ascii.eqb c "0" then
          if has "01" then after 2 stdZeroMonth layout
          else if has "02" then after 2 stdZeroDay layout
          else if has "03" then after 2 stdZeroHour12 layout
          else if has "04" then after 2 stdZeroMinute layout
          else if has "05" then after 2 stdZeroSecond layout
          else if has "06" then after 2 stdYear layout
          else if has "002" then after 3 stdZeroYearDay layout
          else None
        else if Ascii.eqb c "1" then
          if has "15" then after 2 stdHour layout
          else after 1 stdNumMonth layout
        else if Ascii.eqb c "2" then
          if has "2006" then after 4 stdLongYear layout
          else after 1 stdDay layout
        else if Ascii.eqb c "_" then
          if has "_2" then
            if has "_2006" then Some ("_", stdLongYear, drop 5 layout)
            else after 2 stdUnderDay layout
          else if has "__2" then after 3 stdUnderYearDay layout
          else None
        else if Ascii.eqb c "3" then after 1 stdHour12 layout
        else if Ascii.eqb c "4" then after 1 stdMinute layout
        else if Ascii.eqb c "5" then after 1 stdSecond layout
        else if Ascii.eqb c "P" then
          if has "PM" then after 2 stdPM layout else None
        else if Ascii.eqb c "p" then
          if has "pm" then after 2 stdpm layout else None
        else if Ascii.eqb c "-" then
          if has "-070000" then after 7 stdNumSecondsTz layout
          else if has "-07:00:00" then after 9 stdNumColonSecondsTZ layout
          else if has "-0700" then after 5 stdNumTZ layout
          else if has "-07:00" then after 6 stdNumColonTZ layout
          else if has "-07" then after 3 stdNumShortTZ layout
          else None
        else if Ascii.eqb c "Z" then
          if has "Z070000" then after 7 stdISO8601SecondsTZ layout
          else if has "Z07:00:00" then after 9 stdISO8601ColonSecondsTZ layout
          else if has "Z0700" then after 5 stdISO8601TZ layout
          else if has "Z07:00" then after 6 stdISO8601ColonTZ layout
          else if has "Z07" then after 3 stdISO8601ShortTZ layout
          else None
        else if Ascii.eqb c "." || Ascii.eqb c "," then
          match rest with
          | String ch _ =>
              if Ascii.eqb ch "0" || Ascii.eqb ch "9" then
                let (n, suffix) := run ch rest in
                if negb (isDigit suffix) then
                  Some (EmptyString,
                        (if Ascii.eqb ch "0" then stdFracSecond0 n
                         else stdFracSecond9 n),
                        suffix)
                else None
              else None
          | EmptyString => None
          end
        else None
    end.

  (** [nextStdChunk(layout)]: the text before the first element, the
      element ([None] for Go's 0) and the text after it. *)
Fixpoint nextStdChunk (layout : string) : string * option std * string :=
    match stdAt layout with
    | Some (p, k, suffix) => (p, Some k, suffix)
    | None =>
        match layout with
        | EmptyString => (EmptyString, None, EmptyString)
        | String c l' =>
            let '(p, k, suffix) := nextStdChunk l' in (String c p, k, suffix)
        end
    end.

  (** The layout cut into its elements, each with the text before it; the
      text after the last element comes alone at the end.  This is the
      sequence the loop of [parse] goes through. *)
Fixpoint chunks (fuel : nat) (layout : string)
    : list (string * std) * string :=
    match fuel with
    | O => ([], layout)
    | S f =>
        match nextStdChunk layout with
        | (prefix, Some k, suffix) =>
            let (l, tail) := chunks f suffix in ((prefix, k) :: l, tail)
        | (prefix, None, _) => ([], prefix)
        end
    end.

Definition layoutChunks (layout : string) : list (string * std) * string :=
    chunks (S (String.length layout)) layout.

Definition isZoneStd (k : std) : bool :=
    match k with
    | stdTZ
    | stdISO8601TZ | stdISO8601SecondsTZ | stdISO8601ShortTZ
    | stdISO8601ColonTZ | stdISO8601ColonSecondsTZ
    | stdNumTZ | stdNumSecondsTz | stdNumShortTZ
    | stdNumColonTZ | stdNumColonSecondsTZ => true
    | _ => false
    end.

  (** Whether the layout has an element that reads a time zone. *)
Definition hasZoneToken (layout : string) : bool :=
    existsb (fun c => isZoneStd (snd c)) (fst (layoutChunks layout)).

  (** ** Reading the value *)

Fixpoint cutspace (s : string) : string :=
    match s with
    | String c s' => if Ascii.eqb c " " then cutspace s' else s
    | EmptyString => s
    end.

  (** [skip(value, prefix)]: the literal text of the layout must be at the
      head of the value; a run of spaces of the layout stands for any run
      of spaces of the value.  [inSpaces] tells that the head of [prefix]
      continues a run of spaces already dealt with. *)
Fixpoint skip (value prefix : string) (inSpaces : bool) : option string :=
    match prefix with
    | EmptyString => Some value
    | String p prefix' =>
        if Ascii.eqb p " " then
          if inSpaces then skip value prefix' true
          else
            match value with
            | String v _ =>
                if Ascii.eqb v " " then skip (cutspace value) prefix' true
                else None
            | EmptyString => skip value prefix' true
            end
        else
          match value with
          | String v value' =>
              if Ascii.eqb v p then skip value' prefix' false else None
          | EmptyString => None
          end
    end.

Definition digit (c : ascii) : Z := byte c - 48.

  (** [getnum(s, fixed)]: one or two digits, two of them when [fixed]. *)
Definition getnum (s : string) (fixed : bool) : option (Z * string) :=
    match s with
    | String c0 s1 =>
        if isDigit s then
          if isDigit s1 then
            match s1 with
            | String c1 s2 => Some (digit c0 * 10 + digit c1, s2)
            | EmptyString => None
            end
          else if fixed then None else Some (digit c0, s1)
        else None
    | EmptyString => None
    end.

  (** The digits at the head of [s], at most [k] of them, read as a
      number after [n]; with their count. *)
Fixpoint digits (k : nat) (n : Z) (s : string) : Z * nat * string :=
    match k with
    | O => (n, O, s)
    | S k' =>
        match s with
        | String c s' =>
            if isDigit s then
              let '(m, i, r) := digits k' (n * 10 + digit c) s' in (m, S i, r)
            else (n, O, s)
        | EmptyString => (n, O, s)
        end
    end.

  (** [getnum3(s, fixed)]. *)
Definition getnum3 (s : string) (fixed : bool) : option (Z * string) :=
    let '(n, i, r) := digits 3 0 s in
    if (i =? 0)%nat || (fixed && negb (i =? 3)%nat) then None else Some (n, r).

  (** [leadingInt(s)], started with [x]: fails where the number leaves
      [uint64] range as the library watches it. *)
Fixpoint leadingInt (x : Z) (s : string) : option (Z * string) :=
    match s with
    | String c s' =>
        if isDigit s then
          if 2 ^ 63 / 10 <? x then None
          else
            let x' := x * 10 + digit c in
            if 2 ^ 63 <? x' then None else leadingInt x' s'
        else Some (x, s)
    | EmptyString => Some (x, s)
    end.

  (** [atoi(s)]: an optional sign and digits up to the end of [s]. *)
Definition atoi (s : string) : option Z :=
    let (neg, body) :=
      match s with
      | String c s' =>
          if Ascii.eqb c "-" then (true, s')
          else if Ascii.eqb c "+" then (false, s')
          else (false, s)
      | EmptyString => (false, s)
      end in
    match leadingInt 0 body with
    | Some (q, EmptyString) => Some (if neg then - q else q)
    | _ => None
    end.

Definition foldByte (c : ascii) : Z := Z.lor (byte c) 32.

  (** [match(s1, s2)] for [s1] the head of the value: equal up to the case
      of ASCII letters. *)
Fixpoint matchPrefix (val v : string) {struct v} : option string :=
    match v with
    | EmptyString => Some val
    | String c2 v' =>
        match val with
        | String c1 val' =>
            if Ascii.eqb c1 c2
               || ((foldByte c1 =? foldByte c2)
                   && (97 <=? foldByte c1) && (foldByte c1 <=? 122))
            then matchPrefix val' v' else None
        | EmptyString => None
        end
    end.

  (** [lookup(tab, val)]: the index of the first name of [tab] the value
      starts with, and the rest of the value. *)
Fixpoint lookup (tab : list string) (val : string) (i : Z)
    : option (Z * string) :=
    match tab with
    | [] => None
    | v :: tab' =>
        match matchPrefix val v with
        | Some rest => Some (i, rest)
        | None => lookup tab' val (i + 1)
        end
    end.

Definition shortDayNames : list string :=
    ["Sun"; "Mon"; "Tue"; "Wed"; "Thu"; "Fri"; "Sat"].

Definition longDayNames : list string :=
    ["Sunday"; "Monday"; "Tuesday"; "Wednesday"; "Thursday"; "Friday";
     "Saturday"].

Definition shortMonthNames : list string :=
    ["Jan"; "Feb"; "Mar"; "Apr"; "May"; "Jun"; "Jul"; "Aug"; "Sep"; "Oct";
     "Nov"; "Dec"].

Definition longMonthNames : list string :=
    ["January"; "February"; "March"; "April"; "May"; "June"; "July";
     "August"; "September"; "October"; "November"; "December"].

Definition commaOrPeriod (s : string) : bool :=
    match s with
    | String c _ => Ascii.eqb c "." || Ascii.eqb c ","
    | EmptyString => false
    end.

  (** [parseNanoseconds(value, nbytes)]. *)
Definition parseNanoseconds (value : string) (nbytes : nat) : option Z :=
    if commaOrPeriod value then
      let nbytes := Nat.min nbytes 10 in
      match atoi (drop 1 (take nbytes value)) with
      | Some ns => if ns <? 0 then None else Some (ns * 10 ^ Z.of_nat (10 - nbytes))
      | None => None
      end
    else None.

  (** [parseSignedOffset(value)]: the length of a sign and a number up to
      23 at the head of the value, 0 when there is none. *)
Definition parseSignedOffset (value : string) : nat :=
    match value with
    | String sign v1 =>
        if Ascii.eqb sign "-" || Ascii.eqb sign "+" then
          match leadingInt 0 v1 with
          | Some (x, rem) =>
              if String.eqb v1 rem || (23 <? x) then O
              else (String.length value - String.length rem)%nat
          | None => O
          end
        else O
    | EmptyString => O
    end.

  (** The number of upper-case letters at the head, up to [k]. *)
Fixpoint countUpper (k : nat) (s : string) : nat :=
    match k, s with
    | S k', String c s' =>
        if unicode.isUpperAZ c then S (countUpper k' s') else O
    | _, _ => O
    end.

  (** [parseTimeZone(value)]: the length of the zone abbreviation at the
      head of the value. *)
Definition parseTimeZone (value : string) : option nat :=
    if (String.length value <? 3)%nat then None
    else if strings.HasPrefix value "ChST" || strings.HasPrefix value "MeST"
    then Some 4%nat
    else if strings.HasPrefix value "GMT" then
      Some (if String.eqb (drop 3 value) "" then 3%nat
            else (3 + parseSignedOffset (drop 3 value))%nat)
    else if strings.HasPrefix value "+" || strings.HasPrefix value "-" then
      match parseSignedOffset value with
      | O => None
      | n => Some n
      end
    else
      match countUpper 6 value with
      | 5%nat => if String.eqb (take 1 (drop 4 value)) "T" then Some 5%nat else None
      | 4%nat =>
          if String.eqb (take 1 (drop 3 value)) "T" || strings.HasPrefix value "WITA"
          then Some 4%nat else None
      | 3%nat => Some 3%nat
      | _ => None
      end.

  (** The time under construction. *)
Record fields := mkFields
    { year : Z; month : Z; day : Z; yday : Z;
      hour : Z; min : Z; sec : Z; nsec : Z;
      zUTC : bool; zoneOffset : Z; zoneName : string;
      pmSet : bool; amSet : bool }.

Definition init : fields :=
    mkFields 0 (-1) (-1) (-1) 0 0 0 0 false (-1) EmptyString false false.

Definition setYear (f : fields) (v : Z) : fields :=
    mkFields v (month f) (day f) (yday f) (hour f) (min f) (sec f) (nsec f)
             (zUTC f) (zoneOffset f) (zoneName f) (pmSet f) (amSet f).
Definition setMonth (f : fields) (v : Z) : fields :=
    mkFields (year f) v (day f) (yday f) (hour f) (min f) (sec f) (nsec f)
             (zUTC f) (zoneOffset f) (zoneName f) (pmSet f) (amSet f).
Definition setDay (f : fields) (v : Z) : fields :=
    mkFields (year f) (month f) v (yday f) (hour f) (min f) (sec f) (nsec f)
             (zUTC f) (zoneOffset f) (zoneName f) (pmSet f) (amSet f).
Definition setYday (f : fields) (v : Z) : fields :=
    mkFields (year f) (month f) (day f) v (hour f) (min f) (sec f) (nsec f)
             (zUTC f) (zoneOffset f) (zoneName f) (pmSet f) (amSet f).
Definition setHour (f : fields) (v : Z) : fields :=
    mkFields (year f) (month f) (day f) (yday f) v (min f) (sec f) (nsec f)
             (zUTC f) (zoneOffset f) (zoneName f) (pmSet f) (amSet f).
Definition setMin (f : fields) (v : Z) : fields :=
    mkFields (year f) (month f) (day f) (yday f) (hour f) v (sec f) (nsec f)
             (zUTC f) (zoneOffset f) (zoneName f) (pmSet f) (amSet f).
Definition setSec (f : fields) (v : Z) : fields :=
    mkFields (year f) (month f) (day f) (yday f) (hour f) (min f) v (nsec f)
             (zUTC f) (zoneOffset f) (zoneName f) (pmSet f) (amSet f).
Definition setNsec (f : fields) (v : Z) : fields :=
    mkFields (year f) (month f) (day f) (yday f) (hour f) (min f) (sec f) v
             (zUTC f) (zoneOffset f) (zoneName f) (pmSet f) (amSet f).
Definition setZUTC (f : fields) : fields :=
    mkFields (year f) (month f) (day f) (yday f) (hour f) (min f) (sec f)
             (nsec f) true (zoneOffset f) (zoneName f) (pmSet f) (amSet f).
Definition setZoneOffset (f : fields) (v : Z) : fields :=
    mkFields (year f) (month f) (day f) (yday f) (hour f) (min f) (sec f)
             (nsec f) (zUTC f) v (zoneName f) (pmSet f) (amSet f).
Definition setZoneName (f : fields) (v : string) : fields :=
    mkFields (year f) (month f) (day f) (yday f) (hour f) (min f) (sec f)
             (nsec f) (zUTC f) (zoneOffset f) v (pmSet f) (amSet f).
Definition setPM (f : fields) : fields :=
    mkFields (year f) (month f) (day f) (yday f) (hour f) (min f) (sec f)
             (nsec f) (zUTC f) (zoneOffset f) (zoneName f) true (amSet f).
Definition setAM (f : fields) : fields :=
    mkFields (year f) (month f) (day f) (yday f) (hour f) (min f) (sec f)
             (nsec f) (zUTC f) (zoneOffset f) (zoneName f) (pmSet f) true.

Definition isFrac (k : option std) : bool :=
    match k with
    | Some (stdFracSecond0 _) | Some (stdFracSecond9 _) => true
    | _ => false
    end.

  (** A numeric zone offset: the sign, then hours, minutes and seconds of
      two digits each, cut out of the value as the element says. *)
Definition parseOffset (k : std) (value : string) (f : fields)
    : option (string * fields) :=
    let cut :=
      match k with
      | stdISO8601ColonTZ | stdNumColonTZ =>
          if (String.length value <? 6)%nat then None
          else if negb (String.eqb (take 1 (drop 3 value)) ":") then None
          else Some (take 2 (drop 1 value), take 2 (drop 4 value), "00",
                     drop 6 value)
      | stdNumShortTZ | stdISO8601ShortTZ =>
          if (String.length value <? 3)%nat then None
          else Some (take 2 (drop 1 value), "00", "00", drop 3 value)
      | stdISO8601ColonSecondsTZ | stdNumColonSecondsTZ =>
          if (String.length value <? 9)%nat then None
          else if negb (String.eqb (take 1 (drop 3 value)) ":")
                  || negb (String.eqb (take 1 (drop 6 value)) ":") then None
          else Some (take 2 (drop 1 value), take 2 (drop 4 value),
                     take 2 (drop 7 value), drop 9 value)
      | stdISO8601SecondsTZ | stdNumSecondsTz =>
          if (String.length value <? 7)%nat then None
          else Some (take 2 (drop 1 value), take 2 (drop 3 value),
                     take 2 (drop 5 value), drop 7 value)
      | _ =>
          if (String.length value <? 5)%nat then None
          else Some (take 2 (drop 1 value), take 2 (drop 3 value), "00",
                     drop 5 value)
      end in
    match cut with
    | None => None
    | Some (hh, mm, ss, rest) =>
        match getnum hh true, getnum mm true, getnum ss true with
        | Some (hr, _), Some (mi, _), Some (se, _) =>
            if (24 <? hr) || (60 <? mi) || (60 <? se) then None
            else
              let off := (hr * 60 + mi) * 60 + se in
              if strings.HasPrefix value "+"
              then Some (rest, setZoneOffset f off)
              else if strings.HasPrefix value "-"
              then Some (rest, setZoneOffset f (- off))
              else None
        | _, _, _ => None
        end
    end.

  (** One round of the loop of [parse] after the literal text: the value
      is read as the element [k] says; [next] is the element after it. *)
Definition parseStd (k : std) (next : option std) (value : string)
      (f : fields) : option (string * fields) :=
    match k with
    | stdYear =>
        if (String.length value <? 2)%nat then None
        else
          match atoi (take 2 value) with
          | Some y =>
              Some (drop 2 value,
                    setYear f (if 69 <=? y then y + 1900 else y + 2000))
          | None => None
          end
    | stdLongYear =>
        if (String.length value <? 4)%nat || negb (isDigit value) then None
        else
          match atoi (take 4 value) with
          | Some y => Some (drop 4 value, setYear f y)
          | None => None
          end
    | stdMonth =>
        match lookup shortMonthNames value 0 with
        | Some (m, rest) => Some (rest, setMonth f (m + 1))
        | None => None
        end
    | stdLongMonth =>
        match lookup longMonthNames value 0 with
        | Some (m, rest) => Some (rest, setMonth f (m + 1))
        | None => None
        end
    | stdNumMonth | stdZeroMonth =>
        match getnum value (match k with stdZeroMonth => true | _ => false end) with
        | Some (m, rest) =>
            if (m <=? 0) || (12 <? m) then None else Some (rest, setMonth f m)
        | None => None
        end
    | stdWeekDay =>
        match lookup shortDayNames value 0 with
        | Some (_, rest) => Some (rest, f)
        | None => None
        end
    | stdLongWeekDay =>
        match lookup longDayNames value 0 with
        | Some (_, rest) => Some (rest, f)
        | None => None
        end
    | stdDay | stdUnderDay | stdZeroDay =>
        let value :=
          match k with
          | stdUnderDay =>
              if strings.HasPrefix value " " then drop 1 value else value
          | _ => value
          end in
        match getnum value (match k with stdZeroDay => true | _ => false end) with
        | Some (d, rest) => Some (rest, setDay f d)
        | None => None
        end
    | stdUnderYearDay | stdZeroYearDay =>
        let strip v :=
          match k with
          | stdUnderYearDay =>
              if strings.HasPrefix v " " then drop 1 v else v
          | _ => v
          end in
        match getnum3 (strip (strip value))
                      (match k with stdZeroYearDay => true | _ => false end) with
        | Some (d, rest) => Some (rest, setYday f d)
        | None => None
        end
    | stdHour =>
        match getnum value false with
        | Some (h, rest) => if 24 <=? h then None else Some (rest, setHour f h)
        | None => None
        end
    | stdHour12 | stdZeroHour12 =>
        match getnum value (match k with stdZeroHour12 => true | _ => false end) with
        | Some (h, rest) => if 12 <? h then None else Some (rest, setHour f h)
        | None => None
        end
    | stdMinute | stdZeroMinute =>
        match getnum value (match k with stdZeroMinute => true | _ => false end) with
        | Some (m, rest) => if 60 <=? m then None else Some (rest, setMin f m)
        | None => None
        end
    | stdSecond | stdZeroSecond =>
        match getnum value (match k with stdZeroSecond => true | _ => false end) with
        | Some (s, rest) =>
            if 60 <=? s then None
            else
              let f := setSec f s in
              if commaOrPeriod rest && isDigit (drop 1 rest) && negb (isFrac next)
              then
                let '(_, i, _) :=
                  digits (String.length rest) 0 (drop 1 rest) in
                match parseNanoseconds rest (1 + i) with
                | Some ns => Some (drop (1 + i) rest, setNsec f ns)
                | None => None
                end
              else Some (rest, f)
        | None => None
        end
    | stdPM =>
        if (String.length value <? 2)%nat then None
        else if strings.HasPrefix value "PM" then Some (drop 2 value, setPM f)
        else if strings.HasPrefix value "AM" then Some (drop 2 value, setAM f)
        else None
    | stdpm =>
        if (String.length value <? 2)%nat then None
        else if strings.HasPrefix value "pm" then Some (drop 2 value, setPM f)
        else if strings.HasPrefix value "am" then Some (drop 2 value, setAM f)
        else None
    | stdISO8601TZ | stdISO8601ShortTZ | stdISO8601ColonTZ
    | stdISO8601SecondsTZ | stdISO8601ColonSecondsTZ =>
        if strings.HasPrefix value "Z" then Some (drop 1 value, setZUTC f)
        else parseOffset k value f
    | stdNumTZ | stdNumShortTZ | stdNumColonTZ
    | stdNumSecondsTz | stdNumColonSecondsTZ => parseOffset k value f
    | stdTZ =>
        if strings.HasPrefix value "UTC" then Some (drop 3 value, setZUTC f)
        else
          match parseTimeZone value with
          | Some n => Some (drop n value, setZoneName f (take n value))
          | None => None
          end
    | stdFracSecond0 n =>
        let ndigit := S n in
        if (String.length value <? ndigit)%nat then None
        else
          match parseNanoseconds value ndigit with
          | Some ns => Some (drop ndigit value, setNsec f ns)
          | None => None
          end
    | stdFracSecond9 _ =>
        if (String.length value <? 2)%nat || negb (commaOrPeriod value)
           || negb (isDigit (drop 1 value))
        then Some (value, f)
        else
          let '(_, i, _) := digits (String.length value) 0 (drop 1 value) in
          match parseNanoseconds value (1 + i) with
          | Some ns => Some (drop (1 + i) value, setNsec f ns)
          | None => None
          end
    end.

  (** The loop of [parse]: literal text, then an element, until the
      layout has no element left; then the value must be used up. *)
Fixpoint parseLoop (cs : list (string * std)) (tail : string)
      (value : string) (f : fields) : option fields :=
    match cs with
    | [] =>
        match skip value tail false with
        | Some EmptyString => Some f
        | _ => None
        end
    | (prefix, k) :: cs' =>
        match skip value prefix false with
        | None => None
        | Some value =>
            let next := match cs' with (_, k') :: _ => Some k' | [] => None end in
            match parseStd k next value f with
            | None => None
            | Some (value, f) => parseLoop cs' tail value f
            end
        end
    end.

Definition daysBefore : list Z :=
    [0; 31; 59; 90; 120; 151; 181; 212; 243; 273; 304; 334; 365].

  (** The month and the day of the month: from the day of the year when
      the layout had one (it must agree with a month or day also read),
      else what was read, January and the first by default. *)
Definition monthDay (f : fields) : option (Z * Z) :=
    if 0 <=? yday f then
      let leapDay := time.isLeap (year f) && (yday f =? 31 + 29) in
      let yd := if time.isLeap (year f) && (31 + 29 <? yday f)
                then yday f - 1 else yday f in
      if (yd <? 1) || (365 <? yd) then None
      else
        let m0 := (yd - 1) / 31 + 1 in
        let m1 := if nth (Z.to_nat m0) daysBefore 0 <? yd then m0 + 1 else m0 in
        let m := if leapDay then 2 else m1 in
        let d := if leapDay then 29
                 else yd - nth (Z.to_nat (m1 - 1)) daysBefore 0 in
        if (0 <=? month f) && negb (month f =? m) then None
        else if (0 <=? day f) && negb (day f =? d) then None
        else Some (m, d)
    else
      Some (if month f <? 0 then time.January else month f,
            if day f <? 0 then 1 else day f).

Section WithZone.
Context {lz : LocalZone}.

    (** What [parse] does after its loop: the hour of a 12-hour clock, the
        check of the day, and the location of the result. *)
Definition finish (f : fields) : option time.Time :=
      let hour :=
        if pmSet f && (hour f <? 12) then hour f + 12
        else if amSet f && (hour f =? 12) then 0
        else hour f in
      match monthDay f with
      | None => None
      | Some (month, day) =>
          if (day <? 1) || (time.daysIn month (year f) <? day) then None
          else
            let t := time.Date (year f) month day hour (min f) (sec f) (nsec f) in
            if zUTC f then Some t
            else if negb (zoneOffset f =? -1) then
              let u := time.unixNano t - zoneOffset f * 1000000000 in
              if localOffset (u / 1000000000) =? zoneOffset f
              then Some (time.mkTime u time.Local)
              else Some (time.mkTime u (time.FixedZone (zoneName f) (zoneOffset f)))
            else if negb (String.eqb (zoneName f) "") then
              match localAbbrev (zoneName f) (time.unixNano t / 1000000000) with
              | Some offset =>
                  Some (time.mkTime (time.unixNano t - offset * 1000000000)
                                    time.Local)
              | None =>
                  let offset :=
                    if (3 <? String.length (zoneName f))%nat
                       && strings.HasPrefix (zoneName f) "GMT"
                    then match atoi (drop 3 (zoneName f)) with
                         | Some h => h * 3600
                         | None => 0
                         end
                    else 0 in
                  Some (time.mkTime (time.unixNano t)
                                    (time.FixedZone (zoneName f) offset))
              end
            else Some t
      end.

    (** [time.Parse(layout, value)]. *)
Definition Parse (layout value : string) : option time.Time :=
      let (cs, tail) := layoutChunks layout in
      match parseLoop cs tail value init with
      | Some f => finish f
      | None => None
      end.

End WithZone.

End timefmt.

(* ===================================================================== *)
(** * A model of [url.Parse] (Go's net/url)                               *)
(* ===================================================================== *)

(** As for [time.Parse]: the theorems hold for any [url_Parse]; this model
    follows the library and is what the program is run with on concrete
    inputs. *)
Module urlparse.

Import url.

Definition isCTL (c : ascii) : bool := (byte c <? 32) || (byte c =? 127).

Fixpoint stringContainsCTLByte (s : string) : bool :=
    match s with
    | EmptyString => false
    | String c s' => isCTL c || stringContainsCTLByte s'
    end.

Definition isLetter (c : ascii) : bool :=
    unicode.isLowerAZ c || unicode.isUpperAZ c.

  (** The scan of [getScheme]: [Some (scheme, rest)] when a colon ends a
      run of scheme characters, [None] when the text has no scheme. *)
Fixpoint schemeScan (first : bool) (s : string)
    : result (option (string * string)) :=
    match s with
    | EmptyString => Ok None
    | String c s' =>
        let continue :=
          match schemeScan false s' with
          | Ok (Some (scheme, rest)) => Ok (Some (String c scheme, rest))
          | r => r
          end in
        if isLetter c then continue
        else if isDigit c || mem c "+-." then
          if first then Ok None else continue
        else if Ascii.eqb c ":" then
          if first then Err (errors_New "missing protocol scheme")
          else Ok (Some (EmptyString, s'))
        else Ok None
    end.

Definition getScheme (rawURL : string) : result (string * string) :=
    match schemeScan true rawURL with
    | Err e => Err e
    | Ok None => Ok (EmptyString, rawURL)
    | Ok (Some p) => Ok p
    end.

Fixpoint count (c : ascii) (s : string) : nat :=
    match s with
    | EmptyString => O
    | String d s' => ((if Ascii.eqb c d then 1 else 0) + count c s')%nat
    end.

Fixpoint HasSuffix1 (s : string) (c : ascii) : bool :=
    match s with
    | EmptyString => false
    | String d EmptyString => Ascii.eqb c d
    | String _ s' => HasSuffix1 s' c
    end.

  (** The text before and after the last [sep] of [s]. *)
Fixpoint cutLast (s : string) (sep : ascii) : option (string * string) :=
    match s with
    | EmptyString => None
    | String c s' =>
        match cutLast s' sep with
        | Some (a, b) => Some (String c a, b)
        | None => if Ascii.eqb c sep then Some (EmptyString, s') else None
        end
    end.

  (** The text before the first occurrence of [sub] and the text from it
      on. *)
Fixpoint splitAt (s sub : string) : option (string * string) :=
    if strings.HasPrefix s sub then Some (EmptyString, s)
    else match s with
         | EmptyString => None
         | String c s' =>
             match splitAt s' sub with
             | Some (a, b) => Some (String c a, b)
             | None => None
             end
         end.

Fixpoint allDigits (s : string) : bool :=
    match s with
    | EmptyString => true
    | String c s' => isDigit c && allDigits s'
    end.

Definition validOptionalPort (port : string) : bool :=
    match port with
    | EmptyString => true
    | String c digits => Ascii.eqb c ":" && allDigits digits
    end.

  (** [validUserinfo]: it ranges over runes, and a byte of a rune outside
      ASCII is never one of the characters allowed. *)
Fixpoint validUserinfo (s : string) : bool :=
    match s with
    | EmptyString => true
    | String c s' =>
        (isAlnum c || mem c "-._:~!$&'()*+,;=%@") && validUserinfo s'
    end.

Definition parseHost (host : string) : result string :=
    if strings.HasPrefix host "[" then
      match cutLast host "]" with
      | None => Err (errors_New "missing ']' in host")
      | Some (inner, colonPort) =>
          if negb (validOptionalPort colonPort) then
            Err (errors_New "invalid port after host")
          else
            match splitAt inner "%25" with
            | Some (h1, zone) =>
                match unescape h1 encodeHost, unescape zone encodeZone,
                      unescape (String "]" colonPort) encodeHost with
                | Ok a, Ok b, Ok c => Ok (a ++ b ++ c)
                | Err e, _, _ => Err e
                | _, Err e, _ => Err e
                | _, _, Err e => Err e
                end
            | None => unescape host encodeHost
            end
      end
    else
      match cutLast host ":" with
      | Some (_, port) =>
          if negb (validOptionalPort (String ":" port)) then
            Err (errors_New "invalid port after host")
          else unescape host encodeHost
      | None => unescape host encodeHost
      end.

Definition parseAuthority (authority : string)
    : result (option Userinfo * string) :=
    match cutLast authority "@" with
    | None =>
        match parseHost authority with
        | Ok host => Ok (None, host)
        | Err e => Err e
        end
    | Some (userinfo, hostpart) =>
        match parseHost hostpart with
        | Err e => Err e
        | Ok host =>
            if negb (validUserinfo userinfo) then
              Err (errors_New "net/url: invalid userinfo")
            else if negb (mem ":" userinfo) then
              match unescape userinfo encodeUserPassword with
              | Ok name => Ok (Some (mkUserinfo name "" false), host)
              | Err e => Err e
              end
            else
              let '(name, pass, _) := Cut userinfo ":" in
              match unescape name encodeUserPassword,
                    unescape pass encodeUserPassword with
              | Ok name, Ok pass => Ok (Some (mkUserinfo name pass true), host)
              | Err e, _ => Err e
              | _, Err e => Err e
              end
        end
    end.

  (** [parse(rawURL, false)]: a URL without its fragment. *)
Definition parse (rawURL : string) : result URL :=
    if stringContainsCTLByte rawURL then
      Err (errors_New "net/url: invalid control character in URL")
    else if String.eqb rawURL "*" then
      Ok (mkURL "" "" None "" "*" "" false false "" "" "")
    else
      match getScheme rawURL with
      | Err e => Err e
      | Ok (scheme, rest) =>
          let scheme := strings.ToLower scheme in
          let force := HasSuffix1 rest "?" && (count "?" rest =? 1)%nat in
          let '(rest, query) :=
            if force then (take (String.length rest - 1) rest, EmptyString)
            else let '(a, b, _) := Cut rest "?" in (a, b) in
          if negb (strings.HasPrefix rest "/") && negb (String.eqb scheme "")
          then Ok (mkURL scheme rest None "" "" "" false force query "" "")
          else if negb (strings.HasPrefix rest "/") && firstSegmentHasColon rest
          then Err (errors_New "first path segment in URL cannot contain colon")
          else
            let authorityForm :=
              (negb (String.eqb scheme "") || negb (strings.HasPrefix rest "///"))
              && strings.HasPrefix rest "//" in
            let parts :=
              if authorityForm then
                let after := drop 2 rest in
                let '(authority, path) :=
                  match splitAt after "/" with
                  | Some (a, p) => (a, p)
                  | None => (after, EmptyString)
                  end in
                match parseAuthority authority with
                | Ok (user, host) => Ok (user, host, path, false)
                | Err e => Err e
                end
              else
                Ok (None, EmptyString, rest,
                    negb (String.eqb scheme "") && strings.HasPrefix rest "/") in
            match parts with
            | Err e => Err e
            | Ok (user, host, path, omit) =>
                setPath (mkURL scheme "" user host "" "" omit force query "" "")
                        path
            end
      end.

  (** [url.Parse(rawURL)]; a failure is reported as the library's
      [*url.Error] with operation ["parse"]. *)
Definition Parse (rawURL : string) : result URL :=
    let '(u, frag, _) := Cut rawURL "#" in
    match parse u with
    | Err e => Err (fmt_Errorf "parse %q: %v" [opString u; opError e])
    | Ok url =>
        if String.eqb frag "" then Ok url
        else
          match setFragment url frag with
          | Ok url => Ok url
          | Err e => Err (fmt_Errorf "parse %q: %v" [opString rawURL; opError e])
          end
    end.

End urlparse.

(** The program with the two models in the place of the library. *)
#[export] Instance modelParsers {lz : LocalZone} : GoParsers :=
  {| time_Parse := timefmt.Parse; url_Parse := urlparse.Parse |}.

(** The documentation of [time.Parse]: "In the absence of a time zone
    indicator, Parse returns a time in UTC." *)
Definition ParsesWithoutZoneInUTC (lib : GoParsers) : Prop :=
  forall layout value t,
    timefmt.hasZoneToken layout = false ->
    time_Parse layout value = Some t ->
    time.loc t = time.UTC.

(* ===================================================================== *)
(** * An environment to run the program in                                *)
(* ===================================================================== *)

(** A process whose local zone is UTC, as on a server with [TZ=UTC]. *)
Definition utcZone : LocalZone :=
  {| localOffset := fun _ => 0;
     localAbbrev := fun name _ => if String.eqb name "UTC" then Some 0 else None |}.

(** A clock that starts at 2025-03-24 12:00:00 UTC and advances by one
    millisecond from a reading to the next. *)
Definition sampleClock : Clock :=
  fun n => 1742817600000000000 + Z.of_nat n * 1000000.

(** A limiter that admits every request at once. *)
Definition admitAll : limiter.RateLimiter := fun _ _ => None.

(** A retrieval that answers every URL with the same feed, as the mock
    parser of the tests does. *)
Definition mockParser (feed : gofeed.Feed) : feedparser.Parser :=
  fun _ _ => Ok feed.

Definition sampleFetcher (feed : gofeed.Feed) : FeedFetcher.FeedFetcher :=
  FeedFetcher.mkFeedFetcher FeedFetcher.DefaultConfig (mockParser feed) admitAll.

(** 2025-03-24 09:00:00 UTC, three hours before the sample clock starts,
    and 2025-03-20 09:00:00 UTC, four days before. *)
Definition recent : time.Time := time.mkTime 1742806800000000000 time.UTC.
Definition stale : time.Time := time.mkTime 1742461200000000000 time.UTC.

Definition entry (title link published : string)
    (parsed : option time.Time) : option gofeed.Item :=
  Some (gofeed.mkItem title "Test description" "" link published parsed).

(** A feed whose second entry has a date no layout reads. *)
Definition brokenDateFeed : gofeed.Feed :=
  gofeed.mkFeed
    [ entry "First" "https://example.com/1" "" (Some recent);
      entry "Second" "https://example.com/2" "yesterday at noon" None;
      entry "Third" "https://example.com/3" "" (Some recent) ].

(** Five entries: one with an empty headline, one too old, three valid. *)
Definition mixedFeed : gofeed.Feed :=
  gofeed.mkFeed
    [ entry "One" "https://example.com/1" "" (Some recent);
      entry "" "https://example.com/2" "" (Some recent);
      entry "Three" "/3" "" (Some recent);
      entry "Four" "https://example.com/4" "" (Some stale);
      entry "Five" "https://example.com/5" "Mon, 24 Mar 2025 10:00:00 GMT" None ].

(** An entry with an empty link and a date no layout reads. *)
Definition brokenLinkFeed : gofeed.Feed :=
  gofeed.mkFeed
    [ entry "Broken" "   " "yesterday at noon" None;
      entry "Fine" "https://example.com/ok" "" (Some recent) ].

(** An entry dated 2400-01-01, and a fetcher whose tolerance for dates in
    the future is the largest [Duration]. *)
Definition farFuture : time.Time := time.Date 2400 1 1 0 0 0 0.

Definition farFutureItem : gofeed.Item :=
  gofeed.mkItem "Far" "" "" "https://example.com/far" "" (Some farFuture).

(** The feed URL of the examples, and what [url.Parse] makes of it. *)
Definition sampleFeedURL : string := "https://example.com/feed".

Definition sampleFeedParsed : url.URL :=
  url.mkURL "https" "" None "example.com" "/feed" "" false false "" "" "".

(** A feed URL without a scheme, which admission and [newFeed] accept, and
    a feed whose only entry has a relative link. *)
Definition schemelessFeedURL : string := "//example.com/feed".

Definition relativeLinkFeed : gofeed.Feed :=
  gofeed.mkFeed [ entry "Relative" "/article" "" (Some recent) ].

(** A headline of a space, a tab and a no-break space (U+00A0). *)
Definition blankHeadline : string :=
  String " " (String (char 9) (String (char 194) (String (char 160) ""))).

(** A retrieval that runs into its deadline, as the mock parser of the
    tests does for the URL of the timeout. *)
Definition timedOut : feedparser.Parser :=
  fun _ _ => Err (Sentinel context_DeadlineExceeded).

(** An entry the decoder could date, one with a date to be parsed, one
    with no date at all, and one with a date no layout reads. *)
Definition datedItem : gofeed.Item :=
  gofeed.mkItem "Three" "Test description" "" "/3" "" (Some recent).

Definition rawDatedItem : gofeed.Item :=
  gofeed.mkItem "Five" "Test description" "" "https://example.com/5"
    "Mon, 24 Mar 2025 10:00:00 GMT" None.

Definition undatedItem : gofeed.Item :=
  gofeed.mkItem "Six" "Test description" "" "https://example.com/6" "" None.

Definition brokenDateItem : gofeed.Item :=
  gofeed.mkItem "Second" "Test description" "" "https://example.com/2"
    "yesterday at noon" None.

(** The feed URL with the prefix the limiter cuts off. *)
Definition wwwFeedURL : string := "https://www.example.com/feed".

Definition wwwFeedParsed : url.URL :=
  url.mkURL "https" "" None "www.example.com" "/feed" "" false false "" "" "".

(* ===================================================================== *)
(** * Properties                                                          *)
(* ===================================================================== *)

(** ** Strings *)

Lemma length_drop_le n s : (String.length (drop n s) <= String.length s)%nat.
Proof.
  revert s; induction n as [|n IH]; intros [|c s]; simpl; auto.
Qed.

Lemma length_drop_lt n c s :
  (0 < n)%nat -> (String.length (drop n (String c s)) < String.length (String c s))%nat.
Proof.
  destruct n as [|n]; [lia|]. intros _. simpl.
  pose proof (length_drop_le n s). lia.
Qed.

Lemma decode_width_pos s r w :
  s <> "" -> utf8.DecodeRuneInString s = (r, w) -> (1 <= w)%nat.
Proof.
  destruct s as [|c0 s]; [congruence|]. intros _.
  unfold utf8.DecodeRuneInString.
  repeat match goal with
         | |- context [if ?b then _ else _] => destruct b
         | |- context [match ?x with EmptyString => _ | String _ _ => _ end] => destruct x
         end; intros H; inversion H; lia.
Qed.

Lemma chunks_fuel f1 : forall f2 s,
  (String.length s <= f1)%nat -> (String.length s <= f2)%nat ->
  utf8.chunks f1 s = utf8.chunks f2 s.
Proof.
  induction f1 as [|f1 IH]; intros f2 s H1 H2.
  - destruct s; simpl in *; [|lia]. destruct f2; reflexivity.
  - destruct f2 as [|f2].
    + destruct s; simpl in *; [reflexivity|lia].
    + destruct s as [|c s]; [reflexivity|].
      cbn [utf8.chunks].
      destruct (utf8.DecodeRuneInString (String c s)) as [r w] eqn:E.
      f_equal. apply decode_width_pos in E; [|discriminate].
      pose proof (length_drop_lt w c s ltac:(lia)).
      apply IH; simpl in *; lia.
Qed.

Lemma take_app pre : forall post, take (String.length pre) (pre ++ post) = pre.
Proof. induction pre as [|c pre IH]; intros; simpl; [destruct post|]; congruence. Qed.

Lemma drop_app pre : forall post, drop (String.length pre) (pre ++ post) = post.
Proof. induction pre as [|c pre IH]; intros; simpl; auto. Qed.

Lemma take_drop n : forall s, take n s ++ drop n s = s.
Proof. induction n as [|n IH]; intros [|c s]; simpl; auto. now rewrite IH. Qed.

Lemma decode_cons s :
  s <> "" ->
  utf8.decode s =
  (fst (utf8.DecodeRuneInString s),
   take (snd (utf8.DecodeRuneInString s)) s)
  :: utf8.decode (drop (snd (utf8.DecodeRuneInString s)) s).
Proof.
  destruct s as [|c s]; [congruence|]. intros _.
  unfold utf8.decode. cbn [String.length utf8.chunks].
  destruct (utf8.DecodeRuneInString (String c s)) as [r w] eqn:E.
  cbn [fst snd]. f_equal.
  apply decode_width_pos in E; [|discriminate].
  pose proof (length_drop_lt w c s ltac:(lia)).
  apply chunks_fuel; simpl in *; lia.
Qed.

Lemma decode_ascii c s :
  byte c < 128 ->
  utf8.decode (String c s) = (byte c, String c "") :: utf8.decode s.
Proof.
  intros H. rewrite decode_cons by discriminate.
  unfold utf8.DecodeRuneInString.
  apply Z.ltb_lt in H. rewrite H. reflexivity.
Qed.

(** A rune other than [RuneError] decoded from a first byte outside ASCII
    comes from a well-formed sequence of bytes outside ASCII, and the
    decoder looks at no byte after it. *)
Lemma decode_multibyte c0 s r w :
  128 <= byte c0 ->
  utf8.DecodeRuneInString (String c0 s) = (r, w) ->
  r <> utf8.RuneError \/ (2 <= w)%nat ->
  exists pre post,
    String c0 s = pre ++ post /\ String.length pre = w /\ utf8.highBytes pre /\
    forall post', utf8.DecodeRuneInString (pre ++ post') = (r, w).
Proof.
  intros Hhi. unfold utf8.DecodeRuneInString.
  assert (E0 : (byte c0 <? 128) = false) by (apply Z.ltb_ge; lia).
  rewrite E0.
  assert (Hc : forall c, utf8.cont c = true -> (128 <=? byte c) = true).
  { intros c. unfold utf8.cont. intros H. apply andb_prop in H. tauto. }
  assert (Hr : forall lo hi c, 128 <= lo -> utf8.inRange lo hi c = true ->
                               (128 <=? byte c) = true).
  { intros lo hi c Hlo. unfold utf8.inRange. intros H.
    apply andb_prop in H. destruct H as [H _].
    apply Z.leb_le in H. apply Z.leb_le. lia. }
  assert (H0 : (128 <=? byte c0) = true) by (apply Z.leb_le; lia).
  destruct ((194 <=? byte c0) && (byte c0 <=? 223)) eqn:E2.
  { destruct s as [|c1 s1]; [intros H [Hne|Hw]; inversion H; subst; [congruence|lia]|].
    destruct (utf8.cont c1) eqn:C1;
      [|intros H [Hne|Hw]; inversion H; subst; [congruence|lia]].
    intros H _. inversion H; subst; clear H.
    exists (String c0 (String c1 "")), s1.
    repeat split; [unfold utf8.highBytes; simpl; rewrite H0, (Hc _ C1); reflexivity|].
    intros post'. simpl. rewrite E0, E2, C1. reflexivity. }
  destruct ((224 <=? byte c0) && (byte c0 <=? 239)) eqn:E3.
  { destruct s as [|c1 [|c2 s2]];
      try (intros H [Hne|Hw]; inversion H; subst; [congruence|lia]).
    match goal with
    | |- context [utf8.inRange ?lo ?hi c1] =>
        destruct (utf8.inRange lo hi c1) eqn:C1;
        [assert (H1 : (128 <=? byte c1) = true)
           by (apply (Hr lo hi); [destruct (byte c0 =? 224); lia|exact C1])|]
    end;
      [|intros H [Hne|Hw]; inversion H; subst; [congruence|lia]].
    destruct (utf8.cont c2) eqn:C2;
      [|intros H [Hne|Hw]; inversion H; subst; [congruence|lia]].
    cbn [andb]. intros H _. inversion H; subst; clear H.
    exists (String c0 (String c1 (String c2 ""))), s2.
    repeat split;
      [unfold utf8.highBytes; simpl; rewrite H0, H1, (Hc _ C2); reflexivity|].
    intros post'. simpl. rewrite E0, E2, E3, C1, C2. reflexivity. }
  destruct ((240 <=? byte c0) && (byte c0 <=? 244)) eqn:E4.
  { destruct s as [|c1 [|c2 [|c3 s3]]];
      try (intros H [Hne|Hw]; inversion H; subst; [congruence|lia]).
    match goal with
    | |- context [utf8.inRange ?lo ?hi c1] =>
        destruct (utf8.inRange lo hi c1) eqn:C1;
        [assert (H1 : (128 <=? byte c1) = true)
           by (apply (Hr lo hi); [destruct (byte c0 =? 240); lia|exact C1])|]
    end;
      [|intros H [Hne|Hw]; inversion H; subst; [congruence|lia]].
    destruct (utf8.cont c2) eqn:C2;
      [|intros H [Hne|Hw]; inversion H; subst; [congruence|lia]].
    destruct (utf8.cont c3) eqn:C3;
      [|intros H [Hne|Hw]; inversion H; subst; [congruence|lia]].
    cbn [andb]. intros H _. inversion H; subst; clear H.
    exists (String c0 (String c1 (String c2 (String c3 "")))), s3.
    repeat split;
      [unfold utf8.highBytes; simpl; rewrite H0, H1, (Hc _ C2), (Hc _ C3); reflexivity|].
    intros post'. simpl. rewrite E0, E2, E3, E4, C1, C2, C3. reflexivity. }
  intros H [Hne|Hw]; inversion H; subst; [congruence|lia].
Qed.

Lemma high_not_regexp_space c : (128 <=? byte c) = true -> regexp.isSpace c = false.
Proof.
  intros H. apply Z.leb_le in H. unfold regexp.isSpace.
  repeat (apply orb_false_intro); apply Z.eqb_neq; lia.
Qed.

Lemma collapse_high pre : forall post b,
  utf8.highBytes pre -> pre <> "" ->
  regexp.collapse b (pre ++ post) = pre ++ regexp.collapse false post.
Proof.
  induction pre as [|c pre IH]; intros post b H Hne; [congruence|].
  unfold utf8.highBytes in H. simpl in H. apply andb_prop in H. destruct H as [Hc Hp].
  simpl. rewrite (high_not_regexp_space _ Hc). f_equal.
  destruct pre as [|c' pre']; [reflexivity|].
  apply IH; [exact Hp|discriminate].
Qed.

Lemma decode_app_valid pre post r :
  pre <> "" ->
  (forall post', utf8.DecodeRuneInString (pre ++ post') = (r, String.length pre)) ->
  utf8.decode (pre ++ post) = (r, pre) :: utf8.decode post.
Proof.
  intros Hne H. rewrite decode_cons by (destruct pre; [congruence|discriminate]).
  rewrite H. cbn [fst snd]. now rewrite take_app, drop_app.
Qed.

Lemma allSpace_chunks s :
  utf8.allSpace s <-> forallb strings.isSpaceChunk (utf8.decode s) = true.
Proof.
  unfold utf8.allSpace, utf8.runes.
  induction (utf8.decode s) as [|x l IH]; simpl; [tauto|].
  unfold strings.isSpaceChunk at 1.
  destruct (unicode.IsSpace (fst x)); simpl; [exact IH|tauto].
Qed.

Lemma length_app (a b : string) :
  String.length (a ++ b) = (String.length a + String.length b)%nat.
Proof. induction a; simpl; congruence. Qed.

(** Collapsing the runs of [\s] keeps a string of white space a string of
    white space. *)
Lemma collapse_allSpace n : forall s b,
  (String.length s <= n)%nat -> utf8.allSpace s -> utf8.allSpace (regexp.collapse b s).
Proof.
  induction n as [|n IH]; intros s b Hlen Hs.
  { destruct s; simpl in Hlen; [|lia]. exact Hs. }
  destruct s as [|c0 s]; [exact Hs|].
  rewrite allSpace_chunks in *.
  destruct (Z.ltb_spec (byte c0) 128) as [Hlo|Hhi].
  - rewrite decode_ascii in Hs by assumption. simpl in Hs.
    apply andb_prop in Hs. destruct Hs as [Hc Hrest].
    rewrite <- allSpace_chunks in Hrest.
    simpl. destruct (regexp.isSpace c0).
    + destruct b.
      * rewrite <- allSpace_chunks. apply IH; [simpl in Hlen; lia|assumption].
      * rewrite decode_ascii by (vm_compute; reflexivity).
        simpl. rewrite <- allSpace_chunks. apply IH; [simpl in Hlen; lia|assumption].
    + rewrite decode_ascii by assumption. simpl.
      unfold strings.isSpaceChunk in Hc at 1. simpl in Hc. 
      unfold strings.isSpaceChunk at 1. simpl. rewrite Hc. simpl.
      rewrite <- allSpace_chunks. apply IH; [simpl in Hlen; lia|assumption].
  - destruct (utf8.DecodeRuneInString (String c0 s)) as [r w] eqn:E.
    assert (Hr : unicode.IsSpace r = true).
    { rewrite decode_cons in Hs by discriminate. rewrite E in Hs. simpl in Hs.
      apply andb_prop in Hs. tauto. }
    destruct (decode_multibyte c0 s r w Hhi E) as (pre & post & Hsplit & Hw & Hpre & Hdec).
    { left. intros ->. vm_compute in Hr. discriminate. }
    assert (Hne : pre <> "").
    { intros ->. simpl in Hw. subst w.
      apply decode_width_pos in E; [lia|discriminate]. }
    subst w. rewrite Hsplit in *.
    rewrite (decode_app_valid pre post r Hne Hdec) in Hs.
    simpl in Hs. apply andb_prop in Hs. destruct Hs as [_ Hrest].
    rewrite collapse_high by assumption.
    rewrite (decode_app_valid pre _ r Hne Hdec). simpl.
    unfold strings.isSpaceChunk at 1. simpl. rewrite Hr. simpl.
    rewrite <- allSpace_chunks in *. apply (IH post false); [|assumption].
    rewrite length_app in Hlen. destruct pre; [congruence|simpl in Hlen; lia].
Qed.

Lemma dropWhile_all {A} (p : A -> bool) l :
  forallb p l = true -> strings.dropWhile p l = [].
Proof.
  induction l as [|x l IH]; simpl; [reflexivity|].
  intros H. apply andb_prop in H. destruct H as [Hx Hl]. rewrite Hx. auto.
Qed.

Lemma TrimSpace_allSpace s : utf8.allSpace s -> strings.TrimSpace s = "".
Proof.
  intros H. apply allSpace_chunks in H.
  unfold strings.TrimSpace. rewrite (dropWhile_all _ _ H). reflexivity.
Qed.

(** C9.  For every headline that is not empty and consists of white space
    only, and every maximum that is not negative,
    [ValidateAndSanitizeHeadline] returns the empty string and no error:
    the check for an empty headline looks at the raw text only. *)
Theorem whitespace_headline_is_accepted (rawHeadline : string) (maxLength : Z) :
  rawHeadline <> "" ->
  utf8.allSpace rawHeadline ->
  0 <= maxLength ->
  validation.ValidateAndSanitizeHeadline rawHeadline maxLength = Ok "".
Proof.
  intros Hne Hs Hmax.
  unfold validation.ValidateAndSanitizeHeadline.
  destruct (String.eqb_spec rawHeadline ""); [contradiction|].
  unfold spaceRegexp_ReplaceAllString.
  rewrite (TrimSpace_allSpace _ (collapse_allSpace _ _ false (le_n _) Hs)).
  change (utf8.RuneCountInString "") with 0.
  destruct (Z.ltb_spec maxLength 0); [lia|reflexivity].
Qed.

(** ** The calendar *)

Ltac divlia := Z.div_mod_to_equations; lia.

Lemma isLeap_spec y :
  time.isLeap y = true <-> (y mod 4 = 0 /\ (y mod 100 <> 0 \/ y mod 400 = 0)).
Proof.
  unfold time.isLeap.
  rewrite andb_true_iff, orb_true_iff, negb_true_iff, !Z.eqb_eq, Z.eqb_neq.
  tauto.
Qed.

(** Year of the era from the day of the era. *)
Lemma yearOfEra yoe doy :
  0 <= yoe <= 399 ->
  0 <= doy <= 365 ->
  (doy = 365 -> time.isLeap (yoe + 1) = true) ->
  let doe := yoe * 365 + yoe / 4 - yoe / 100 + doy in
  0 <= doe <= 146096 /\
  (doe - doe / 1460 + doe / 36524 - doe / 146096) / 365 = yoe.
Proof.
  intros Hy Hd Hleap doe. subst doe.
  destruct (Z.eq_dec doy 365) as [E|E].
  - apply Hleap in E. apply isLeap_spec in E. divlia.
  - clear Hleap. divlia.
Qed.

Lemma isLeap_shift y k : time.isLeap (y + 400 * k) = time.isLeap y.
Proof.
  unfold time.isLeap.
  replace (y + 400 * k) with (y + (100 * k) * 4) at 1 by lia.
  replace (y + 400 * k) with (y + (4 * k) * 100) at 1 by lia.
  replace (y + 400 * k) with (y + k * 400) by lia.
  now rewrite !Z_mod_plus_full.
Qed.

(** The date of a day given by era, year of the era and day of the year
    (years begin with March). *)
Lemma civilFromDays_compose era yoe doy :
  0 <= yoe <= 399 ->
  0 <= doy <= 365 ->
  (doy = 365 -> time.isLeap (yoe + 1) = true) ->
  time.civilFromDays
    (era * 146097 + (yoe * 365 + yoe / 4 - yoe / 100 + doy) - 719468) =
  let mp := (5 * doy + 2) / 153 in
  let d := doy - (153 * mp + 2) / 5 + 1 in
  let m := if mp <? 10 then mp + 3 else mp - 9 in
  (if m <=? 2 then yoe + era * 400 + 1 else yoe + era * 400, m, d).
Proof.
  intros Hy Hd Hleap.
  destruct (yearOfEra yoe doy Hy Hd Hleap) as [Hdoe Hyoe].
  unfold time.civilFromDays.
  set (doe := yoe * 365 + yoe / 4 - yoe / 100 + doy) in *.
  replace (era * 146097 + doe - 719468 + 719468) with (doe + era * 146097) by ring.
  rewrite Z.div_add by lia.
  rewrite (Z.div_small doe 146097) by lia.
  replace (doe + era * 146097 - (0 + era) * 146097) with doe by ring.
  cbv zeta. rewrite Hyoe.
  replace (doe - (365 * yoe + yoe / 4 - yoe / 100)) with doy by (unfold doe; ring).
  reflexivity.
Qed.

(** The date of the day number of a date is that date. *)
Lemma civilFromDays_daysFromCivil y m d :
  1 <= m <= 12 -> 1 <= d <= time.daysIn m y ->
  time.civilFromDays (time.daysFromCivil y m d) = (y, m, d).
Proof.
  intros Hm Hd.
  unfold time.daysFromCivil.
  set (y' := if m <=? 2 then y - 1 else y).
  set (mp := if m <=? 2 then m + 9 else m - 3).
  set (era := y' / 400).
  set (yoe := y' - era * 400).
  set (doy := (153 * mp + 2) / 5 + d - 1).
  assert (Hyoe : 0 <= yoe <= 399) by (unfold yoe, era; divlia).
  assert (Hleap : m <= 2 -> time.isLeap (yoe + 1) = time.isLeap y).
  { intros H2. unfold yoe, y'.
    destruct (Z.leb_spec m 2); [|lia].
    replace (y - 1 - era * 400 + 1) with (y + 400 * (- era)) by ring.
    apply isLeap_shift. }
  assert (Hdoy : 0 <= doy <= 365 /\ (doy = 365 -> m = 2 /\ d = 29)
                 /\ (5 * doy + 2) / 153 = mp
                 /\ doy - (153 * mp + 2) / 5 + 1 = d).
  { unfold doy, mp. unfold time.daysIn in Hd.
    assert (Hcases : m = 1 \/ m = 2 \/ m = 3 \/ m = 4 \/ m = 5 \/ m = 6 \/ m = 7
                     \/ m = 8 \/ m = 9 \/ m = 10 \/ m = 11 \/ m = 12) by lia.
    destruct (time.isLeap y);
      repeat (destruct Hcases as [->|Hcases]); try subst m;
      cbn [Z.leb Z.eqb Z.compare Pos.compare Pos.compare_cont Pos.eqb orb] in Hd |- *;
      divlia. }
  destruct Hdoy as (Hrange & H365 & Hmp & Hday).
  rewrite (civilFromDays_compose era yoe doy Hyoe Hrange).
  - cbv zeta. rewrite Hmp, Hday.
    unfold mp, yoe, y'.
    destruct (Z.leb_spec m 2).
    + destruct (Z.ltb_spec (m + 9) 10); [lia|].
      replace (m + 9 - 9) with m by ring.
      destruct (Z.leb_spec m 2); [|lia].
      f_equal. f_equal. ring.
    + destruct (Z.ltb_spec (m - 3) 10); [|lia].
      replace (m - 3 + 3) with m by ring.
      destruct (Z.leb_spec m 2); [lia|].
      f_equal. f_equal. ring.
  - intros E. destruct (H365 E) as [-> ->].
    rewrite Hleap by lia.
    unfold time.daysIn in Hd.
    cbn [Z.leb Z.eqb Z.compare Pos.compare Pos.compare_cont Pos.eqb orb] in Hd.
    destruct (time.isLeap y); [reflexivity|lia].
Qed.

(** Every day number falls in a month 1..12, on a day 1..31. *)
Lemma civilFromDays_range z :
  1 <= snd (fst (time.civilFromDays z)) <= 12
  /\ 1 <= snd (time.civilFromDays z) <= 31.
Proof.
  unfold time.civilFromDays. cbv zeta. cbn [fst snd].
  set (era := (z + 719468) / 146097).
  set (doe := z + 719468 - era * 146097).
  assert (Hdoe : 0 <= doe <= 146096) by (unfold doe, era; divlia).
  set (yoe := (doe - doe / 1460 + doe / 36524 - doe / 146096) / 365).
  set (doy := doe - (365 * yoe + yoe / 4 - yoe / 100)).
  assert (Hdoy : 0 <= doy <= 365) by (unfold doy, yoe; divlia).
  set (mp := (5 * doy + 2) / 153).
  assert (Hmp : 0 <= mp <= 11) by (unfold mp; divlia).
  destruct (Z.ltb_spec mp 10); split; try lia; unfold mp in *; divlia.
Qed.

Lemma daysIn_ge_28 m y : 28 <= time.daysIn m y.
Proof.
  unfold time.daysIn.
  repeat match goal with |- context [if ?b then _ else _] => destruct b end; lia.
Qed.

Lemma daysFromCivil_day y m d :
  time.daysFromCivil y m 1 + (d - 1) = time.daysFromCivil y m d.
Proof. unfold time.daysFromCivil. ring. Qed.

Section TimeFacts.
Context {lz : LocalZone}.

  (** What the accessors show of a [Date] built from fields in range. *)
Lemma Date_fields y m d h mi s :
    1 <= m <= 12 -> 1 <= d <= time.daysIn m y ->
    0 <= h < 24 -> 0 <= mi < 60 -> 0 <= s < 60 ->
    let t := time.Date y m d h mi s 0 in
    time.loc t = time.UTC /\ time.civil t = (y, m, d)
    /\ time.Hour_ t = h /\ time.Minute_ t = mi /\ time.Second_ t = s
    /\ time.Nanosecond t = 0
    /\ time.Weekday t = (time.daysFromCivil y m d + 4) mod 7.
  Proof.
    intros Hm Hd Hh Hmi Hs t.
    assert (Ht : t = time.mkTime
                      ((time.daysFromCivil y m d * 86400 + h * 3600 + mi * 60 + s)
                       * 1000000000 + 0) time.UTC).
    { unfold t, time.Date.
      replace ((m - 1) / 12) with 0 by divlia.
      replace ((m - 1) mod 12 + 1) with m by divlia.
      replace (y + 0) with y by ring.
      now rewrite daysFromCivil_day. }
    set (days := time.daysFromCivil y m d) in *.
    assert (Hw : time.wallSec t = days * 86400 + h * 3600 + mi * 60 + s).
    { rewrite Ht. unfold time.wallSec, time.ZoneOffset, time.unixSec.
      cbn [time.unixNano time.loc time.offsetAt].
      divlia. }
    assert (Hday : time.wallSec t / 86400 = days) by (rewrite Hw; divlia).
    repeat apply conj.
    - now rewrite Ht.
    - unfold time.civil. rewrite Hday.
      apply civilFromDays_daysFromCivil; assumption.
    - unfold time.Hour_. rewrite Hw. divlia.
    - unfold time.Minute_. rewrite Hw. divlia.
    - unfold time.Second_. rewrite Hw. divlia.
    - rewrite Ht. unfold time.Nanosecond. cbn [time.unixNano]. divlia.
    - unfold time.Weekday. now rewrite Hday.
  Qed.

Lemma Month_range t : 1 <= time.Month t <= 12.
  Proof. unfold time.Month, time.civil. apply civilFromDays_range. Qed.

End TimeFacts.

(** ** The regular expression *)

Lemma HasPrefix_app p : forall s, strings.HasPrefix (p ++ s) p = true.
Proof.
  induction p as [|c p IH]; intros s; simpl; [reflexivity|].
  now rewrite Ascii.eqb_refl, IH.
Qed.

Lemma HasPrefix_split p : forall s,
  strings.HasPrefix s p = true -> s = p ++ drop (String.length p) s.
Proof.
  induction p as [|c p IH]; intros s H; simpl in *; [reflexivity|].
  destruct s as [|d s]; [discriminate|].
  apply andb_prop in H. destruct H as [Hc Hp].
  apply Ascii.eqb_eq in Hc. subst d. simpl. f_equal. auto.
Qed.

Lemma cutPrefix_app p s : dateparser.cutPrefix (p ++ s) p = Some s.
Proof.
  unfold dateparser.cutPrefix. now rewrite HasPrefix_app, drop_app.
Qed.

Lemma cutPrefix_sound s p r :
  dateparser.cutPrefix s p = Some r -> s = p ++ r.
Proof.
  unfold dateparser.cutPrefix.
  destruct (strings.HasPrefix s p) eqn:E; [|discriminate].
  intros H. inversion H; subst. now apply HasPrefix_split.
Qed.

Lemma alt_sound alts : forall s a r,
  dateparser.alt alts s = Some (a, r) -> In a alts /\ s = a ++ r.
Proof.
  induction alts as [|x alts IH]; intros s a r H; simpl in H; [discriminate|].
  destruct (dateparser.cutPrefix s x) eqn:E.
  - inversion H; subst. split; [now left|]. now apply cutPrefix_sound.
  - destruct (IH _ _ _ H). split; [now right|assumption].
Qed.

Lemma span_sound p : forall s a b,
  dateparser.span p s = (a, b) ->
  s = a ++ b /\ forallb p (list_ascii_of_string a) = true.
Proof.
  induction s as [|c s IH]; intros a b H; simpl in H.
  - inversion H; subst. split; reflexivity.
  - destruct (p c) eqn:E.
    + destruct (dateparser.span p s) as [a' b'] eqn:E'.
      inversion H; subst. destruct (IH _ _ eq_refl) as [-> Ha].
      split; [reflexivity|]. simpl. now rewrite E, Ha.
    + inversion H; subst. split; reflexivity.
Qed.

Lemma span_app p a : forall c b,
  forallb p (list_ascii_of_string a) = true -> p c = false ->
  dateparser.span p (a ++ String c b) = (a, String c b).
Proof.
  induction a as [|x a IH]; intros c b Ha Hc; simpl in *.
  - now rewrite Hc.
  - apply andb_prop in Ha. destruct Ha as [Hx Ha].
    now rewrite Hx, (IH _ _ Ha Hc).
Qed.

(** The matcher accepts every string of the shape, with its tokens as
    groups. *)
Lemma FindStringSubmatch_complete weekday ampm patternType month :
  dateparser.eeteShape weekday ampm patternType month ->
  dateparser.eetePattern_FindStringSubmatch
    (dateparser.eeteString weekday ampm patternType month)
  = Some [dateparser.eeteString weekday ampm patternType month;
          weekday; ampm; patternType; month].
Proof.
  intros (Hw & Ha & Hp & Hm).
  unfold dateparser.eeteString.
  destruct weekday as [|c1 [|c2 [|c3 [|? ?]]]]; try discriminate.
  destruct month as [|m0 [|l lows]]; try discriminate.
  cbn [dateparser.isWeekdayToken dateparser.isMonthToken] in Hw, Hm.
  apply andb_prop in Hm. destruct Hm as [Hm0 Hlows].
  cbn [append]. unfold dateparser.eetePattern_FindStringSubmatch.
  rewrite Hw.
  assert (Hspan : dateparser.span unicode.isLowerAZ (String l lows ++ "C822")
                  = (String l lows, "C822")).
  { apply span_app; [exact Hlows|reflexivity]. }
  destruct Ha as [-> | ->], Hp as [-> | ->]; cbn -[dateparser.span];
    change (String l (lows ++ "C822")) with (String l lows ++ "C822");
    rewrite Hspan, Hm0; reflexivity.
Qed.

(** What the matcher accepts has the shape. *)
Lemma FindStringSubmatch_sound dateStr matches :
  dateparser.eetePattern_FindStringSubmatch dateStr = Some matches ->
  exists weekday ampm patternType month,
    matches = [dateStr; weekday; ampm; patternType; month]
    /\ dateparser.eeteShape weekday ampm patternType month
    /\ dateStr = dateparser.eeteString weekday ampm patternType month.
Proof.
  unfold dateparser.eetePattern_FindStringSubmatch.
  destruct dateStr as [|c1 [|c2 [|c3 r1]]]; try discriminate.
  destruct (unicode.isUpperAZ c1 && unicode.isLowerAZ c2 && unicode.isLowerAZ c3)
    eqn:Hw; [|discriminate].
  destruct (dateparser.alt ["AM"; "PM"] r1) as [[ampm r2]|] eqn:Ha; [|discriminate].
  destruct (dateparser.alt ["EETE_R"; "EESTE_R"] r2) as [[pt [|m0 r3]]|] eqn:Hp;
    try discriminate.
  destruct (dateparser.span unicode.isLowerAZ r3) as [lows r4] eqn:Hs.
  destruct (unicode.isUpperAZ m0) eqn:Hm0; [|discriminate].
  destruct (String.eqb_spec lows ""); [discriminate|].
  destruct (String.eqb_spec r4 "C822"); [|discriminate].
  cbn [negb andb]. intros H. inversion H; subst; clear H.
  apply alt_sound in Ha, Hp. destruct Ha as [Ha ->], Hp as [Hp ->].
  apply span_sound in Hs. destruct Hs as [-> Hl].
  exists (String c1 (String c2 (String c3 ""))), ampm, pt, (String m0 lows).
  split; [reflexivity|]. split.
  - repeat split.
    + exact Hw.
    + simpl in Ha. intuition congruence.
    + simpl in Hp. intuition congruence.
    + destruct lows as [|l lows]; [congruence|]. simpl in *. now rewrite Hm0, Hl.
  - reflexivity.
Qed.

Lemma monthMap_range k m :
  dateparser.lookup dateparser.monthMap k = Some m -> 1 <= m <= 12.
Proof.
  unfold dateparser.monthMap. cbn [dateparser.lookup].
  repeat match goal with
         | |- context [if ?b then _ else _] => destruct b
         end; intros H; inversion H; lia.
Qed.

Lemma weekdayMap_range k wd :
  dateparser.lookup dateparser.weekdayMap k = Some wd -> 0 <= wd <= 6.
Proof.
  unfold dateparser.weekdayMap. cbn [dateparser.lookup].
  repeat match goal with
         | |- context [if ?b then _ else _] => destruct b
         end; intros H; inversion H; lia.
Qed.

Section EETE.
Context {lz : LocalZone} {ck : Clock}.

Lemma Year_Date y m d h mi s :
    1 <= m <= 12 -> 1 <= d <= 28 -> 0 <= h < 24 -> 0 <= mi < 60 -> 0 <= s < 60 ->
    time.Year (time.Date y m d h mi s 0) = y
    /\ time.Month (time.Date y m d h mi s 0) = m
    /\ time.Day (time.Date y m d h mi s 0) = d.
  Proof.
    intros Hm Hd Hh Hmi Hs.
    pose proof (daysIn_ge_28 m y).
    destruct (Date_fields y m d h mi s Hm ltac:(lia) Hh Hmi Hs) as (_ & Hc & _).
    unfold time.Year, time.Month, time.Day. rewrite Hc. auto.
  Qed.

  (** The instant [parseEETEPattern] builds, in closed form. *)
Lemma parseEETEPattern_run weekday ampm patternType month (n : nat) :
    dateparser.eeteShape weekday ampm patternType month ->
    let year := time.Year (time.mkTime (clock n) time.Local) in
    let known := dateparser.lookup dateparser.monthMap (strings.ToLower month) in
    let monthNum :=
      match known with
      | Some m => m
      | None => time.Month (time.mkTime (clock (S n)) time.Local)
      end in
    let first := (time.daysFromCivil year monthNum 1 + 4) mod 7 in
    let daysToAdd :=
      match dateparser.lookup dateparser.weekdayMap (strings.ToLower weekday) with
      | Some wd => (wd - first + 7) mod 7
      | None => 0
      end in
    dateparser.parseEETEPattern
      (dateparser.eeteString weekday ampm patternType month) n
    = (Ok (time.Date year monthNum (1 + daysToAdd)
                     (if String.eqb ampm "PM" then 15 else 9)
                     (if String.eqb patternType "EESTE_R" then 30 else 0) 0 0),
       match known with Some _ => S n | None => S (S n) end)
    /\ 1 <= monthNum <= 12 /\ 0 <= daysToAdd <= 6.
  Proof.
    intros Hshape year known monthNum first daysToAdd.
    assert (Hmn : 1 <= monthNum <= 12).
    { unfold monthNum, known.
      destruct (dateparser.lookup dateparser.monthMap (strings.ToLower month)) eqn:E.
      - eapply monthMap_range; eassumption.
      - apply Month_range. }
    assert (Hfirst : 0 <= first < 7) by (unfold first; divlia).
    assert (Hk : 0 <= daysToAdd <= 6).
    { unfold daysToAdd.
      destruct (dateparser.lookup dateparser.weekdayMap (strings.ToLower weekday));
        [divlia|lia]. }
    split; [|split; assumption].
    unfold dateparser.parseEETEPattern.
    rewrite (FindStringSubmatch_complete _ _ _ _ Hshape).
    cbn [List.length Nat.eqb negb nth].
    unfold bind at 1. unfold Now at 1. fold year.
    assert (Hmonth :
      (monthNum0 <-
         match dateparser.lookup dateparser.monthMap (strings.ToLower month) with
         | Some m => ret m
         | None => now2 <- Now;; ret (time.Month now2)
         end;; ret monthNum0) (S n)
      = (monthNum, match known with Some _ => S n | None => S (S n) end)).
    { unfold monthNum, known.
      destruct (dateparser.lookup dateparser.monthMap (strings.ToLower month));
        reflexivity. }
    unfold bind at 1.
    unfold bind at 1 in Hmonth.
    destruct (match dateparser.lookup dateparser.monthMap (strings.ToLower month) with
              | Some m => ret m
              | None => now2 <- Now;; ret (time.Month now2)
              end (S n)) as [mn n'] eqn:E.
    unfold ret in Hmonth. inversion Hmonth; subst mn n'. clear Hmonth.
    unfold ret. f_equal. f_equal.
    destruct (Date_fields year monthNum 1 0 0 0 Hmn
                ltac:(pose proof (daysIn_ge_28 monthNum year); lia)
                ltac:(lia) ltac:(lia) ltac:(lia))
      as (_ & Hc & Hh & Hmi & Hs & Hns & Hwd).
    fold first in Hwd.
    destruct (Year_Date year monthNum 1 0 0 0 Hmn ltac:(lia) ltac:(lia) ltac:(lia)
                ltac:(lia)) as (Hy0 & Hm0 & Hd0).
    unfold dateparser.parseWeekday. unfold daysToAdd in *.
    destruct (dateparser.lookup dateparser.weekdayMap (strings.ToLower weekday))
      as [wd|] eqn:Ew.
    - pose proof (weekdayMap_range _ _ Ew) as Hwdr.
      destruct (Z.leb_spec 0 wd); [|lia].
      rewrite Hwd.
      rewrite Z.rem_mod_nonneg by lia.
      unfold time.AddDate. rewrite Hy0, Hm0, Hd0, Hh, Hmi, Hs, Hns.
      replace (year + 0) with year by ring.
      replace (monthNum + 0) with monthNum by ring.
      destruct (Year_Date year monthNum (1 + (wd - first + 7) mod 7) 0 0 0 Hmn
                  ltac:(lia) ltac:(lia) ltac:(lia) ltac:(lia)) as (Hy1 & Hm1 & Hd1).
      now rewrite Hy1, Hm1, Hd1.
    - cbn [Z.leb Z.compare]. now rewrite Hy0, Hm0, Hd0.
  Qed.

End EETE.


Lemma FindStringSubmatch_None dateStr :
  ~ dateparser.matchesEETE dateStr -> dateparser.eetePattern_FindStringSubmatch dateStr = None.
Proof.
  intros H. destruct (dateparser.eetePattern_FindStringSubmatch dateStr) eqn:E;
    [|reflexivity].
  exfalso. apply H. apply FindStringSubmatch_sound in E.
  destruct E as (w & a & p & m & _ & Hs & He). now exists w, a, p, m.
Qed.

(** C4, as amended.  For every string that contains ["EETE_R"] or
    ["EESTE_R"], [ParseDate] is [parseEETEPattern], whatever the parser of
    the layouts would do; the branch succeeds when the whole string
    matches the expression and fails with the invalid-format error when it
    does not, the clock unread. *)
Theorem eete_branch {lz : LocalZone} {ck : Clock} {lib : GoParsers}
    (dateStr : string) (n : nat) :
  strings.Contains dateStr "EETE_R" || strings.Contains dateStr "EESTE_R" = true ->
  dateparser.ParseDate dateStr n = dateparser.parseEETEPattern dateStr n
  /\ (dateparser.matchesEETE dateStr ->
      exists t n', dateparser.ParseDate dateStr n = (Ok t, n'))
  /\ (~ dateparser.matchesEETE dateStr ->
      dateparser.ParseDate dateStr n
      = (Err (fmt_Errorf "invalid EETE_R format: %s" [opString dateStr]), n)).
Proof.
  intros H. unfold dateparser.ParseDate. rewrite H.
  split; [reflexivity|]. split.
  - intros (w & a & p & m & Hs & ->).
    destruct (parseEETEPattern_run w a p m n Hs) as (Hrun & _).
    eexists. eexists. exact Hrun.
  - intros Hno. unfold dateparser.parseEETEPattern.
    now rewrite (FindStringSubmatch_None _ Hno).
Qed.

(** ** The model of [time.Parse] and the zone of its result *)

Ltac break_match :=
  match goal with
  | |- context [match ?x with _ => _ end] => destruct x eqn:?
  end.

Lemma parseStd_keeps_zone k next value f value' f' :
  timefmt.isZoneStd k = false ->
  timefmt.parseStd k next value f = Some (value', f') ->
  timefmt.zoneOffset f' = timefmt.zoneOffset f
  /\ timefmt.zoneName f' = timefmt.zoneName f
  /\ timefmt.zUTC f' = timefmt.zUTC f.
Proof.
  intros Hk.
  destruct k; try discriminate Hk; unfold timefmt.parseStd;
    repeat break_match; intros H; inversion H; subst; auto.
Qed.

Lemma parseLoop_keeps_zone cs : forall tail value f f',
  existsb (fun c => timefmt.isZoneStd (snd c)) cs = false ->
  timefmt.parseLoop cs tail value f = Some f' ->
  timefmt.zoneOffset f' = timefmt.zoneOffset f
  /\ timefmt.zoneName f' = timefmt.zoneName f
  /\ timefmt.zUTC f' = timefmt.zUTC f.
Proof.
  induction cs as [|[prefix k] cs IH]; intros tail value f f' Hz H.
  - simpl in H. destruct (timefmt.skip value tail false) as [[|? ?]|];
      inversion H; subst; auto.
  - simpl in Hz. apply orb_false_elim in Hz. destruct Hz as [Hk Hcs].
    cbn [timefmt.parseLoop] in H.
    destruct (timefmt.skip value prefix false) as [v|]; [|discriminate].
    destruct (timefmt.parseStd k _ v f) as [[v' f1]|] eqn:E; [|discriminate].
    destruct (parseStd_keeps_zone _ _ _ _ _ _ Hk E) as (H1 & H2 & H3).
    destruct (IH _ _ _ _ Hcs H) as (H4 & H5 & H6).
    repeat split; congruence.
Qed.

Lemma finish_zoneless {lz : LocalZone} f t :
  timefmt.zoneOffset f = -1 -> timefmt.zoneName f = "" ->
  timefmt.finish f = Some t -> time.loc t = time.UTC.
Proof.
  intros Ho Hn. unfold timefmt.finish. rewrite Ho, Hn.
  destruct (timefmt.monthDay f) as [[m d]|]; [|discriminate].
  destruct ((d <? 1) || (time.daysIn m (timefmt.year f) <? d)); [discriminate|].
  cbn [Z.eqb negb String.eqb].
  destruct (timefmt.zUTC f); intros H; inversion H; reflexivity.
Qed.

(** The model keeps the promise of the library's documentation. *)
Lemma model_ParsesWithoutZoneInUTC (lz : LocalZone) :
  ParsesWithoutZoneInUTC (@modelParsers lz).
Proof.
  intros layout value t Hz H. cbn [time_Parse modelParsers] in H.
  unfold timefmt.Parse in H. unfold timefmt.hasZoneToken in Hz.
  destruct (timefmt.layoutChunks layout) as [cs tail].
  destruct (timefmt.parseLoop cs tail value timefmt.init) as [f|] eqn:E;
    [|discriminate].
  destruct (parseLoop_keeps_zone _ _ _ _ _ Hz E) as (Ho & Hn & _).
  eapply finish_zoneless; eauto.
Qed.

(** ** The layout table *)

Section Layouts.
Context {lz : LocalZone} {ck : Clock} {lib : GoParsers}.

Lemma tryLayouts_matched layouts : forall dateStr,
    dateparser.tryLayouts layouts dateStr =
    match dateparser.matchedLayout layouts dateStr with
    | Some layout => time_Parse layout dateStr
    | None => None
    end.
  Proof.
    induction layouts as [|l ls IH]; intros s; simpl; [reflexivity|].
    destruct (time_Parse l s) eqn:E; [now rewrite E|apply IH].
  Qed.

Lemma matchedLayout_parses layouts : forall dateStr layout,
    dateparser.matchedLayout layouts dateStr = Some layout ->
    In layout layouts /\ exists t, time_Parse layout dateStr = Some t.
  Proof.
    induction layouts as [|l ls IH]; intros s layout H; simpl in H; [discriminate|].
    destruct (time_Parse l s) eqn:E.
    - inversion H; subst. split; [now left|eauto].
    - destruct (IH _ _ H). split; [now right|assumption].
  Qed.

Lemma matchedLayout_exists layouts : forall dateStr layout t,
    In layout layouts -> time_Parse layout dateStr = Some t ->
    exists layout', dateparser.matchedLayout layouts dateStr = Some layout'.
  Proof.
    induction layouts as [|l ls IH]; intros s layout t Hin H; [destruct Hin|].
    simpl. destruct (time_Parse l s) eqn:E; [eauto|].
    destruct Hin as [->|Hin]; [congruence|]. eapply IH; eauto.
  Qed.

End Layouts.

(** C2, as amended.  For every string without the malformed token that
    some layout of the table parses (as [ParseDate] hands it over),
    [ParseDateWithDefaultTZ] succeeds with the instant the first such
    layout yields.  A value in the local zone is converted to UTC, the
    instant kept; any other value is returned as parsed, so a zone fixed
    by the string keeps its offset: the offset of the result is zero
    exactly when the parsed value was local, in UTC, or in a fixed zone of
    offset zero.  When the layout has no zone token, the parser has read
    the fields as UTC already and the value is returned unchanged. *)
Theorem normalizer_zone {lz : LocalZone} {ck : Clock} {lib : GoParsers}
    (dateStr layout : string) (n : nat) :
  ParsesWithoutZoneInUTC lib ->
  strings.Contains dateStr "EETE_R" || strings.Contains dateStr "EESTE_R" = false ->
  dateparser.matchedLayout dateparser.dateLayouts (dateparser.substitute dateStr)
  = Some layout ->
  exists t0 t,
    time_Parse layout (dateparser.substitute dateStr) = Some t0
    /\ dateparser.ParseDate dateStr n = (Ok t0, n)
    /\ dateparser.ParseDateWithDefaultTZ dateStr n = (Ok t, n)
    /\ time.unixNano t = time.unixNano t0
    /\ (time.loc t0 = time.Local -> t = time.Time_UTC t0)
    /\ (time.loc t0 <> time.Local -> t = t0)
    /\ (time.ZoneOffset t = 0 <->
        time.loc t0 = time.Local \/ time.loc t0 = time.UTC
        \/ exists name, time.loc t0 = time.FixedZone name 0)
    /\ (timefmt.hasZoneToken layout = false -> t = t0 /\ time.loc t = time.UTC).
Proof.
  intros Hlaw Hno Hmatch.
  destruct (matchedLayout_parses _ _ _ Hmatch) as [_ [t0 Ht0]].
  assert (HP : dateparser.ParseDate dateStr n = (Ok t0, n)).
  { unfold dateparser.ParseDate. rewrite Hno, tryLayouts_matched, Hmatch, Ht0.
    reflexivity. }
  exists t0.
  unfold dateparser.ParseDateWithDefaultTZ. unfold bind. rewrite HP.
  unfold time.Location_.
  destruct t0 as [u l]. cbn [time.loc time.unixNano] in *.
  destruct l as [| |name off]; cbn [time.Location_eqb]; eexists;
    (split; [exact Ht0|]); (split; [reflexivity|]); (split; [reflexivity|]);
    unfold time.ZoneOffset, time.Time_UTC; cbn [time.loc time.unixNano time.offsetAt].
  - repeat apply conj; auto; try tauto; try discriminate.
  - repeat apply conj; auto; try tauto; try congruence.
    intros Hz. specialize (Hlaw _ _ _ Hz Ht0). discriminate.
  - repeat apply conj; auto; try congruence.
    + intros ->. right. right. now exists name.
    + intros [H|[H|[name' H]]]; congruence.
    + intros Hz. specialize (Hlaw _ _ _ Hz Ht0). discriminate.
Qed.

Lemma normalizer_keeps_fixed_zone :
  let s := "Vie, 30 Sep 2022 21:27:13 -0500" in
  In "Vie, 02 Jan 2006 15:04:05 -0700" dateparser.dateLayouts
  /\ @time_Parse (@modelParsers utcZone) "Vie, 02 Jan 2006 15:04:05 -0700" s
     = Some (time.mkTime 1664591233000000000 (time.FixedZone "" (-18000)))
  /\ @dateparser.ParseDateWithDefaultTZ utcZone sampleClock (@modelParsers utcZone)
       s 0%nat
     = (Ok (time.mkTime 1664591233000000000 (time.FixedZone "" (-18000))), 0%nat)
  /\ @time.ZoneOffset utcZone
       (time.mkTime 1664591233000000000 (time.FixedZone "" (-18000))) = -18000.
Proof. vm_compute. repeat split; auto 30. Qed.

(** C7.  The headline ["  Test   headline  "] with a maximum of 50 yields
    exactly ["Test headline"]; the empty headline yields [ErrEmptyHeadline]
    whatever the maximum; and every other headline whose sanitized form
    (runs of white space collapsed, then trimmed) has more code points
    than the maximum yields [ErrHeadlineTooLong].  The count is of code
    points, not of bytes: ["héllo"] has six bytes and passes a maximum of
    five. *)
Theorem headline_sanitation :
  validation.ValidateAndSanitizeHeadline "  Test   headline  " 50
  = Ok "Test headline"
  /\ (forall maxLength,
        validation.ValidateAndSanitizeHeadline "" maxLength
        = Err (Sentinel ErrEmptyHeadline))
  /\ (forall rawHeadline maxLength,
        rawHeadline <> "" ->
        maxLength < utf8.RuneCountInString
                      (strings.TrimSpace (spaceRegexp_ReplaceAllString rawHeadline)) ->
        validation.ValidateAndSanitizeHeadline rawHeadline maxLength
        = Err (Sentinel ErrHeadlineTooLong))
  /\ (len "héllo" = 6
      /\ validation.ValidateAndSanitizeHeadline "héllo" 5 = Ok "héllo"
      /\ validation.ValidateAndSanitizeHeadline "héllo" 4
         = Err (Sentinel ErrHeadlineTooLong)).
Proof.
  split; [reflexivity|]. split; [reflexivity|]. split; [|repeat split].
  intros raw maxLength Hne Hlen.
  unfold validation.ValidateAndSanitizeHeadline.
  destruct (String.eqb_spec raw ""); [contradiction|].
  apply Z.ltb_lt in Hlen. now rewrite Hlen.
Qed.

Lemma headline_sanitation_witness :
  validation.ValidateAndSanitizeHeadline
    "This is a very long headline that exceeds the maximum length" 10
  = Err (Sentinel ErrHeadlineTooLong).
Proof.
  apply (proj1 (proj2 (proj2 headline_sanitation))); [discriminate|].
  vm_compute. reflexivity.
Defined.

(** ** The freshness window *)

(** [Sub] against a bound: the difference saturates at the ends of
    [int64], so nothing exceeds the largest [Duration]. *)
Lemma Sub_gt (t u : time.Time) (d : time.Duration) :
  time.isDuration d ->
  (d < time.Sub t u <->
   d < time.unixNano t - time.unixNano u /\ d < time.maxDuration).
Proof.
  unfold time.isDuration, time.Sub, time.minDuration, time.maxDuration.
  change (2 ^ 63) with 9223372036854775808.
  intros Hd.
  repeat match goal with
         | |- context [?a <? ?b] => destruct (Z.ltb_spec a b)
         end; lia.
Qed.

Section Window.
Context {lz : LocalZone} {ck : Clock} {lib : GoParsers}.

(** C8, as amended.  For an entry whose publication instant is resolved,
    with [maxAge] and [futureTolerance] in the range of a [Duration]: the
    validation fails with [ErrFuturePublication] exactly when the instant
    is strictly more than [futureTolerance] ahead of the clock reading and
    [futureTolerance] is below the largest [Duration] (the distance [Sub]
    computes saturates there); otherwise it fails with
    [ErrPublicationTooOld] exactly when the instant is strictly more than
    [maxAge] behind the reading and [maxAge] is below the largest
    [Duration]; otherwise, the boundaries included, it returns the same
    instant in UTC, with offset zero, whatever zone the instant came in. *)
Theorem publication_window (item : gofeed.Item)
      (maxAge futureTolerance : time.Duration) (n : nat)
      (parsed : time.Time) (n1 : nat) :
    time.isDuration maxAge ->
    time.isDuration futureTolerance ->
    validation.resolvesTo item n parsed n1 ->
    let ahead := time.unixNano parsed - clock n1 in
    let future := futureTolerance < ahead /\ futureTolerance < time.maxDuration in
    let old := maxAge < - ahead /\ maxAge < time.maxDuration in
    exists item' r,
      validation.ValidatePublicationDate item maxAge futureTolerance n
      = ((item', r), S n1)
      /\ (r = Err (Sentinel ErrFuturePublication) <-> future)
      /\ (r = Err (Sentinel ErrPublicationTooOld) <-> ~ future /\ old)
      /\ (forall t, r = Ok t <->
            ~ future /\ ~ old /\ t = time.mkTime (time.unixNano parsed) time.UTC)
      /\ (forall t, r = Ok t -> time.loc t = time.UTC /\ time.ZoneOffset t = 0).
  Proof.
    intros HmaxAge Htol Hres ahead future old.
    assert (Hrun : exists item',
      validation.ValidatePublicationDate item maxAge futureTolerance n
      = ((item',
          if futureTolerance <?
             time.Sub (time.Time_UTC parsed) (time.Time_UTC (time.mkTime (clock n1) time.Local))
          then Err (Sentinel ErrFuturePublication)
          else if maxAge <?
                  time.Sub (time.Time_UTC (time.mkTime (clock n1) time.Local))
                           (time.Time_UTC parsed)
          then Err (Sentinel ErrPublicationTooOld)
          else Ok (time.Time_UTC parsed)), S n1)).
    { unfold validation.ValidatePublicationDate.
      destruct Hres as [[Hp ->]|(Hp & Hraw & Hparse)]; rewrite Hp.
      - exists item. unfold bind, ret, Now.
        repeat match goal with |- context [if ?b then _ else _] => destruct b end;
          reflexivity.
      - destruct (String.eqb_spec (gofeed.Published item) ""); [contradiction|].
        exists (gofeed.setPublishedParsed item parsed).
        unfold bind at 1. unfold bind at 1. rewrite Hparse. unfold ret at 1.
        unfold bind, ret, Now.
        repeat match goal with |- context [if ?b then _ else _] => destruct b end;
          reflexivity. }
    destruct Hrun as [item' Hrun]. eexists. eexists. split; [exact Hrun|].
    assert (Hf : futureTolerance <
                 time.Sub (time.Time_UTC parsed)
                          (time.Time_UTC (time.mkTime (clock n1) time.Local))
                 <-> future).
    { rewrite Sub_gt by assumption. reflexivity. }
    assert (Ho : maxAge <
                 time.Sub (time.Time_UTC (time.mkTime (clock n1) time.Local))
                          (time.Time_UTC parsed)
                 <-> old).
    { rewrite Sub_gt by assumption. unfold old, ahead.
      cbn [time.Time_UTC time.unixNano].
      replace (clock n1 - time.unixNano parsed)
        with (- (time.unixNano parsed - clock n1)) by ring.
      reflexivity. }
    destruct (Z.ltb_spec futureTolerance
                (time.Sub (time.Time_UTC parsed)
                   (time.Time_UTC (time.mkTime (clock n1) time.Local)))) as [H1|H1];
      [|destruct (Z.ltb_spec maxAge
                   (time.Sub (time.Time_UTC (time.mkTime (clock n1) time.Local))
                      (time.Time_UTC parsed))) as [H2|H2]].
    - apply Hf in H1.
      split; [tauto|]. split; [split; [discriminate|tauto]|].
      split; [intros t; split; [discriminate|tauto]|intros; discriminate].
    - apply Ho in H2. assert (~ future) by (rewrite <- Hf; lia).
      split; [split; [discriminate|tauto]|]. split; [tauto|].
      split; [intros t; split; [discriminate|tauto]|intros; discriminate].
    - assert (~ future) by (rewrite <- Hf; lia).
      assert (~ old) by (rewrite <- Ho; lia).
      split; [split; [discriminate|tauto]|].
      split; [split; [discriminate|tauto]|].
      split.
      + intros t. unfold time.Time_UTC. split.
        * intros E. inversion E. tauto.
        * intros (_ & _ & ->). reflexivity.
      + intros t E. inversion E. split; reflexivity.
  Qed.

End Window.

(** ** The validation of one entry *)

Section Entry.
Context {lz : LocalZone} {ck : Clock} {lib : GoParsers}.

  (** A successful [parseEETEPattern] aside, the normalizer reads no
      clock, and whether it fails does not depend on the clock. *)
Lemma parseEETEPattern_fails dateStr n e n' :
    dateparser.parseEETEPattern dateStr n = (Err e, n') ->
    forall m, dateparser.parseEETEPattern dateStr m = (Err e, m).
  Proof.
    unfold dateparser.parseEETEPattern.
    destruct (dateparser.eetePattern_FindStringSubmatch dateStr) as [matches|].
    - destruct (negb (List.length matches =? 5)%nat).
      + unfold ret. intros H m. inversion H. reflexivity.
      + unfold bind, Now, ret.
        destruct (dateparser.lookup dateparser.monthMap _); discriminate.
    - unfold ret. intros H m. inversion H. reflexivity.
  Qed.

Lemma ParseDate_fails dateStr n e n' :
    dateparser.ParseDate dateStr n = (Err e, n') ->
    forall m, dateparser.ParseDate dateStr m = (Err e, m).
  Proof.
    unfold dateparser.ParseDate.
    destruct (strings.Contains dateStr "EETE_R" || strings.Contains dateStr "EESTE_R").
    - apply parseEETEPattern_fails.
    - destruct (dateparser.tryLayouts _ _); unfold ret; intros H m;
        inversion H; reflexivity.
  Qed.

Lemma ParseDateWithDefaultTZ_fails dateStr n e n' :
    dateparser.ParseDateWithDefaultTZ dateStr n = (Err e, n') ->
    forall m, dateparser.ParseDateWithDefaultTZ dateStr m = (Err e, m).
  Proof.
    unfold dateparser.ParseDateWithDefaultTZ, bind.
    destruct (dateparser.ParseDate dateStr n) as [[t|e0] n0] eqn:E.
    - destruct (time.Location_eqb _ _); discriminate.
    - unfold ret. intros H m. inversion H; subst.
      now rewrite (ParseDate_fails _ _ _ _ E m).
  Qed.

Lemma ValidateAndResolveURL_error feedURL rawURL e :
    validation.ValidateAndResolveURL feedURL rawURL = Err e ->
    errors.Is e ErrInvalidURL = true
    /\ errors.Is e ErrFeedPublicationDateFormat = false
    /\ entryScoped e = true.
  Proof.
    unfold validation.ValidateAndResolveURL.
    destruct (String.eqb _ ""); [intros H; inversion H; repeat split|].
    destruct (url_Parse _); intros H; inversion H; repeat split.
  Qed.

Lemma ValidateAndSanitizeHeadline_error raw maxLength e :
    validation.ValidateAndSanitizeHeadline raw maxLength = Err e ->
    errors.Is e ErrFeedPublicationDateFormat = false /\ entryScoped e = true.
  Proof.
    unfold validation.ValidateAndSanitizeHeadline.
    destruct (String.eqb raw ""); [intros H; inversion H; split; reflexivity|].
    destruct (_ <? _); intros H; inversion H; split; reflexivity.
  Qed.

Lemma ValidatePublicationDate_error item maxAge tol n item' e n' :
    validation.ValidatePublicationDate item maxAge tol n = ((item', Err e), n') ->
    (errors.Is e ErrFeedPublicationDateFormat = false /\ entryScoped e = true)
    \/ (errors.Is e ErrFeedPublicationDateFormat = true /\ entryScoped e = false
        /\ item' = item /\ n' = n
        /\ gofeed.PublishedParsed item = None
        /\ gofeed.Published item <> ""
        /\ exists e0,
             e = fmt_Errorf "%w: %s"
                   [opWrapped (Sentinel ErrFeedPublicationDateFormat); opError e0]
             /\ forall m, dateparser.ParseDateWithDefaultTZ (gofeed.Published item) m
                          = (Err e0, m)).
  Proof.
    unfold validation.ValidatePublicationDate.
    destruct (gofeed.PublishedParsed item) as [parsed|] eqn:Hp.
    - unfold bind, ret, Now.
      repeat match goal with |- context [if ?b then _ else _] => destruct b end;
        intros H; inversion H; left; split; reflexivity.
    - destruct (String.eqb_spec (gofeed.Published item) "") as [Hraw|Hraw].
      + unfold bind, ret. intros H; inversion H. left; split; reflexivity.
      + unfold bind at 1. unfold bind at 1.
        destruct (dateparser.ParseDateWithDefaultTZ (gofeed.Published item) n)
          as [[t|e0] n0] eqn:E.
        * unfold bind, ret, Now.
          repeat match goal with |- context [if ?b then _ else _] => destruct b end;
            intros H; inversion H; left; split; reflexivity.
        * unfold ret. intros H; inversion H; subst. right.
          pose proof (ParseDateWithDefaultTZ_fails _ _ _ _ E) as Hall.
          assert (n' = n) by (specialize (Hall n); congruence). subst n'.
          repeat split; auto. exists e0. split; [reflexivity|exact Hall].
  Qed.

  (** Every failure of the validation of an entry is either scoped to the
      entry or the date-format failure, and the latter means that the date
      cannot be read, whatever the clock shows. *)
Lemma outcome_error f feedURL item n e :
    FeedFetcher.outcome f feedURL item n = Err e ->
    (errors.Is e ErrFeedPublicationDateFormat = false /\ entryScoped e = true)
    \/ (errors.Is e ErrFeedPublicationDateFormat = true /\ entryScoped e = false
        /\ forall m, exists e',
             FeedFetcher.validateAndConvertItem f (Some feedURL) (Some item) m
             = ((Some item, Err e'), m)
             /\ errors.Is e' ErrFeedPublicationDateFormat = true).
  Proof.
    unfold FeedFetcher.outcome, FeedFetcher.validateAndConvertItem.
    destruct (validation.ValidateAndResolveURL feedURL (gofeed.Link item))
      as [itemURL|e1] eqn:Hurl.
    - unfold bind.
      destruct (validation.ValidatePublicationDate item _ _ n)
        as [[item' [t|e1]] n1] eqn:Hdate.
      + destruct (validation.ValidateAndSanitizeHeadline _ _) as [h|e1] eqn:Hh.
        * discriminate.
        * cbn. intros H; inversion H; subst.
          left. eapply ValidateAndSanitizeHeadline_error; eauto.
      + cbn. intros H; inversion H; subst.
        destruct (ValidatePublicationDate_error _ _ _ _ _ _ _ Hdate)
          as [Hs|(Hd & Hs & -> & -> & Hp & Hraw & e0 & -> & Hall)];
          [now left|right].
        split; [reflexivity|]. split; [reflexivity|].
        intros m.
        exists (fmt_Errorf "%w: %s"
                  [opWrapped (Sentinel ErrFeedPublicationDateFormat); opError e0]).
        split; [|reflexivity].
        unfold validation.ValidatePublicationDate. rewrite Hp.
        destruct (String.eqb_spec (gofeed.Published item) ""); [contradiction|].
        unfold bind. rewrite (Hall m). reflexivity.
    - cbn. intros H; inversion H; subst.
      left. destruct (ValidateAndResolveURL_error _ _ _ Hurl) as (_ & ? & ?).
      split; assumption.
  Qed.

  (** ** The loop over the batch *)

Lemma extractLoop_abort f feedURL items : forall acc n,
    (exists item m e,
        In (Some item) items
        /\ FeedFetcher.outcome f feedURL item m = Err e
        /\ errors.Is e ErrFeedPublicationDateFormat = true) ->
    exists n',
      FeedFetcher.extractLoop f (Some feedURL) items acc n
      = (([], Some (Sentinel ErrFeedPublicationDateFormat)), n').
  Proof.
    induction items as [|[item0|] rest IH]; intros acc n (item & m & e & Hin & Hout & His).
    - destruct Hin.
    - cbn [FeedFetcher.extractLoop]. unfold bind.
      destruct (FeedFetcher.validateAndConvertItem f (Some feedURL) (Some item0) n)
        as [[it r] n1] eqn:E. cbn [fst snd].
      destruct Hin as [Heq|Hin].
      + inversion Heq; subst item0.
        destruct (outcome_error _ _ _ _ _ Hout) as [[Hno _]|(_ & _ & Hall)];
          [congruence|].
        destruct (Hall n) as (e' & Hrun & His').
        rewrite Hrun in E. inversion E; subst. rewrite His'. eauto.
      + destruct r as [parsed|err].
        * apply IH. eauto 6.
        * destruct (errors.Is err ErrFeedPublicationDateFormat); [eauto|].
          apply IH. eauto 6.
    - cbn [FeedFetcher.extractLoop]. apply IH.
      destruct Hin as [Heq|Hin]; [discriminate|eauto 6].
  Qed.

Lemma extractLoop_accepted f feedURL items : forall acc n,
    (forall item m e,
        In (Some item) items ->
        FeedFetcher.outcome f feedURL item m = Err e ->
        entryScoped e = true) ->
    FeedFetcher.extractLoop f (Some feedURL) items acc n
    = (((acc ++ fst (FeedFetcher.accepted f feedURL items n))%list, None),
       snd (FeedFetcher.accepted f feedURL items n)).
  Proof.
    induction items as [|[item0|] rest IH]; intros acc n Hall.
    - cbn. now rewrite app_nil_r.
    - cbn [FeedFetcher.extractLoop FeedFetcher.accepted]. unfold bind.
      destruct (FeedFetcher.validateAndConvertItem f (Some feedURL) (Some item0) n)
        as [[it r] n1] eqn:E. cbn [fst snd].
      assert (Hrest : forall item m e,
                 In (Some item) rest ->
                 FeedFetcher.outcome f feedURL item m = Err e ->
                 entryScoped e = true)
        by (intros; eapply Hall; [right|]; eauto).
      destruct r as [parsed|err].
      + rewrite (IH _ _ Hrest).
        destruct (FeedFetcher.accepted f feedURL rest n1) as [l n2].
        cbn [fst snd]. now rewrite <- app_assoc.
      + assert (Hscoped : entryScoped err = true).
        { apply (Hall item0 n err); [now left|].
          unfold FeedFetcher.outcome. now rewrite E. }
        assert (Hno : errors.Is err ErrFeedPublicationDateFormat = false).
        { destruct (outcome_error f feedURL item0 n err) as [[? _]|(_ & ? & _)];
            [unfold FeedFetcher.outcome; now rewrite E|assumption|congruence]. }
        rewrite Hno, (IH _ _ Hrest).
        destruct (FeedFetcher.accepted f feedURL rest n1) as [l n2]. reflexivity.
    - cbn [FeedFetcher.extractLoop FeedFetcher.accepted]. apply IH.
      intros; eapply Hall; [right|]; eauto.
  Qed.

  (** [FetchAndProcess] once the request is admitted and the feed
      retrieved: the loop over the entries, after the two readings of the
      clock [download] takes. *)
Lemma FetchAndProcess_run f ctx feedURL parsedURL feed n :
    @limiter.WaitForDomain lib (FeedFetcher.rateLimiter f) ctx feedURL = None ->
    url_Parse feedURL = Ok parsedURL ->
    @feedparser.ParseURLWithContext (FeedFetcher.parser f) feedURL
      (context.WithTimeout ctx (FeedFetcher.RequestTimeout (FeedFetcher.config f)))
    = Ok feed ->
    FeedFetcher.FetchAndProcess f ctx feedURL n
    = FeedFetcher.extractLoop f (Some parsedURL)
        (FeedFetcher.processed f (gofeed.Items feed)) [] (S (S n)).
  Proof.
    intros Hwait Hparse Hget.
    unfold FeedFetcher.FetchAndProcess. rewrite Hwait.
    unfold FeedFetcher.newFeed. rewrite Hparse.
    unfold bind, FeedFetcher.download. cbn [FeedFetcher.feed_url].
    unfold bind, Now. rewrite Hget. reflexivity.
  Qed.

End Entry.

Section Batch.
Context {lz : LocalZone} {ck : Clock} {lib : GoParsers}.

(** C1.  Once the request is admitted and the feed retrieved: if the
    validation of one of the entries the batch processes fails with the
    date-format error, [FetchAndProcess] (and [extractItems]) returns no
    item at all together with [ErrFeedPublicationDateFormat]; no entry,
    before or after the failing one, is in the result. *)
Theorem batch_abort_on_date_format (f : FeedFetcher.FeedFetcher)
      (ctx : context.Context) (feedURL : string) (parsedURL : url.URL)
      (feed : gofeed.Feed) (n : nat) :
    @limiter.WaitForDomain lib (FeedFetcher.rateLimiter f) ctx feedURL = None ->
    url_Parse feedURL = Ok parsedURL ->
    @feedparser.ParseURLWithContext (FeedFetcher.parser f) feedURL
      (context.WithTimeout ctx (FeedFetcher.RequestTimeout (FeedFetcher.config f)))
    = Ok feed ->
    (exists item m e,
        In (Some item) (FeedFetcher.processed f (gofeed.Items feed))
        /\ FeedFetcher.outcome f parsedURL item m = Err e
        /\ errors.Is e ErrFeedPublicationDateFormat = true) ->
    (exists n',
        FeedFetcher.FetchAndProcess f ctx feedURL n
        = (([], Some (Sentinel ErrFeedPublicationDateFormat)), n'))
    /\ (forall m, exists n',
          FeedFetcher.extractItems f
            (Some (FeedFetcher.mkfeed feedURL (Some parsedURL) (Some feed))) m
          = (([], Some (Sentinel ErrFeedPublicationDateFormat)), n')).
  Proof.
    intros Hwait Hparse Hget Hbad. split.
    - rewrite (FetchAndProcess_run f ctx feedURL parsedURL feed n Hwait Hparse Hget).
      now apply extractLoop_abort.
    - intros m. cbn [FeedFetcher.extractItems FeedFetcher.data FeedFetcher.parsedURL].
      now apply extractLoop_abort.
  Qed.

(** C5.  Once the request is admitted and the feed retrieved: if every
    failure among the entries the batch processes is scoped to its entry
    (invalid URL, empty headline, headline too long, missing publish date,
    too old, too far in the future), [FetchAndProcess] returns no error
    and exactly the accepted entries, in their order. *)
Theorem entry_scoped_failures_are_skipped (f : FeedFetcher.FeedFetcher)
      (ctx : context.Context) (feedURL : string) (parsedURL : url.URL)
      (feed : gofeed.Feed) (n : nat) :
    @limiter.WaitForDomain lib (FeedFetcher.rateLimiter f) ctx feedURL = None ->
    url_Parse feedURL = Ok parsedURL ->
    @feedparser.ParseURLWithContext (FeedFetcher.parser f) feedURL
      (context.WithTimeout ctx (FeedFetcher.RequestTimeout (FeedFetcher.config f)))
    = Ok feed ->
    (forall item m e,
        In (Some item) (FeedFetcher.processed f (gofeed.Items feed)) ->
        FeedFetcher.outcome f parsedURL item m = Err e ->
        entryScoped e = true) ->
    let run := FeedFetcher.accepted f parsedURL
                 (FeedFetcher.processed f (gofeed.Items feed)) (S (S n)) in
    FeedFetcher.FetchAndProcess f ctx feedURL n = ((fst run, None), snd run).
  Proof.
    intros Hwait Hparse Hget Hscoped run.
    rewrite (FetchAndProcess_run f ctx feedURL parsedURL feed n Hwait Hparse Hget).
    now rewrite extractLoop_accepted.
  Qed.

(** C10.  For an entry whose link fails URL validation, the validation
    returns that error at once: the clock is not read, the item is left
    as it is, and the result is the same whatever the raw and the parsed
    date of the entry are.  The error is the invalid-URL error and not the
    date-format one, so the loop of the batch goes on with the next
    entry. *)
Theorem invalid_link_hides_the_date (f : FeedFetcher.FeedFetcher)
      (feedURL : url.URL) (item : gofeed.Item) (e : error) :
    validation.ValidateAndResolveURL feedURL (gofeed.Link item) = Err e ->
    (forall n,
        FeedFetcher.validateAndConvertItem f (Some feedURL) (Some item) n
        = ((Some item, Err e), n))
    /\ (forall published parsed n,
          FeedFetcher.outcome f feedURL
            (gofeed.mkItem (gofeed.Title item) (gofeed.Description item)
               (gofeed.Content item) (gofeed.Link item) published parsed) n
          = Err e)
    /\ errors.Is e ErrInvalidURL = true
    /\ errors.Is e ErrFeedPublicationDateFormat = false
    /\ (forall rest acc n,
          FeedFetcher.extractLoop f (Some feedURL) (Some item :: rest) acc n
          = FeedFetcher.extractLoop f (Some feedURL) rest acc n).
  Proof.
    intros Hurl.
    destruct (ValidateAndResolveURL_error _ _ _ Hurl) as (Hinv & Hno & _).
    assert (Hrun : forall n,
               FeedFetcher.validateAndConvertItem f (Some feedURL) (Some item) n
               = ((Some item, Err e), n)).
    { intros n. unfold FeedFetcher.validateAndConvertItem. now rewrite Hurl. }
    repeat apply conj; auto.
    - intros published parsed n.
      unfold FeedFetcher.outcome, FeedFetcher.validateAndConvertItem.
      cbn [gofeed.Link]. now rewrite Hurl.
    - intros rest acc n. cbn [FeedFetcher.extractLoop]. unfold bind.
      rewrite Hrun. cbn [fst snd]. now rewrite Hno.
  Qed.

End Batch.

(** ** The resolved URL *)

Lemma append_assoc (a b c : string) : (a ++ b) ++ c = a ++ (b ++ c).
Proof. induction a; simpl; congruence. Qed.

Lemma Scheme_withPath u p : url.Scheme (url.withPath u p) = url.Scheme u.
Proof.
  unfold url.withPath, url.setPath.
  destruct (url.unescape p url.encodePath); reflexivity.
Qed.

(** The scheme of a resolved reference: its own if it has one, else the
    scheme of the base. *)
Lemma Scheme_ResolveReference u ref :
  url.Scheme (url.ResolveReference u ref)
  = if String.eqb (url.Scheme ref) "" then url.Scheme u else url.Scheme ref.
Proof.
  unfold url.ResolveReference.
  repeat match goal with
         | |- context [if ?b then _ else _] =>
             lazymatch b with
             | String.eqb (url.Scheme ref) "" => fail
             | _ => destruct b
             end
         end;
    rewrite ?Scheme_withPath; reflexivity.
Qed.

Lemma IsAbs_ResolveReference u ref :
  url.IsAbs (url.ResolveReference u ref) = url.IsAbs u || url.IsAbs ref.
Proof.
  unfold url.IsAbs. rewrite Scheme_ResolveReference.
  destruct (String.eqb (url.Scheme ref) "") eqn:E; simpl.
  - now rewrite orb_false_r.
  - rewrite E. now rewrite orb_true_r.
Qed.

(** The rendering of a URL with a scheme starts with the scheme and a
    colon. *)
Lemma String_starts_with_scheme u :
  url.IsAbs u = true ->
  exists rest, url.String_ u = url.Scheme u ++ ":" ++ rest.
Proof.
  unfold url.IsAbs, url.String_. intros H.
  destruct (String.eqb (url.Scheme u) ""); [discriminate|].
  destruct (negb (String.eqb (url.Opaque u) "")).
  - eexists. rewrite !append_assoc. reflexivity.
  - cbv zeta. eexists. rewrite !append_assoc. reflexivity.
Qed.

Section Resolved.
Context {lz : LocalZone} {ck : Clock} {lib : GoParsers}.

Lemma outcome_url f feedURL item n fi :
    FeedFetcher.outcome f feedURL item n = Ok fi ->
    validation.ValidateAndResolveURL feedURL (gofeed.Link item)
    = Ok (FeedFetcher.URL fi).
  Proof.
    unfold FeedFetcher.outcome, FeedFetcher.validateAndConvertItem.
    destruct (validation.ValidateAndResolveURL feedURL (gofeed.Link item));
      [|discriminate].
    unfold bind.
    destruct (validation.ValidatePublicationDate item _ _ n) as [[item' [t|e]] n1];
      [|discriminate].
    destruct (validation.ValidateAndSanitizeHeadline _ _); [|discriminate].
    cbn. intros H. inversion H. reflexivity.
  Qed.

(** C3, as amended.  The URL of an accepted item is the rendering of the
    entry's link (trimmed, not empty, parsed) resolved against the feed
    URL.  The resolved URL is absolute exactly when the feed URL or the
    link has a scheme, and then the text starts with that scheme and a
    colon. *)
Theorem resolved_url_of_accepted_item (f : FeedFetcher.FeedFetcher)
      (feedURL : url.URL) (item : gofeed.Item) (n : nat)
      (accepted : FeedFetcher.FeedItem) :
    FeedFetcher.outcome f feedURL item n = Ok accepted ->
    exists parsed,
      strings.TrimSpace (gofeed.Link item) <> ""
      /\ url_Parse (strings.TrimSpace (gofeed.Link item)) = Ok parsed
      /\ FeedFetcher.URL accepted
         = url.String_ (url.ResolveReference feedURL parsed)
      /\ url.IsAbs (url.ResolveReference feedURL parsed)
         = url.IsAbs feedURL || url.IsAbs parsed
      /\ (url.IsAbs feedURL = true \/ url.IsAbs parsed = true ->
          exists rest,
            FeedFetcher.URL accepted
            = url.Scheme (url.ResolveReference feedURL parsed) ++ ":" ++ rest).
  Proof.
    intros Hok. apply outcome_url in Hok.
    unfold validation.ValidateAndResolveURL in Hok.
    destruct (String.eqb_spec (strings.TrimSpace (gofeed.Link item)) "");
      [discriminate|].
    destruct (url_Parse (strings.TrimSpace (gofeed.Link item))) as [parsed|e] eqn:E;
      [|discriminate].
    inversion Hok as [Hurl]. exists parsed.
    repeat apply conj; auto.
    - apply IsAbs_ResolveReference.
    - intros Habs. apply String_starts_with_scheme.
      rewrite IsAbs_ResolveReference. destruct Habs as [-> | ->];
        [reflexivity|apply orb_true_r].
  Qed.

End Resolved.

Lemma batch_abort_witness :
  exists n',
    @FeedFetcher.FetchAndProcess utcZone sampleClock (@modelParsers utcZone)
      (sampleFetcher brokenDateFeed) context.Background sampleFeedURL 0%nat
    = (([], Some (Sentinel ErrFeedPublicationDateFormat)), n').
Proof.
  apply (proj1 (@batch_abort_on_date_format utcZone sampleClock
                  (@modelParsers utcZone) (sampleFetcher brokenDateFeed)
                  context.Background sampleFeedURL sampleFeedParsed
                  brokenDateFeed 0%nat
                  eq_refl eq_refl eq_refl
                  (ex_intro _ _ (ex_intro _ 0%nat (ex_intro _ _
                     (conj (or_intror (or_introl eq_refl))
                        (conj eq_refl eq_refl))))))).
Defined.

Lemma entry_scoped_witness :
  map FeedFetcher.Headline
    (fst (fst (@FeedFetcher.FetchAndProcess utcZone sampleClock
                 (@modelParsers utcZone) (sampleFetcher mixedFeed)
                 context.Background sampleFeedURL 0%nat)))
  = ["One"; "Three"; "Five"]
  /\ snd (fst (@FeedFetcher.FetchAndProcess utcZone sampleClock
                 (@modelParsers utcZone) (sampleFetcher mixedFeed)
                 context.Background sampleFeedURL 0%nat)) = None.
Proof.
  rewrite (@entry_scoped_failures_are_skipped utcZone sampleClock
             (@modelParsers utcZone) (sampleFetcher mixedFeed)
             context.Background sampleFeedURL sampleFeedParsed mixedFeed 0%nat
             eq_refl eq_refl eq_refl).
  - vm_compute. split; reflexivity.
  - intros item m e Hin Hout.
    destruct (@outcome_error utcZone sampleClock (@modelParsers utcZone)
                _ _ _ _ _ Hout) as [[_ H]|(_ & _ & Hall)]; [exact H|].
    exfalso. destruct (Hall 0%nat) as (e' & Hrun & His).
    vm_compute in Hin.
    repeat (destruct Hin as [Hin|Hin];
            [inversion Hin; subst item; vm_compute in Hrun;
             inversion Hrun; subst; discriminate His|]).
    exact Hin.
Defined.

Lemma invalid_link_witness :
  @FeedFetcher.FetchAndProcess utcZone sampleClock (@modelParsers utcZone)
    (sampleFetcher brokenLinkFeed) context.Background sampleFeedURL 0%nat
  = @FeedFetcher.extractLoop utcZone sampleClock (@modelParsers utcZone)
      (sampleFetcher brokenLinkFeed) (Some sampleFeedParsed)
      [entry "Fine" "https://example.com/ok" "" (Some recent)] [] 2%nat.
Proof.
  rewrite (@FetchAndProcess_run utcZone sampleClock (@modelParsers utcZone)
             (sampleFetcher brokenLinkFeed) context.Background sampleFeedURL
             sampleFeedParsed brokenLinkFeed 0%nat eq_refl eq_refl eq_refl).
  exact (proj2 (proj2 (proj2 (proj2
           (@invalid_link_hides_the_date utcZone sampleClock
              (@modelParsers utcZone) (sampleFetcher brokenLinkFeed)
              sampleFeedParsed
              (gofeed.mkItem "Broken" "Test description" "" "   "
                 "yesterday at noon" None)
              (Sentinel ErrInvalidURL) eq_refl)))) _ _ _).
Defined.

Lemma scheme_less_feed_url_gives_relative_result :
  map FeedFetcher.URL
    (fst (fst (@FeedFetcher.FetchAndProcess utcZone sampleClock
                 (@modelParsers utcZone) (sampleFetcher relativeLinkFeed)
                 context.Background schemelessFeedURL 0%nat)))
  = ["//example.com/article"]
  /\ snd (fst (@FeedFetcher.FetchAndProcess utcZone sampleClock
                 (@modelParsers utcZone) (sampleFetcher relativeLinkFeed)
                 context.Background schemelessFeedURL 0%nat)) = None
  /\ exists u, urlparse.Parse "//example.com/article" = Ok u
               /\ url.IsAbs u = false.
Proof.
  split; [vm_compute; reflexivity|]. split; [vm_compute; reflexivity|].
  eexists. split; vm_compute; reflexivity.
Qed.

Lemma resolved_url_witness :
  exists parsed,
    strings.TrimSpace "/3" <> ""
    /\ @url_Parse (@modelParsers utcZone) (strings.TrimSpace "/3") = Ok parsed
    /\ "https://example.com/3"
       = url.String_ (url.ResolveReference sampleFeedParsed parsed)
    /\ url.IsAbs (url.ResolveReference sampleFeedParsed parsed)
       = url.IsAbs sampleFeedParsed || url.IsAbs parsed
    /\ (url.IsAbs sampleFeedParsed = true \/ url.IsAbs parsed = true ->
        exists rest,
          "https://example.com/3"
          = url.Scheme (url.ResolveReference sampleFeedParsed parsed) ++ ":" ++ rest).
Proof.
  exact (@resolved_url_of_accepted_item utcZone sampleClock (@modelParsers utcZone)
           (sampleFetcher mixedFeed) sampleFeedParsed
           (gofeed.mkItem "Three" "Test description" "" "/3" "" (Some recent))
           0%nat
           (FeedFetcher.mkFeedItem 0 "https://example.com/feed"
              "https://example.com/3" "Three" "Test description" recent)
           eq_refl).
Defined.

Lemma saturated_tolerance_accepts_far_future :
  time.isDuration time.maxDuration
  /\ time.maxDuration < time.unixNano farFuture - sampleClock 0%nat
  /\ @validation.ValidatePublicationDate utcZone sampleClock (@modelParsers utcZone)
       farFutureItem (24 * time.Hour) time.maxDuration 0%nat
     = ((farFutureItem, Ok farFuture), 1%nat).
Proof.
  split; [split; vm_compute; discriminate|].
  split; vm_compute; reflexivity.
Qed.

Lemma publication_window_witness :
  exists item' r,
    @validation.ValidatePublicationDate utcZone sampleClock (@modelParsers utcZone)
      (gofeed.mkItem "Four" "" "" "https://example.com/4" "" (Some stale))
      (24 * time.Hour) (24 * time.Hour) 0%nat
    = ((item', r), 1%nat)
    /\ r = Err (Sentinel ErrPublicationTooOld).
Proof.
  destruct (@publication_window utcZone sampleClock (@modelParsers utcZone)
              (gofeed.mkItem "Four" "" "" "https://example.com/4" "" (Some stale))
              (24 * time.Hour) (24 * time.Hour) 0%nat stale 0%nat)
    as (item' & r & Hrun & _ & Hold & _).
  - split; vm_compute; discriminate.
  - split; vm_compute; discriminate.
  - left. split; reflexivity.
  - exists item', r. split; [exact Hrun|].
    apply Hold. vm_compute. split; [|split; reflexivity].
    intros [H _]. discriminate H.
Defined.


Lemma eete_branch_witness :
  @dateparser.ParseDate utcZone sampleClock (@modelParsers utcZone)
    "SunPMEETE_RJanuaryC822" 0%nat
  = @dateparser.parseEETEPattern utcZone sampleClock "SunPMEETE_RJanuaryC822" 0%nat.
Proof.
  exact (proj1 (@eete_branch utcZone sampleClock (@modelParsers utcZone)
                  "SunPMEETE_RJanuaryC822" 0%nat eq_refl)).
Defined.

Lemma eete_branch_can_fail :
  strings.Contains "Tue AM EETE_R March C822" "EETE_R" = true
  /\ @dateparser.ParseDate utcZone sampleClock (@modelParsers utcZone)
       "Tue AM EETE_R March C822" 0%nat
     = (Err (fmt_Errorf "invalid EETE_R format: %s"
               [opString "Tue AM EETE_R March C822"]), 0%nat).
Proof. split; reflexivity. Qed.

Lemma normalizer_zone_witness :
  exists t0 t,
    @time_Parse (@modelParsers utcZone) "Monday Jan 02 2006 15:04:05"
      "Sunday Mar 23 2025 04:37:41" = Some t0
    /\ @dateparser.ParseDateWithDefaultTZ utcZone sampleClock (@modelParsers utcZone)
         "Sunday Mar 23 2025 04:37:41" 0%nat = (Ok t, 0%nat)
    /\ t = t0 /\ time.loc t = time.UTC.
Proof.
  destruct (@normalizer_zone utcZone sampleClock (@modelParsers utcZone)
              "Sunday Mar 23 2025 04:37:41" "Monday Jan 02 2006 15:04:05" 0%nat
              (model_ParsesWithoutZoneInUTC utcZone) eq_refl)
    as (t0 & t & Hp & _ & Hn & _ & _ & _ & _ & Hz).
  - vm_compute. reflexivity.
  - exists t0, t. split; [exact Hp|]. split; [exact Hn|].
    apply Hz. vm_compute. reflexivity.
Defined.

Lemma whitespace_headline_witness :
  validation.ValidateAndSanitizeHeadline blankHeadline 250 = Ok "".
Proof.
  apply whitespace_headline_is_accepted.
  - discriminate.
  - vm_compute. reflexivity.
  - lia.
Defined.

(* ===================================================================== *)
(** * Further properties of the program                                   *)
(* ===================================================================== *)

(** ** Runes and their bytes *)

Lemma encode_app (a b : list (Z * string)) :
  utf8.encode (a ++ b) = utf8.encode a ++ utf8.encode b.
Proof.
  induction a as [|c a IH]; simpl; [reflexivity|].
  now rewrite IH, append_assoc.
Qed.

Lemma chunks_encode f : forall s,
  (String.length s <= f)%nat -> utf8.encode (utf8.chunks f s) = s.
Proof.
  induction f as [|f IH]; intros s H.
  - destruct s; simpl in *; [reflexivity|lia].
  - destruct s as [|c s]; [reflexivity|].
    cbn [utf8.chunks].
    destruct (utf8.DecodeRuneInString (String c s)) as [r w] eqn:E.
    cbn [utf8.encode fold_right snd].
    change (fold_right (fun c acc => snd c ++ acc) "" ?l) with (utf8.encode l).
    apply decode_width_pos in E; [|discriminate].
    pose proof (length_drop_lt w c s ltac:(lia)).
    rewrite IH by (simpl in *; lia).
    apply take_drop.
Qed.

Lemma encode_decode s : utf8.encode (utf8.decode s) = s.
Proof. apply chunks_encode. lia. Qed.

Lemma length_take n : forall s,
  (n <= String.length s)%nat -> String.length (take n s) = n.
Proof.
  induction n as [|n IH]; intros [|c s] H; simpl in *; try lia.
  rewrite IH; lia.
Qed.

Lemma decode_width_le s r w :
  utf8.DecodeRuneInString s = (r, w) -> (w <= String.length s)%nat.
Proof.
  destruct s as [|c0 s]; [intros H; inversion H; simpl; lia|].
  unfold utf8.DecodeRuneInString.
  repeat match goal with
         | |- context [if ?b then _ else _] => destruct b
         | |- context [match ?x with EmptyString => _ | String _ _ => _ end] => destruct x
         end; intros H; inversion H; simpl; lia.
Qed.

(** A first byte that starts no rune where it stands starts none either
    when the string is cut further on. *)
Lemma decode_error_truncate c0 a b :
  utf8.DecodeRuneInString (String c0 (a ++ b)) = (utf8.RuneError, 1%nat) ->
  utf8.DecodeRuneInString (String c0 a) = (utf8.RuneError, 1%nat).
Proof.
  intros H.
  unfold utf8.DecodeRuneInString in *.
  destruct (byte c0 <? 128); [exact H|].
  destruct ((194 <=? byte c0) && (byte c0 <=? 223)).
  { destruct a as [|a1 a]; [reflexivity|]. exact H. }
  destruct ((224 <=? byte c0) && (byte c0 <=? 239)).
  { destruct a as [|a1 [|a2 a]]; [reflexivity|reflexivity|exact H]. }
  destruct ((240 <=? byte c0) && (byte c0 <=? 244)).
  { destruct a as [|a1 [|a2 [|a3 a]]]; [reflexivity|reflexivity|reflexivity|exact H]. }
  reflexivity.
Qed.

(** The decoder looks at no byte after the rune it returns: what is
    decoded at the head of a string is decoded at the head of every
    shorter string that holds the bytes of the rune. *)
Lemma decode_prefix pre x y r :
  pre <> "" ->
  utf8.DecodeRuneInString (pre ++ x ++ y) = (r, String.length pre) ->
  utf8.DecodeRuneInString (pre ++ x) = (r, String.length pre).
Proof.
  destruct pre as [|c0 pre]; [congruence|]. intros _ H.
  destruct (Z.ltb_spec (byte c0) 128) as [Hlo|Hhi].
  { cbn [append] in *. unfold utf8.DecodeRuneInString in *.
    apply Z.ltb_lt in Hlo. rewrite Hlo in *. exact H. }
  destruct (Z.eq_dec r utf8.RuneError) as [Hr|Hr];
    [destruct pre as [|c1 pre]|].
  - subst r. cbn [append String.length] in *.
    now apply decode_error_truncate in H.
  - cbn [append] in H.
    destruct (decode_multibyte c0 _ _ _ Hhi H) as (p & q & Hsplit & Hlen & _ & Hall).
    { right. simpl. lia. }
    assert (p = String c0 (String c1 pre)).
    { rewrite <- (take_app p q), <- Hsplit, Hlen.
      exact (take_app (String c0 (String c1 pre)) (x ++ y)). }
    subst p. apply Hall.
  - cbn [append] in H.
    destruct (decode_multibyte c0 _ _ _ Hhi H) as (p & q & Hsplit & Hlen & _ & Hall).
    { now left. }
    assert (p = String c0 pre).
    { rewrite <- (take_app p q), <- Hsplit, Hlen.
      exact (take_app (String c0 pre) (x ++ y)). }
    subst p. apply Hall.
Qed.

(** ** Lists of runes that are the runes of their bytes *)

Lemma decoded_tail c l :
  utf8.decode (utf8.encode (c :: l)) = c :: l ->
  utf8.decode (utf8.encode l) = l
  /\ snd c <> ""
  /\ utf8.DecodeRuneInString (utf8.encode (c :: l)) = (fst c, String.length (snd c)).
Proof.
  intros H.
  assert (Hs : utf8.encode (c :: l) = snd c ++ utf8.encode l) by reflexivity.
  remember (utf8.encode (c :: l)) as s1 eqn:Hs1. clear Hs1.
  assert (Hne : s1 <> "").
  { intros E. rewrite E in H. discriminate H. }
  rewrite (decode_cons _ Hne) in H.
  destruct (utf8.DecodeRuneInString s1) as [r w] eqn:E.
  unfold fst at 1, snd at 1 2 in H. injection H as Hc Hl.
  pose proof (decode_width_le _ _ _ E) as Hw.
  pose proof (decode_width_pos _ _ _ Hne E) as Hw1.
  assert (Hd : drop w s1 = utf8.encode l).
  { rewrite <- (encode_decode (drop w s1)). now rewrite Hl. }
  split; [|split].
  - rewrite <- Hd. exact Hl.
  - rewrite <- Hc. cbn [snd]. intros E0.
    apply (f_equal String.length) in E0. rewrite length_take in E0 by assumption.
    simpl in E0. lia.
  - rewrite <- Hc. cbn [fst snd]. now rewrite length_take.
Qed.

Lemma decoded_suffix a : forall l,
  utf8.decode (utf8.encode (a ++ l)) = (a ++ l)%list ->
  utf8.decode (utf8.encode l) = l.
Proof.
  induction a as [|c a IH]; intros l H; [exact H|].
  apply IH. now apply (decoded_tail c (a ++ l)).
Qed.

Lemma decoded_prefix l : forall t,
  utf8.decode (utf8.encode (l ++ t)) = (l ++ t)%list ->
  utf8.decode (utf8.encode l) = l.
Proof.
  induction l as [|c l IH]; intros t H; [reflexivity|].
  destruct (decoded_tail c (l ++ t) H) as (Hl & Hne & Hd).
  specialize (IH t Hl).
  change (utf8.encode (c :: l ++ t)) with (snd c ++ utf8.encode (l ++ t)) in Hd.
  rewrite encode_app in Hd.
  apply decode_prefix in Hd; [|assumption].
  change (utf8.encode (c :: l)) with (snd c ++ utf8.encode l).
  rewrite decode_cons by (destruct (snd c); [congruence|discriminate]).
  rewrite Hd. cbn [fst snd]. rewrite take_app, drop_app, IH.
  now destruct c.
Qed.

Lemma decoded_decode s : utf8.decode (utf8.encode (utf8.decode s)) = utf8.decode s.
Proof. now rewrite encode_decode. Qed.

(** ** Trimming *)

Lemma dropWhile_split {A} (p : A -> bool) l :
  exists a, l = (a ++ strings.dropWhile p l)%list /\ forallb p a = true.
Proof.
  induction l as [|x l (a & Hl & Ha)]; simpl.
  - exists []. split; reflexivity.
  - destruct (p x) eqn:E.
    + exists (x :: a). simpl. rewrite E. split; [now f_equal|assumption].
    + exists []. split; reflexivity.
Qed.

Lemma dropWhile_head {A} (p : A -> bool) l x l' :
  strings.dropWhile p l = x :: l' -> p x = false.
Proof.
  induction l as [|y l IH]; simpl; [discriminate|].
  destruct (p y) eqn:E; [exact IH|]. intros H. inversion H. now subst.
Qed.

Lemma dropWhile_idem {A} (p : A -> bool) l :
  strings.dropWhile p (strings.dropWhile p l) = strings.dropWhile p l.
Proof.
  destruct (strings.dropWhile p l) as [|x l'] eqn:E; [reflexivity|].
  simpl. now rewrite (dropWhile_head _ _ _ _ E).
Qed.

Lemma dropWhile_nil {A} (p : A -> bool) l :
  strings.dropWhile p l = [] -> forallb p l = true.
Proof.
  induction l as [|x l IH]; simpl; [reflexivity|].
  destruct (p x); [exact IH|discriminate].
Qed.

(** The runes [TrimSpace] keeps: those of the string but for the white
    space at its ends. *)
Lemma trimmed_split s :
  let kept := rev (strings.dropWhile strings.isSpaceChunk
                 (rev (strings.dropWhile strings.isSpaceChunk (utf8.decode s)))) in
  exists a b,
    utf8.decode s = (a ++ kept ++ b)%list
    /\ forallb strings.isSpaceChunk a = true
    /\ forallb strings.isSpaceChunk b = true
    /\ strings.dropWhile strings.isSpaceChunk kept = kept
    /\ strings.dropWhile strings.isSpaceChunk (rev kept) = rev kept.
Proof.
  intros kept.
  destruct (dropWhile_split strings.isSpaceChunk (utf8.decode s)) as (a & Ha & Hpa).
  set (D := strings.dropWhile strings.isSpaceChunk (utf8.decode s)) in *.
  destruct (dropWhile_split strings.isSpaceChunk (rev D)) as (b & Hb & Hpb).
  fold kept in Hb.
  assert (HD : D = (kept ++ rev b)%list).
  { rewrite <- (rev_involutive D), Hb, rev_app_distr. reflexivity. }
  exists a, (rev b). repeat split.
  - now rewrite <- HD.
  - exact Hpa.
  - rewrite forallb_forall in *. intros x Hx. apply Hpb. now apply in_rev.
  - destruct kept as [|x k] eqn:Ek; [reflexivity|].
    assert (Hx : strings.isSpaceChunk x = false).
    { apply (dropWhile_head _ (utf8.decode s) x (k ++ rev b)).
      fold D. now rewrite HD. }
    simpl. now rewrite Hx.
  - unfold kept. rewrite rev_involutive. apply dropWhile_idem.
Qed.

Lemma TrimSpace_decode s :
  utf8.decode (strings.TrimSpace s)
  = rev (strings.dropWhile strings.isSpaceChunk
           (rev (strings.dropWhile strings.isSpaceChunk (utf8.decode s)))).
Proof.
  destruct (trimmed_split s) as (a & b & Hs & _).
  unfold strings.TrimSpace.
  set (kept := rev _) in *.
  apply (decoded_prefix kept b). apply (decoded_suffix a).
  rewrite <- Hs. apply decoded_decode.
Qed.

(** [TrimSpace] finds nothing to cut in what it returns. *)
Lemma TrimSpace_idem s :
  strings.TrimSpace (strings.TrimSpace s) = strings.TrimSpace s.
Proof.
  unfold strings.TrimSpace at 1. rewrite TrimSpace_decode.
  destruct (trimmed_split s) as (a & b & _ & _ & _ & Hk & Hr).
  cbv zeta in Hk, Hr. rewrite Hk, Hr, rev_involutive. reflexivity.
Qed.

(** What it returns is a part of the string. *)
Lemma TrimSpace_part s :
  exists a b, s = a ++ strings.TrimSpace s ++ b.
Proof.
  destruct (trimmed_split s) as (a & b & Hs & _).
  exists (utf8.encode a), (utf8.encode b).
  rewrite <- (encode_decode s) at 1. rewrite Hs, !encode_app. reflexivity.
Qed.

Lemma decode_chunk_nonempty s c : In c (utf8.decode s) -> snd c <> "".
Proof.
  unfold utf8.decode. generalize (String.length s) at 1. intros f. revert s.
  induction f as [|f IH]; intros s; [intros []|].
  destruct s as [|c0 s]; [intros []|].
  cbn [utf8.chunks].
  destruct (utf8.DecodeRuneInString (String c0 s)) as [r w] eqn:E.
  intros [Hc|Hin]; [|eapply IH; eassumption].
  subst c. simpl. apply decode_width_pos in E; [|discriminate].
  destruct w; [lia|]. discriminate.
Qed.

(** It returns the empty string for strings of white space only. *)
Lemma TrimSpace_empty s : strings.TrimSpace s = "" <-> utf8.allSpace s.
Proof.
  split; [|apply TrimSpace_allSpace].
  intros H. apply allSpace_chunks.
  destruct (trimmed_split s) as (a & b & Hs & Ha & Hb & _).
  cbv zeta in Hs. unfold strings.TrimSpace in H.
  set (kept := rev _) in *.
  assert (Hk : kept = []).
  { destruct kept as [|c k] eqn:E; [reflexivity|]. exfalso.
    apply (decode_chunk_nonempty s c).
    - rewrite Hs. apply in_or_app. right. now left.
    - simpl in H. destruct (snd c); [reflexivity|discriminate]. }
  rewrite Hs, Hk, !forallb_app, Ha, Hb. reflexivity.
Qed.

(** ** Runs of white space *)

Lemma collapsed_weaken s :
  regexp.collapsed true s = true -> regexp.collapsed false s = true.
Proof.
  destruct s as [|c s]; simpl; [auto|].
  destruct (regexp.isSpace c); [|auto].
  rewrite andb_false_r. discriminate.
Qed.

Lemma collapsed_collapse s : forall b, regexp.collapsed b (regexp.collapse b s) = true.
Proof.
  induction s as [|c s IH]; intros b; simpl; [reflexivity|].
  destruct (regexp.isSpace c) eqn:E.
  - destruct b; [apply IH|]. simpl. now rewrite IH.
  - simpl. rewrite E. apply IH.
Qed.

Lemma collapsed_suffix a : forall b s,
  regexp.collapsed b (a ++ s) = true -> regexp.collapsed false s = true.
Proof.
  induction a as [|c a IH]; intros b s H.
  - destruct b; [now apply collapsed_weaken|exact H].
  - simpl in H. destruct (regexp.isSpace c).
    + apply andb_prop in H. destruct H as [_ H]. eapply IH; eassumption.
    + eapply IH; eassumption.
Qed.

Lemma collapsed_prefix a : forall b s,
  regexp.collapsed b (a ++ s) = true -> regexp.collapsed b a = true.
Proof.
  induction a as [|c a IH]; intros b s H; [reflexivity|].
  simpl in *. destruct (regexp.isSpace c).
  - apply andb_prop in H. destruct H as [H1 H]. rewrite H1. eapply IH; eassumption.
  - eapply IH; eassumption.
Qed.

Lemma collapse_collapsed s : forall b,
  regexp.collapsed b s = true -> regexp.collapse b s = s.
Proof.
  induction s as [|c s IH]; intros b H; [reflexivity|].
  simpl in *. destruct (regexp.isSpace c).
  - apply andb_prop in H. destruct H as [H H2].
    apply andb_prop in H. destruct H as [Hc Hb].
    destruct b; [discriminate|].
    apply Ascii.eqb_eq in Hc. subst c. f_equal. now apply IH.
  - f_equal. now apply IH.
Qed.

Lemma length_collapse s : forall b,
  (String.length (regexp.collapse b s) <= String.length s)%nat.
Proof.
  induction s as [|c s IH]; intros b; simpl; [lia|].
  pose proof (IH true). pose proof (IH false).
  destruct (regexp.isSpace c); [destruct b|]; simpl; lia.
Qed.

(** The headline as it is sanitized: the runs collapsed, the ends cut. *)
Lemma sanitized_normal raw :
  let h := strings.TrimSpace (spaceRegexp_ReplaceAllString raw) in
  spaceRegexp_ReplaceAllString h = h
  /\ strings.TrimSpace h = h
  /\ (String.length h <= String.length raw)%nat.
Proof.
  intros h. unfold spaceRegexp_ReplaceAllString in *.
  destruct (TrimSpace_part (regexp.collapse false raw)) as (a & b & Hs).
  fold h in Hs.
  split; [|split].
  - apply collapse_collapsed.
    pose proof (collapsed_collapse raw false) as H. rewrite Hs in H.
    apply collapsed_suffix in H. now apply collapsed_prefix in H.
  - apply TrimSpace_idem.
  - pose proof (length_collapse raw false) as H.
    rewrite Hs, !length_app in H. lia.
Qed.

(** ** The headline *)

(** X1.  A headline that [ValidateAndSanitizeHeadline] accepts is in
    normal form: collapsing its runs of white space and trimming it change
    nothing; it has at most [maxLength] code points and no more bytes than
    the raw headline. *)
Theorem accepted_headline_is_normal (rawHeadline : string) (maxLength : Z)
    (headline : string) :
  validation.ValidateAndSanitizeHeadline rawHeadline maxLength = Ok headline ->
  spaceRegexp_ReplaceAllString headline = headline
  /\ strings.TrimSpace headline = headline
  /\ utf8.RuneCountInString headline <= maxLength
  /\ len headline <= len rawHeadline.
Proof.
  unfold validation.ValidateAndSanitizeHeadline.
  destruct (String.eqb rawHeadline ""); [discriminate|].
  destruct (Z.ltb_spec maxLength
              (utf8.RuneCountInString
                 (strings.TrimSpace (spaceRegexp_ReplaceAllString rawHeadline))));
    [discriminate|].
  intros E. injection E as <-.
  destruct (sanitized_normal rawHeadline) as (Hc & Ht & Hl).
  repeat split; try assumption. unfold len. lia.
Qed.

Lemma accepted_headline_witness :
  spaceRegexp_ReplaceAllString "Test headline" = "Test headline"
  /\ strings.TrimSpace "Test headline" = "Test headline"
  /\ utf8.RuneCountInString "Test headline" <= 50
  /\ len "Test headline" <= len "  Test   headline  ".
Proof.
  exact (accepted_headline_is_normal "  Test   headline  " 50 "Test headline"
           eq_refl).
Defined.

(** X2.  Sanitizing an accepted headline once more returns it as it is,
    unless it is empty (the raw headline was white space only): the empty
    headline is refused with [ErrEmptyHeadline]. *)
Theorem sanitizing_twice (rawHeadline : string) (maxLength : Z)
    (headline : string) :
  validation.ValidateAndSanitizeHeadline rawHeadline maxLength = Ok headline ->
  validation.ValidateAndSanitizeHeadline headline maxLength
  = if String.eqb headline "" then Err (Sentinel ErrEmptyHeadline)
    else Ok headline.
Proof.
  intros H.
  assert (Hn : spaceRegexp_ReplaceAllString headline = headline
               /\ strings.TrimSpace headline = headline
               /\ utf8.RuneCountInString headline <= maxLength).
  { revert H. unfold validation.ValidateAndSanitizeHeadline.
    destruct (String.eqb rawHeadline ""); [discriminate|].
    destruct (Z.ltb_spec maxLength
                (utf8.RuneCountInString
                   (strings.TrimSpace (spaceRegexp_ReplaceAllString rawHeadline))));
      [discriminate|].
    intros E. injection E as <-.
    destruct (sanitized_normal rawHeadline) as (Hc & Ht & _). auto. }
  destruct Hn as (Hc & Ht & Hr).
  unfold validation.ValidateAndSanitizeHeadline.
  destruct (String.eqb headline ""); [reflexivity|].
  rewrite Hc, Ht.
  destruct (Z.ltb_spec maxLength (utf8.RuneCountInString headline)); [lia|reflexivity].
Qed.

Lemma sanitizing_twice_witness :
  validation.ValidateAndSanitizeHeadline "Test headline" 50 = Ok "Test headline"
  /\ validation.ValidateAndSanitizeHeadline "" 250 = Err (Sentinel ErrEmptyHeadline).
Proof.
  split.
  - exact (sanitizing_twice "  Test   headline  " 50 "Test headline" eq_refl).
  - exact (sanitizing_twice blankHeadline 250 "" eq_refl).
Defined.

(** ** The content *)

(** X3.  [ExtractContent] returns the trimmed content when the
    description is empty or white space only, and the trimmed description
    otherwise, whatever the content is; the result is empty exactly when
    both are white space only, and trimming it changes nothing. *)
Theorem content_prefers_description (item : gofeed.Item) :
  (utf8.allSpace (gofeed.Description item) ->
   validation.ExtractContent item = strings.TrimSpace (gofeed.Content item))
  /\ (~ utf8.allSpace (gofeed.Description item) ->
      validation.ExtractContent item = strings.TrimSpace (gofeed.Description item))
  /\ (validation.ExtractContent item = "" <->
      utf8.allSpace (gofeed.Description item) /\ utf8.allSpace (gofeed.Content item))
  /\ strings.TrimSpace (validation.ExtractContent item) = validation.ExtractContent item.
Proof.
  unfold validation.ExtractContent.
  destruct (String.eqb_spec (strings.TrimSpace (gofeed.Description item)) "")
    as [E|E]; cbn [negb].
  - pose proof (proj1 (TrimSpace_empty _) E) as Hd.
    split; [reflexivity|]. split; [tauto|]. split; [|apply TrimSpace_idem].
    rewrite TrimSpace_empty. tauto.
  - assert (Hd : ~ utf8.allSpace (gofeed.Description item))
      by (rewrite <- TrimSpace_empty; exact E).
    split; [tauto|]. split; [reflexivity|]. split; [|apply TrimSpace_idem].
    tauto.
Qed.

Lemma content_prefers_description_witness :
  validation.ExtractContent
    (gofeed.mkItem "T" blankHeadline "  body text " "" "" None) = "body text"
  /\ validation.ExtractContent
       (gofeed.mkItem "T" " summary " "  body text " "" "" None) = "summary".
Proof.
  split.
  - exact (proj1 (content_prefers_description
                    (gofeed.mkItem "T" blankHeadline "  body text " "" "" None))
             eq_refl).
  - refine (proj1 (proj2 (content_prefers_description
                    (gofeed.mkItem "T" " summary " "  body text " "" "" None)))
             _).
    vm_compute. discriminate.
Defined.

(** ** The link *)

Lemma ResolveReference_absolute u1 u2 ref :
  url.IsAbs ref = true ->
  url.ResolveReference u1 ref = url.ResolveReference u2 ref.
Proof.
  unfold url.IsAbs, url.ResolveReference. intros H.
  destruct (String.eqb (url.Scheme ref) ""); [discriminate|]. reflexivity.
Qed.

Section Link.
Context {lz : LocalZone} {ck : Clock} {lib : GoParsers}.

(** X4.  [ValidateAndResolveURL] returns the bare [ErrInvalidURL]
    exactly for the links that are empty or white space only, whatever the
    feed URL and the URL parser (a link that does not parse yields an
    error that wraps [ErrInvalidURL]). *)
Theorem blank_link_is_invalid (feedURL : url.URL) (rawURL : string) :
  utf8.allSpace rawURL <->
  validation.ValidateAndResolveURL feedURL rawURL = Err (Sentinel ErrInvalidURL).
Proof.
  unfold validation.ValidateAndResolveURL. rewrite <- TrimSpace_empty.
  destruct (String.eqb_spec (strings.TrimSpace rawURL) "") as [E|E].
  - tauto.
  - split; [contradiction|].
    destruct (url_Parse (strings.TrimSpace rawURL)); discriminate.
Qed.

(** X5.  White space around a link does not count: the link and the
    trimmed link are validated and resolved alike. *)
Theorem link_is_trimmed_first (feedURL : url.URL) (rawURL : string) :
  validation.ValidateAndResolveURL feedURL rawURL
  = validation.ValidateAndResolveURL feedURL (strings.TrimSpace rawURL).
Proof.
  unfold validation.ValidateAndResolveURL. now rewrite TrimSpace_idem.
Qed.

(** X6.  A link that parses to a URL with a scheme is resolved to the
    same text against every feed URL. *)
Theorem absolute_link_ignores_feed_url (feedURL feedURL' : url.URL)
    (rawURL : string) (parsed : url.URL) :
  url_Parse (strings.TrimSpace rawURL) = Ok parsed ->
  url.IsAbs parsed = true ->
  validation.ValidateAndResolveURL feedURL rawURL
  = validation.ValidateAndResolveURL feedURL' rawURL.
Proof.
  intros Hp Habs. unfold validation.ValidateAndResolveURL.
  destruct (String.eqb (strings.TrimSpace rawURL) ""); [reflexivity|].
  rewrite Hp. now rewrite (ResolveReference_absolute feedURL feedURL').
Qed.

End Link.

Lemma blank_link_witness :
  @validation.ValidateAndResolveURL (@modelParsers utcZone) sampleFeedParsed
    blankHeadline = Err (Sentinel ErrInvalidURL).
Proof.
  apply (proj1 (@blank_link_is_invalid (@modelParsers utcZone) sampleFeedParsed
                  blankHeadline)).
  vm_compute. reflexivity.
Defined.

(** ** What sanitizing keeps *)

Lemma regexp_space_ascii c :
  regexp.isSpace c = true ->
  byte c < 128 /\ unicode.IsSpace (byte c) = true /\ utf8.cont c = false
  /\ forall lo hi, 128 <= lo -> utf8.inRange lo hi c = false.
Proof.
  unfold regexp.isSpace. intros H.
  assert (Hb : byte c = 9 \/ byte c = 10 \/ byte c = 12 \/ byte c = 13 \/ byte c = 32).
  { repeat (apply orb_prop in H; destruct H as [H|H]);
      apply Z.eqb_eq in H; tauto. }
  split; [lia|]. split; [|split].
  - destruct Hb as [->|[->|[->|[->| ->]]]]; reflexivity.
  - unfold utf8.cont. apply andb_false_intro1. apply Z.leb_gt. lia.
  - intros lo hi Hlo. unfold utf8.inRange. apply andb_false_intro1.
    apply Z.leb_gt. lia.
Qed.

(** A byte that starts no rune where it stands starts none after the runs
    of white space behind it are collapsed. *)
Lemma decode_error_collapse c0 s :
  128 <= byte c0 ->
  utf8.DecodeRuneInString (String c0 s) = (utf8.RuneError, 1%nat) ->
  utf8.DecodeRuneInString (String c0 (regexp.collapse false s))
  = (utf8.RuneError, 1%nat).
Proof.
  intros Hhi.
  assert (Hsp : utf8.cont " " = false
                /\ forall x y : bool,
                     utf8.inRange (if x then 160 else 128)
                       (if y then 159 else 191) " " = false
                     /\ utf8.inRange (if x then 144 else 128)
                          (if y then 143 else 191) " " = false).
  { split; [reflexivity|]. intros [|] [|]; split; reflexivity. }
  destruct Hsp as [Hsc Hsr].
  assert (Hr3 : forall c (x y : bool), regexp.isSpace c = true ->
            utf8.inRange (if x then 160 else 128) (if y then 159 else 191) c
            = false).
  { intros c x y Hc. apply regexp_space_ascii; [exact Hc|destruct x; lia]. }
  assert (Hr4 : forall c (x y : bool), regexp.isSpace c = true ->
            utf8.inRange (if x then 144 else 128) (if y then 143 else 191) c
            = false).
  { intros c x y Hc. apply regexp_space_ascii; [exact Hc|destruct x; lia]. }
  assert (Hc : forall c, regexp.isSpace c = true -> utf8.cont c = false).
  { intros c H. now apply regexp_space_ascii. }
  unfold utf8.DecodeRuneInString.
  destruct (byte c0 <? 128); [auto|].
  destruct ((194 <=? byte c0) && (byte c0 <=? 223)).
  { destruct s as [|c1 s]; [auto|]. cbn [regexp.collapse].
    destruct (regexp.isSpace c1) eqn:E1; [now rewrite Hsc|auto]. }
  destruct ((224 <=? byte c0) && (byte c0 <=? 239)).
  { destruct s as [|c1 s]; [auto|]. cbn [regexp.collapse].
    destruct (regexp.isSpace c1) eqn:E1.
    { destruct (regexp.collapse true s); [reflexivity|].
      now rewrite (proj1 (Hsr _ _)). }
    destruct s as [|c2 s]; [auto|]. cbn [regexp.collapse].
    destruct (regexp.isSpace c2) eqn:E2; [|auto].
    rewrite Hsc, andb_false_r. reflexivity. }
  destruct ((240 <=? byte c0) && (byte c0 <=? 244)).
  { destruct s as [|c1 s]; [auto|]. cbn [regexp.collapse].
    destruct (regexp.isSpace c1) eqn:E1.
    { destruct (regexp.collapse true s) as [|? [|? ?]]; try reflexivity.
      now rewrite (proj2 (Hsr _ _)). }
    destruct s as [|c2 s]; [auto|]. cbn [regexp.collapse].
    destruct (regexp.isSpace c2) eqn:E2.
    { destruct (regexp.collapse true s); [reflexivity|].
      rewrite Hsc, andb_false_r. reflexivity. }
    destruct s as [|c3 s]; [auto|]. cbn [regexp.collapse].
    destruct (regexp.isSpace c3) eqn:E3; [|auto].
    rewrite Hsc, andb_false_r. reflexivity. }
  reflexivity.
Qed.

(** Collapsing the runs of white space changes white space only, and
    adds no rune. *)
Lemma runes_collapse n : forall s b,
  (String.length s <= n)%nat ->
  unicode.visible (utf8.runes (regexp.collapse b s))
  = unicode.visible (utf8.runes s)
  /\ (List.length (utf8.runes (regexp.collapse b s))
      <= List.length (utf8.runes s))%nat.
Proof.
  unfold unicode.visible, utf8.runes.
  induction n as [|n IH]; intros s b Hlen.
  { destruct s; simpl in Hlen; [split; [reflexivity|apply le_n]|lia]. }
  destruct s as [|c0 s]; [split; [reflexivity|apply le_n]|].
  assert (Hs : (String.length s <= n)%nat) by (simpl in Hlen; lia).
  destruct (Z.ltb_spec (byte c0) 128) as [Hlo|Hhi].
  - rewrite (decode_ascii c0 s Hlo). cbn [regexp.collapse map fst filter].
    destruct (regexp.isSpace c0) eqn:E.
    + destruct (regexp_space_ascii c0 E) as (_ & -> & _). cbn [negb].
      destruct b.
      * destruct (IH s true Hs) as [-> Hl].
        split; [reflexivity|]. cbn [List.length]. lia.
      * rewrite decode_ascii by (vm_compute; reflexivity).
        cbn [map fst filter]. change (unicode.IsSpace (byte " ")) with true.
        cbn [negb].
        destruct (IH s true Hs) as [-> Hl].
        split; [reflexivity|]. cbn [List.length]. lia.
    + rewrite (decode_ascii c0 _ Hlo). cbn [map fst filter].
      destruct (IH s false Hs) as [-> Hl].
      split; [reflexivity|]. cbn [List.length]. lia.
  - assert (E0 : regexp.isSpace c0 = false).
    { apply high_not_regexp_space. apply Z.leb_le. lia. }
    destruct (utf8.DecodeRuneInString (String c0 s)) as [r w] eqn:E.
    assert (Hvalid : r <> utf8.RuneError \/ (2 <= w)%nat ->
      filter (fun r0 => negb (unicode.IsSpace r0))
        (map fst (utf8.decode (regexp.collapse b (String c0 s))))
      = filter (fun r0 => negb (unicode.IsSpace r0))
          (map fst (utf8.decode (String c0 s)))
      /\ (List.length (map fst (utf8.decode (regexp.collapse b (String c0 s))))
          <= List.length (map fst (utf8.decode (String c0 s))))%nat).
    { intros Hv.
      destruct (decode_multibyte c0 s r w Hhi E Hv)
        as (pre & post & Hsplit & Hw' & Hpre & Hdec).
      assert (Hne : pre <> "").
      { intros ->. simpl in Hw'. subst w.
        apply decode_width_pos in E; [lia|discriminate]. }
      subst w. rewrite Hsplit in *.
      rewrite collapse_high by assumption.
      rewrite !(decode_app_valid pre _ r Hne Hdec). cbn [map fst filter].
      destruct (IH post false) as [-> Hl].
      { rewrite length_app in Hlen. destruct pre; [congruence|simpl in Hlen; lia]. }
      split; [reflexivity|]. cbn [List.length]. lia. }
    destruct (Z.eq_dec r utf8.RuneError) as [Hr|Hr]; [|now apply Hvalid; left].
    destruct (Nat.eq_dec w 1) as [Hw|Hw].
    + subst r w. cbn [regexp.collapse]. rewrite E0.
      rewrite (decode_cons (String c0 s)) by discriminate.
      rewrite (decode_cons (String c0 (regexp.collapse false s))) by discriminate.
      rewrite E, (decode_error_collapse c0 s Hhi E).
      cbn [fst snd map filter drop].
      destruct (IH s false Hs) as [-> Hl].
      split; [reflexivity|]. cbn [List.length]. lia.
    + apply Hvalid. right.
      apply decode_width_pos in E; [lia|discriminate].
Qed.

Lemma visible_spaces l :
  forallb strings.isSpaceChunk l = true -> unicode.visible (map fst l) = [].
Proof.
  unfold unicode.visible. induction l as [|c l IH]; simpl; [reflexivity|].
  intros H. apply andb_prop in H. destruct H as [Hc Hl].
  unfold strings.isSpaceChunk in Hc. rewrite Hc. cbn [negb]. auto.
Qed.

Lemma visible_app a b :
  unicode.visible (a ++ b) = (unicode.visible a ++ unicode.visible b)%list.
Proof. apply filter_app. Qed.

(** Trimming changes white space only. *)
Lemma visible_TrimSpace s :
  unicode.visible (utf8.runes (strings.TrimSpace s))
  = unicode.visible (utf8.runes s).
Proof.
  unfold utf8.runes at 1. rewrite TrimSpace_decode.
  destruct (trimmed_split s) as (a & b & Hs & Ha & Hb & _).
  cbv zeta in Hs. unfold utf8.runes.
  set (kept := rev _) in *. rewrite Hs.
  rewrite !map_app, !visible_app, (visible_spaces a Ha), (visible_spaces b Hb).
  cbn [app]. symmetry. apply app_nil_r.
Qed.

Lemma length_runes_TrimSpace s :
  (List.length (utf8.runes (strings.TrimSpace s))
   <= List.length (utf8.runes s))%nat.
Proof.
  unfold utf8.runes at 1. rewrite TrimSpace_decode.
  destruct (trimmed_split s) as (a & b & Hs & _).
  cbv zeta in Hs. unfold utf8.runes.
  set (kept := rev _) in *. rewrite Hs.
  rewrite !length_map, !List.length_app. lia.
Qed.

(** The bytes of a string are at most four for each of its runes. *)
Lemma decode_width_4 s r w :
  utf8.DecodeRuneInString s = (r, w) -> (w <= 4)%nat.
Proof.
  destruct s as [|c0 s]; [intros H; inversion H; lia|].
  unfold utf8.DecodeRuneInString.
  repeat match goal with
         | |- context [if ?b then _ else _] => destruct b
         | |- context [match ?x with EmptyString => _ | String _ _ => _ end] => destruct x
         end; intros H; inversion H; lia.
Qed.

Lemma length_chunks f : forall s,
  (String.length s <= f)%nat ->
  (String.length s <= 4 * List.length (utf8.chunks f s))%nat.
Proof.
  induction f as [|f IH]; intros s H.
  - destruct s; simpl in *; lia.
  - destruct s as [|c s]; [simpl; lia|].
    cbn [utf8.chunks].
    destruct (utf8.DecodeRuneInString (String c s)) as [r w] eqn:E.
    pose proof (decode_width_4 _ _ _ E) as H4.
    assert (Hne : String c s <> "") by discriminate.
    pose proof (decode_width_pos _ _ _ Hne E) as H1.
    pose proof (length_drop_lt w c s ltac:(lia)) as Hd.
    specialize (IH (drop w (String c s)) ltac:(simpl in *; lia)).
    cbn [List.length].
    rewrite <- (take_drop w (String c s)) at 1. rewrite length_app.
    rewrite length_take by (eapply decode_width_le; eassumption).
    lia.
Qed.

Lemma len_runes s : len s <= 4 * utf8.RuneCountInString s.
Proof.
  unfold len, utf8.RuneCountInString, utf8.runes, utf8.decode.
  rewrite length_map.
  pose proof (length_chunks (String.length s) s (le_n _)). lia.
Qed.

(** X7.  Sanitizing changes white space only: the code points of an
    accepted headline that are not white space are those of the raw
    headline, in their order; the headline has no more code points than
    the raw one, and at most four bytes for each code point [maxLength]
    allows. *)
Theorem sanitizing_keeps_the_text (rawHeadline : string) (maxLength : Z)
    (headline : string) :
  validation.ValidateAndSanitizeHeadline rawHeadline maxLength = Ok headline ->
  unicode.visible (utf8.runes headline)
  = unicode.visible (utf8.runes rawHeadline)
  /\ utf8.RuneCountInString headline <= utf8.RuneCountInString rawHeadline
  /\ len headline <= 4 * maxLength.
Proof.
  unfold validation.ValidateAndSanitizeHeadline.
  destruct (String.eqb rawHeadline ""); [discriminate|].
  destruct (Z.ltb_spec maxLength
              (utf8.RuneCountInString
                 (strings.TrimSpace (spaceRegexp_ReplaceAllString rawHeadline))));
    [discriminate|].
  intros E. injection E as <-.
  split; [|split].
  - rewrite visible_TrimSpace. unfold spaceRegexp_ReplaceAllString.
    apply (runes_collapse (String.length rawHeadline)). lia.
  - unfold utf8.RuneCountInString.
    pose proof (proj2 (runes_collapse (String.length rawHeadline) rawHeadline
                         false (le_n _))) as Hc.
    pose proof (length_runes_TrimSpace
                  (spaceRegexp_ReplaceAllString rawHeadline)) as Ht.
    unfold spaceRegexp_ReplaceAllString in *. lia.
  - pose proof (len_runes (strings.TrimSpace
                             (spaceRegexp_ReplaceAllString rawHeadline))). lia.
Qed.

(** ** The date of an entry *)

Section Dates.
Context {lz : LocalZone} {ck : Clock} {lib : GoParsers}.

(** X8.  When the decoder has supplied [PublishedParsed], the raw
    [Published] text is not looked at and no date is parsed:
    [ValidatePublicationDate] reads the clock once, leaves the item as it
    is, can only fail with [ErrFuturePublication] or
    [ErrPublicationTooOld], and gives the same result for every raw text
    and every parser. *)
Theorem decoder_date_is_used (item : gofeed.Item) (parsed : time.Time)
    (maxAge futureTolerance : time.Duration) (n : nat) :
  gofeed.PublishedParsed item = Some parsed ->
  exists r,
    validation.ValidatePublicationDate item maxAge futureTolerance n
    = ((item, r), S n)
    /\ (forall e, r = Err e ->
          e = Sentinel ErrFuturePublication \/ e = Sentinel ErrPublicationTooOld)
    /\ (forall (lib' : GoParsers) (published : string),
          let item' :=
            gofeed.mkItem (gofeed.Title item) (gofeed.Description item)
              (gofeed.Content item) (gofeed.Link item) published (Some parsed) in
          @validation.ValidatePublicationDate lz ck lib' item' maxAge
            futureTolerance n
          = ((item', r), S n)).
Proof.
  intros Hp. unfold validation.ValidatePublicationDate. rewrite Hp.
  cbn [gofeed.PublishedParsed]. unfold bind, ret, Now.
  destruct (futureTolerance <? _).
  - eexists. split; [reflexivity|]. split; [|reflexivity].
    intros e H. injection H as <-. now left.
  - destruct (maxAge <? _).
    + eexists. split; [reflexivity|]. split; [|reflexivity].
      intros e H. injection H as <-. now right.
    + eexists. split; [reflexivity|]. split; [|reflexivity].
      intros e H. discriminate H.
Qed.

(** X9.  When [PublishedParsed] is nil and the raw date parses, the
    parsed instant is stored in the item, also when the date is then
    refused as too old or too far ahead; the validation goes on as for an
    item that had this date from the decoder. *)
Theorem parsed_date_is_stored (item : gofeed.Item)
    (maxAge futureTolerance : time.Duration) (n : nat)
    (t : time.Time) (n1 : nat) :
  gofeed.PublishedParsed item = None ->
  gofeed.Published item <> "" ->
  dateparser.ParseDateWithDefaultTZ (gofeed.Published item) n = (Ok t, n1) ->
  validation.ValidatePublicationDate item maxAge futureTolerance n
  = validation.ValidatePublicationDate (gofeed.setPublishedParsed item t)
      maxAge futureTolerance n1
  /\ fst (fst (validation.ValidatePublicationDate item maxAge futureTolerance n))
     = gofeed.setPublishedParsed item t.
Proof.
  intros Hp Hraw Hparse.
  assert (E : validation.ValidatePublicationDate item maxAge futureTolerance n
              = validation.ValidatePublicationDate (gofeed.setPublishedParsed item t)
                  maxAge futureTolerance n1).
  { unfold validation.ValidatePublicationDate. rewrite Hp.
    destruct (String.eqb_spec (gofeed.Published item) ""); [contradiction|].
    cbn [gofeed.setPublishedParsed gofeed.PublishedParsed].
    unfold bind at 1 2. rewrite Hparse. reflexivity. }
  split; [exact E|]. rewrite E.
  unfold validation.ValidatePublicationDate.
  cbn [gofeed.setPublishedParsed gofeed.PublishedParsed].
  unfold bind, ret, Now.
  destruct (futureTolerance <? _); [reflexivity|].
  destruct (maxAge <? _); reflexivity.
Qed.

End Dates.

Section Relaxing.
Context {lz : LocalZone} {ck : Clock} {lib : GoParsers}.

(** X10.  Wider limits keep what was accepted: an entry that passes with
    a fetcher passes unchanged, at the same readings of the clock, with
    every fetcher whose [MaxAge], [FutureDriftTolerance] and
    [MaxHeadingLength] are at least as large. *)
Theorem wider_limits_keep_accepted_entries (f f' : FeedFetcher.FeedFetcher)
    (feedURL : option url.URL) (item item' : option gofeed.Item) (n n' : nat)
    (accepted : FeedFetcher.FeedItem) :
  FeedFetcher.MaxAge (FeedFetcher.config f)
  <= FeedFetcher.MaxAge (FeedFetcher.config f') ->
  FeedFetcher.FutureDriftTolerance (FeedFetcher.config f)
  <= FeedFetcher.FutureDriftTolerance (FeedFetcher.config f') ->
  FeedFetcher.MaxHeadingLength (FeedFetcher.config f)
  <= FeedFetcher.MaxHeadingLength (FeedFetcher.config f') ->
  FeedFetcher.validateAndConvertItem f feedURL item n
  = ((item', Ok accepted), n') ->
  FeedFetcher.validateAndConvertItem f' feedURL item n
  = ((item', Ok accepted), n').
Proof.
  intros Ha Ht Hh.
  unfold FeedFetcher.validateAndConvertItem.
  destruct feedURL as [u|]; [|discriminate].
  destruct item as [it|]; [|discriminate].
  destruct (validation.ValidateAndResolveURL u (gofeed.Link it)) as [itemURL|e];
    [|discriminate].
  unfold bind.
  assert (Hd : forall it1 t n1,
             validation.ValidatePublicationDate it
               (FeedFetcher.MaxAge (FeedFetcher.config f))
               (FeedFetcher.FutureDriftTolerance (FeedFetcher.config f)) n
             = ((it1, Ok t), n1) ->
             validation.ValidatePublicationDate it
               (FeedFetcher.MaxAge (FeedFetcher.config f'))
               (FeedFetcher.FutureDriftTolerance (FeedFetcher.config f')) n
             = ((it1, Ok t), n1)).
  { intros it1 t n1. unfold validation.ValidatePublicationDate, bind.
    destruct (match gofeed.PublishedParsed it with
              | Some parsed => ret (Ok (it, parsed))
              | None => _
              end n) as [[[it0 parsed]|e] n0]; [|discriminate].
    unfold Now, ret.
    repeat match goal with
           | |- context [?a <? ?b] => destruct (Z.ltb_spec a b)
           end; try discriminate; try lia; auto. }
  destruct (validation.ValidatePublicationDate it
              (FeedFetcher.MaxAge (FeedFetcher.config f)) _ n)
    as [[it1 [t|e]] n1] eqn:E; [|discriminate].
  rewrite (Hd _ _ _ eq_refl).
  unfold validation.ValidateAndSanitizeHeadline.
  destruct (String.eqb (gofeed.Title it1) ""); [discriminate|].
  repeat match goal with
         | |- context [?a <? ?b] => destruct (Z.ltb_spec a b)
         end; try discriminate; try lia; auto.
Qed.

End Relaxing.

Section Kinds.
Context {lz : LocalZone} {ck : Clock} {lib : GoParsers}.

(** X11.  Every failure of the validation of an entry has one kind: the
    error is, for [errors.Is], exactly one of the seven errors of the
    package; it is [ErrInvalidURL] exactly when the link is refused, and
    [ErrFeedPublicationDateFormat] exactly when the failure is not one
    that the batch skips. *)
Theorem failure_has_one_kind (f : FeedFetcher.FeedFetcher)
    (feedURL : url.URL) (item : gofeed.Item) (n : nat) (e : error) :
  snd (fst (FeedFetcher.validateAndConvertItem f (Some feedURL) (Some item) n))
  = Err e ->
  exists kind,
    In kind [ErrInvalidURL; ErrMissingPublishDate; ErrFeedPublicationDateFormat;
             ErrFuturePublication; ErrPublicationTooOld; ErrEmptyHeadline;
             ErrHeadlineTooLong]
    /\ (forall target, errors.Is e target = sentinel_eqb kind target)
    /\ (kind = ErrInvalidURL <->
        exists e', validation.ValidateAndResolveURL feedURL (gofeed.Link item)
                   = Err e')
    /\ (kind = ErrFeedPublicationDateFormat <-> entryScoped e = false).
Proof.
  unfold FeedFetcher.validateAndConvertItem.
  destruct (validation.ValidateAndResolveURL feedURL (gofeed.Link item))
    as [itemURL|e1] eqn:Hurl.
  - assert (Hno : forall k, k <> ErrInvalidURL ->
               (k = ErrInvalidURL <-> exists e', @Ok string itemURL = Err e')).
    { intros k Hk. split; [contradiction|]. intros (e' & He'). discriminate. }
    unfold bind.
    destruct (validation.ValidatePublicationDate item _ _ n)
      as [[item' [t|e1]] n1] eqn:Hdate.
    + unfold validation.ValidateAndSanitizeHeadline.
      destruct (String.eqb (gofeed.Title item') "").
      * cbn. intros H. injection H as <-. exists ErrEmptyHeadline.
        split; [simpl; tauto|]. split; [reflexivity|].
        split; [apply Hno; discriminate|]. split; discriminate.
      * destruct (_ <? _); cbn; [|discriminate].
        intros H. injection H as <-. exists ErrHeadlineTooLong.
        split; [simpl; tauto|]. split; [reflexivity|].
        split; [apply Hno; discriminate|]. split; discriminate.
    + cbn. intros H. injection H as <-. revert Hdate.
      unfold validation.ValidatePublicationDate.
      assert (Hwin : forall it parsed k,
        (t0 <- Now ;;
         (let now := time.Time_UTC t0 in
          let pubDate := time.Time_UTC parsed in
          if FeedFetcher.FutureDriftTolerance (FeedFetcher.config f)
             <? time.Sub pubDate now
          then ret (it, Err (Sentinel ErrFuturePublication))
          else if FeedFetcher.MaxAge (FeedFetcher.config f)
                  <? time.Sub now pubDate
               then ret (it, Err (Sentinel ErrPublicationTooOld))
               else ret (it, Ok pubDate))) k = ((item', Err e1), n1) ->
        e1 = Sentinel ErrFuturePublication \/ e1 = Sentinel ErrPublicationTooOld).
      { intros it parsed k. unfold bind, Now, ret. cbv zeta.
        destruct (_ <? _); [intros H; injection H as _ <- _; now left|].
        destruct (_ <? _); [intros H; injection H as _ <- _; now right|].
        discriminate. }
      assert (Hkind : e1 = Sentinel ErrFuturePublication
                      \/ e1 = Sentinel ErrPublicationTooOld ->
        exists kind,
          In kind [ErrInvalidURL; ErrMissingPublishDate;
                   ErrFeedPublicationDateFormat; ErrFuturePublication;
                   ErrPublicationTooOld; ErrEmptyHeadline; ErrHeadlineTooLong]
          /\ (forall target, errors.Is e1 target = sentinel_eqb kind target)
          /\ (kind = ErrInvalidURL <-> exists e', @Ok string itemURL = Err e')
          /\ (kind = ErrFeedPublicationDateFormat <-> entryScoped e1 = false)).
      { intros [->| ->];
          [exists ErrFuturePublication|exists ErrPublicationTooOld];
          (split; [simpl; tauto|]); (split; [reflexivity|]);
          (split; [apply Hno; discriminate|]); split; discriminate. }
      destruct (gofeed.PublishedParsed item) as [parsed|].
      * unfold bind at 1. unfold ret at 1. intros H. apply Hwin in H. auto.
      * destruct (String.eqb (gofeed.Published item) "").
        -- unfold bind, ret. intros H. injection H as _ <- _.
           exists ErrMissingPublishDate.
           split; [simpl; tauto|]. split; [reflexivity|].
           split; [apply Hno; discriminate|]. split; discriminate.
        -- unfold bind at 1. unfold bind at 1.
           destruct (dateparser.ParseDateWithDefaultTZ (gofeed.Published item) n)
             as [[t0|e0] n0].
           ++ unfold ret at 1. intros H. apply Hwin in H. auto.
           ++ unfold ret. intros H. injection H as _ <- _.
              exists ErrFeedPublicationDateFormat.
              split; [simpl; tauto|]. split; [reflexivity|].
              split; [apply Hno; discriminate|]. split; reflexivity.
  - cbn. intros H. injection H as <-. exists ErrInvalidURL.
    split; [simpl; tauto|].
    assert (Hall : (forall target,
                      errors.Is e1 target = sentinel_eqb ErrInvalidURL target)
                   /\ entryScoped e1 = true).
    { revert Hurl. unfold validation.ValidateAndResolveURL.
      destruct (String.eqb _ ""); [intros H; injection H as <-; split; reflexivity|].
      destruct (url_Parse _); [discriminate|].
      intros H; injection H as <-. split; reflexivity. }
    destruct Hall as [Hall Hs].
    split; [exact Hall|]. split; [split; eauto|].
    rewrite Hs. split; discriminate.
Qed.

End Kinds.

(** ** The batch, entry by entry *)

Section Pipeline.
Context {lz : LocalZone} {ck : Clock} {lib : GoParsers}.

(** What the loop returns: on an error nothing else, and otherwise what it
    had with, after it, entries that passed the validation. *)
Lemma extractLoop_result f feedURL items : forall acc n res err n',
  FeedFetcher.extractLoop f feedURL items acc n = ((res, err), n') ->
  (err = Some (Sentinel ErrFeedPublicationDateFormat) /\ res = [])
  \/ (err = None
      /\ exists new,
           res = (acc ++ new)%list
           /\ (List.length new <= List.length items)%nat
           /\ forall fi, In fi new ->
                exists item m,
                  In (Some item) items
                  /\ snd (fst (FeedFetcher.validateAndConvertItem f feedURL
                                 (Some item) m)) = Ok fi).
Proof.
  induction items as [|[item|] rest IH]; intros acc n res err n' H.
  - cbn in H. injection H as <- <- <-. right. split; [reflexivity|].
    exists []. rewrite app_nil_r. split; [reflexivity|]. split; [simpl; lia|].
    intros fi [].
  - cbn [FeedFetcher.extractLoop] in H. unfold bind in H.
    destruct (FeedFetcher.validateAndConvertItem f feedURL (Some item) n)
      as [[it r] n1] eqn:E. cbn [snd] in H.
    destruct r as [parsed|e].
    + destruct (IH _ _ _ _ _ H) as [Hab|(Hnone & new & Hres & Hlen & Hall)];
        [now left|right].
      split; [exact Hnone|]. exists (parsed :: new).
      split; [now rewrite Hres, <- app_assoc|].
      split; [simpl; lia|].
      intros fi [<-|Hin].
      * exists item, n. split; [now left|]. now rewrite E.
      * destruct (Hall fi Hin) as (item' & m & Hi & Ho).
        exists item', m. split; [now right|exact Ho].
    + destruct (errors.Is e ErrFeedPublicationDateFormat).
      * injection H as <- <- <-. now left.
      * destruct (IH _ _ _ _ _ H) as [Hab|(Hnone & new & Hres & Hlen & Hall)];
          [now left|right].
        split; [exact Hnone|]. exists new.
        split; [exact Hres|]. split; [simpl; lia|].
        intros fi Hin. destruct (Hall fi Hin) as (item' & m & Hi & Ho).
        exists item', m. split; [now right|exact Ho].
  - cbn [FeedFetcher.extractLoop] in H.
    destruct (IH _ _ _ _ _ H) as [Hab|(Hnone & new & Hres & Hlen & Hall)];
      [now left|right].
    split; [exact Hnone|]. exists new.
    split; [exact Hres|]. split; [simpl; lia|].
    intros fi Hin. destruct (Hall fi Hin) as (item' & m & Hi & Ho).
    exists item', m. split; [now right|exact Ho].
Qed.

(** The runs of [FetchAndProcess]: it stops with an error of the limiter
    or of the retrieval, or it goes through the entries of the feed
    retrieved from the URL. *)
Lemma FetchAndProcess_cases f ctx feedURL n res err n' :
  FeedFetcher.FetchAndProcess f ctx feedURL n = ((res, err), n') ->
  (res = [] /\ err <> None)
  \/ exists parsedURL feed,
       @limiter.WaitForDomain lib (FeedFetcher.rateLimiter f) ctx feedURL = None
       /\ url_Parse feedURL = Ok parsedURL
       /\ @feedparser.ParseURLWithContext (FeedFetcher.parser f) feedURL
            (context.WithTimeout ctx
               (FeedFetcher.RequestTimeout (FeedFetcher.config f)))
          = Ok feed
       /\ FeedFetcher.extractLoop f (Some parsedURL)
            (FeedFetcher.processed f (gofeed.Items feed)) [] (S (S n))
          = ((res, err), n').
Proof.
  unfold FeedFetcher.FetchAndProcess.
  destruct (limiter.WaitForDomain ctx feedURL) as [e|] eqn:Hw.
  { unfold ret. intros H. injection H as <- <- <-. left.
    split; [reflexivity|discriminate]. }
  unfold FeedFetcher.newFeed.
  destruct (url_Parse feedURL) as [parsedURL|e] eqn:Hp.
  2:{ unfold ret. intros H. injection H as <- <- <-. left.
      split; [reflexivity|discriminate]. }
  unfold bind, FeedFetcher.download. cbn [FeedFetcher.feed_url].
  unfold bind, Now.
  destruct (feedparser.ParseURLWithContext feedURL _) as [feed|e] eqn:Hg.
  - cbn [ret FeedFetcher.extractItems FeedFetcher.data FeedFetcher.parsedURL].
    intros H. right. exists parsedURL, feed. auto.
  - destruct (errors.Is e context_DeadlineExceeded);
      [|destruct (errors.Is e context_Canceled)];
      unfold ret; intros H; injection H as <- <- <-; left;
      (split; [reflexivity|discriminate]).
Qed.

End Pipeline.

Section Accepted.
Context {lz : LocalZone} {ck : Clock} {lib : GoParsers}.

(** A date that passes the validation: the instant in UTC, within the
    bounds as [Sub] measures them at a reading of the clock; the item
    keeps its texts. *)
Lemma ValidatePublicationDate_ok item maxAge tol n item' t n' :
  validation.ValidatePublicationDate item maxAge tol n = ((item', Ok t), n') ->
  time.loc t = time.UTC
  /\ (exists m,
        time.Sub t (time.mkTime (clock m) time.UTC) <= tol
        /\ time.Sub (time.mkTime (clock m) time.UTC) t <= maxAge)
  /\ gofeed.Title item' = gofeed.Title item
  /\ gofeed.Description item' = gofeed.Description item
  /\ gofeed.Content item' = gofeed.Content item.
Proof.
  unfold validation.ValidatePublicationDate.
  assert (Hwin : forall it parsed k,
    (t0 <- Now ;;
     (let now := time.Time_UTC t0 in
      let pubDate := time.Time_UTC parsed in
      if tol <? time.Sub pubDate now
      then ret (it, Err (Sentinel ErrFuturePublication))
      else if maxAge <? time.Sub now pubDate
           then ret (it, Err (Sentinel ErrPublicationTooOld))
           else ret (it, Ok pubDate))) k = ((item', Ok t), n') ->
    it = item' /\ time.loc t = time.UTC
    /\ exists m,
         time.Sub t (time.mkTime (clock m) time.UTC) <= tol
         /\ time.Sub (time.mkTime (clock m) time.UTC) t <= maxAge).
  { intros it parsed k. unfold bind, Now, ret. cbv zeta.
    change (time.Time_UTC (time.mkTime (clock k) time.Local))
      with (time.mkTime (clock k) time.UTC).
    destruct (Z.ltb_spec tol
                (time.Sub (time.Time_UTC parsed) (time.mkTime (clock k) time.UTC)))
      as [|Htol]; [discriminate|].
    destruct (Z.ltb_spec maxAge
                (time.Sub (time.mkTime (clock k) time.UTC) (time.Time_UTC parsed)))
      as [|Hage]; [discriminate|].
    intros E. injection E as <- <- <-.
    split; [reflexivity|]. split; [reflexivity|]. exists k. split; assumption. }
  destruct (gofeed.PublishedParsed item) as [parsed|] eqn:Hp.
  - unfold bind at 1. unfold ret at 1. intros H.
    apply Hwin in H. destruct H as (<- & Hl & Hm). auto.
  - destruct (String.eqb (gofeed.Published item) "").
    + unfold bind, ret. discriminate.
    + unfold bind at 1. unfold bind at 1.
      destruct (dateparser.ParseDateWithDefaultTZ (gofeed.Published item) n)
        as [[t0|e] n0].
      * unfold ret at 1. intros H. apply Hwin in H.
        destruct H as (<- & Hl & Hm). auto.
      * unfold ret. discriminate.
Qed.

(** What an accepted entry is made of. *)
Lemma validateAndConvertItem_ok f feedURL item n fi :
  snd (fst (FeedFetcher.validateAndConvertItem f (Some feedURL) (Some item) n))
  = Ok fi ->
  FeedFetcher.ID fi = 0
  /\ FeedFetcher.FeedURL fi = url.String_ feedURL
  /\ validation.ValidateAndResolveURL feedURL (gofeed.Link item)
     = Ok (FeedFetcher.URL fi)
  /\ validation.ValidateAndSanitizeHeadline (gofeed.Title item)
       (FeedFetcher.MaxHeadingLength (FeedFetcher.config f))
     = Ok (FeedFetcher.Headline fi)
  /\ FeedFetcher.Content fi = validation.ExtractContent item
  /\ time.loc (FeedFetcher.PublishedAt fi) = time.UTC
  /\ exists m,
       time.Sub (FeedFetcher.PublishedAt fi) (time.mkTime (clock m) time.UTC)
       <= FeedFetcher.FutureDriftTolerance (FeedFetcher.config f)
       /\ time.Sub (time.mkTime (clock m) time.UTC) (FeedFetcher.PublishedAt fi)
          <= FeedFetcher.MaxAge (FeedFetcher.config f).
Proof.
  unfold FeedFetcher.validateAndConvertItem.
  destruct (validation.ValidateAndResolveURL feedURL (gofeed.Link item))
    as [itemURL|e]; [|discriminate].
  unfold bind.
  destruct (validation.ValidatePublicationDate item _ _ n)
    as [[item' [t|e]] n1] eqn:Hd; [|discriminate].
  apply ValidatePublicationDate_ok in Hd.
  destruct Hd as (Hloc & Hm & Ht & Hde & Hco).
  rewrite Ht.
  destruct (validation.ValidateAndSanitizeHeadline (gofeed.Title item) _)
    as [h|e]; [|discriminate].
  cbn [ret fst snd]. intros H. injection H as <-.
  cbn [FeedFetcher.ID FeedFetcher.FeedURL FeedFetcher.URL FeedFetcher.Headline
       FeedFetcher.Content FeedFetcher.PublishedAt].
  repeat split; try assumption.
  unfold validation.ExtractContent. now rewrite Hde, Hco.
Qed.

Lemma validateAndConvertItem_nil f item n :
  FeedFetcher.validateAndConvertItem f None item n
  = ((item, Err (errors_New "feedURL and item cannot be nil")), n).
Proof. destruct item; reflexivity. Qed.

Lemma length_processed f items :
  (List.length (FeedFetcher.processed f items) <= List.length items)%nat
  /\ (0 < FeedFetcher.MaxItems (FeedFetcher.config f) ->
      Z.of_nat (List.length (FeedFetcher.processed f items))
      <= FeedFetcher.MaxItems (FeedFetcher.config f)).
Proof.
  unfold FeedFetcher.processed, FeedFetcher.itemCount.
  rewrite length_firstn. split; [lia|]. intros Hpos.
  destruct (Z.ltb_spec 0 (FeedFetcher.MaxItems (FeedFetcher.config f))); [|lia].
  cbn [andb].
  destruct (Z.ltb_spec (FeedFetcher.MaxItems (FeedFetcher.config f))
              (Z.of_nat (List.length items))); lia.
Qed.

Lemma processed_firstn f items :
  0 < FeedFetcher.MaxItems (FeedFetcher.config f) ->
  FeedFetcher.processed f items
  = firstn (Z.to_nat (FeedFetcher.MaxItems (FeedFetcher.config f))) items.
Proof.
  intros Hpos. unfold FeedFetcher.processed, FeedFetcher.itemCount.
  destruct (Z.ltb_spec 0 (FeedFetcher.MaxItems (FeedFetcher.config f))); [|lia].
  cbn [andb].
  destruct (Z.ltb_spec (FeedFetcher.MaxItems (FeedFetcher.config f))
              (Z.of_nat (List.length items))); [reflexivity|].
  rewrite Nat2Z.id, firstn_all. symmetry. apply firstn_all2. lia.
Qed.

Lemma processed_all f items :
  FeedFetcher.MaxItems (FeedFetcher.config f) <= 0 ->
  FeedFetcher.processed f items = items.
Proof.
  intros Hneg. unfold FeedFetcher.processed, FeedFetcher.itemCount.
  destruct (Z.ltb_spec 0 (FeedFetcher.MaxItems (FeedFetcher.config f))); [lia|].
  cbn [andb]. rewrite Nat2Z.id. apply firstn_all.
Qed.

End Accepted.

Section Results.
Context {lz : LocalZone} {ck : Clock} {lib : GoParsers}.

(** X12.  [FetchAndProcess] never returns items beside an error: when
    the error is not nil the list of items is empty. *)
Theorem no_items_beside_an_error (f : FeedFetcher.FeedFetcher)
    (ctx : context.Context) (feedURL : string) (n : nat)
    (items : list FeedFetcher.FeedItem) (err : error) (n' : nat) :
  FeedFetcher.FetchAndProcess f ctx feedURL n = ((items, Some err), n') ->
  items = [].
Proof.
  intros H. apply FetchAndProcess_cases in H.
  destruct H as [[H _]|(u & feed & _ & _ & _ & H)]; [exact H|].
  apply extractLoop_result in H.
  destruct H as [[_ H]|[H _]]; [exact H|discriminate].
Qed.

(** X13.  [FetchAndProcess] returns at most [MaxItems] items when
    [MaxItems] is positive, and never more items than the retrieved feed
    has entries. *)
Theorem result_is_bounded (f : FeedFetcher.FeedFetcher)
    (ctx : context.Context) (feedURL : string) (n : nat)
    (items : list FeedFetcher.FeedItem) (err : option error) (n' : nat) :
  FeedFetcher.FetchAndProcess f ctx feedURL n = ((items, err), n') ->
  (0 < FeedFetcher.MaxItems (FeedFetcher.config f) ->
   Z.of_nat (List.length items) <= FeedFetcher.MaxItems (FeedFetcher.config f))
  /\ (forall feed,
        @feedparser.ParseURLWithContext (FeedFetcher.parser f) feedURL
          (context.WithTimeout ctx
             (FeedFetcher.RequestTimeout (FeedFetcher.config f)))
        = Ok feed ->
        (List.length items <= List.length (gofeed.Items feed))%nat).
Proof.
  intros H. apply FetchAndProcess_cases in H.
  destruct H as [[-> _]|(u & feed & _ & _ & Hg & H)].
  { split; intros; simpl; lia. }
  apply extractLoop_result in H.
  assert (Hlen : (List.length items
                  <= List.length (FeedFetcher.processed f (gofeed.Items feed)))%nat).
  { destruct H as [[_ ->]|(_ & new & -> & Hl & _)]; simpl; lia. }
  destruct (length_processed f (gofeed.Items feed)) as [Hall Hmax].
  split.
  - intros Hpos. specialize (Hmax Hpos). lia.
  - intros feed' Hg'. rewrite Hg in Hg'. injection Hg' as <-. lia.
Qed.

(** X14.  Every item [FetchAndProcess] returns has [ID] zero and the
    rendering of the parsed feed URL as [FeedURL]; its headline has at
    most [MaxHeadingLength] code points and no white space at its ends,
    its content no white space at its ends; its [PublishedAt] is in UTC
    and, at a reading of the clock, neither more than
    [FutureDriftTolerance] ahead nor more than [MaxAge] behind, as
    [Time.Sub] measures. *)
Theorem returned_items_are_valid (f : FeedFetcher.FeedFetcher)
    (ctx : context.Context) (feedURL : string) (n : nat)
    (items : list FeedFetcher.FeedItem) (err : option error) (n' : nat)
    (fi : FeedFetcher.FeedItem) :
  FeedFetcher.FetchAndProcess f ctx feedURL n = ((items, err), n') ->
  In fi items ->
  FeedFetcher.ID fi = 0
  /\ (exists parsedURL,
        url_Parse feedURL = Ok parsedURL
        /\ FeedFetcher.FeedURL fi = url.String_ parsedURL)
  /\ utf8.RuneCountInString (FeedFetcher.Headline fi)
     <= FeedFetcher.MaxHeadingLength (FeedFetcher.config f)
  /\ strings.TrimSpace (FeedFetcher.Headline fi) = FeedFetcher.Headline fi
  /\ strings.TrimSpace (FeedFetcher.Content fi) = FeedFetcher.Content fi
  /\ time.loc (FeedFetcher.PublishedAt fi) = time.UTC
  /\ exists m,
       time.Sub (FeedFetcher.PublishedAt fi) (time.mkTime (clock m) time.UTC)
       <= FeedFetcher.FutureDriftTolerance (FeedFetcher.config f)
       /\ time.Sub (time.mkTime (clock m) time.UTC) (FeedFetcher.PublishedAt fi)
          <= FeedFetcher.MaxAge (FeedFetcher.config f).
Proof.
  intros H Hin. apply FetchAndProcess_cases in H.
  destruct H as [[-> _]|(u & feed & _ & Hp & _ & H)]; [destruct Hin|].
  apply extractLoop_result in H.
  destruct H as [[_ ->]|(_ & new & -> & _ & Hall)]; [destruct Hin|].
  destruct (Hall fi Hin) as (item & m & _ & Hok).
  apply validateAndConvertItem_ok in Hok.
  destruct Hok as (Hid & Hfeed & _ & Hh & Hc & Hloc & Hwin).
  split; [exact Hid|]. split; [now exists u|].
  assert (Hn : utf8.RuneCountInString (FeedFetcher.Headline fi)
               <= FeedFetcher.MaxHeadingLength (FeedFetcher.config f)
               /\ strings.TrimSpace (FeedFetcher.Headline fi)
                  = FeedFetcher.Headline fi).
  { revert Hh. unfold validation.ValidateAndSanitizeHeadline.
    destruct (String.eqb (gofeed.Title item) ""); [discriminate|].
    destruct (Z.ltb_spec (FeedFetcher.MaxHeadingLength (FeedFetcher.config f))
                (utf8.RuneCountInString
                   (strings.TrimSpace
                      (spaceRegexp_ReplaceAllString (gofeed.Title item)))));
      [discriminate|].
    intros E. injection E as <-. split; [assumption|apply TrimSpace_idem]. }
  destruct Hn as [Hr Ht].
  split; [exact Hr|]. split; [exact Ht|].
  split; [|split; assumption].
  rewrite Hc. unfold validation.ExtractContent.
  destruct (negb _); apply TrimSpace_idem.
Qed.

(** X15.  With a positive [MaxItems], [extractItems] does not look
    beyond the first [MaxItems] entries: two feeds that agree on them
    yield the same result, whatever comes after (an unreadable date
    there does not abort the batch). *)
Theorem entries_beyond_the_limit_are_not_read (f : FeedFetcher.FeedFetcher)
    (feedURL : string) (parsedURL : option url.URL)
    (items items' : list (option gofeed.Item)) (n : nat) :
  0 < FeedFetcher.MaxItems (FeedFetcher.config f) ->
  firstn (Z.to_nat (FeedFetcher.MaxItems (FeedFetcher.config f))) items
  = firstn (Z.to_nat (FeedFetcher.MaxItems (FeedFetcher.config f))) items' ->
  FeedFetcher.extractItems f
    (Some (FeedFetcher.mkfeed feedURL parsedURL (Some (gofeed.mkFeed items)))) n
  = FeedFetcher.extractItems f
      (Some (FeedFetcher.mkfeed feedURL parsedURL (Some (gofeed.mkFeed items')))) n.
Proof.
  intros Hpos Heq.
  cbn [FeedFetcher.extractItems FeedFetcher.data FeedFetcher.parsedURL gofeed.Items].
  now rewrite !processed_firstn, Heq.
Qed.

Lemma extractLoop_filter f feedURL items : forall acc n,
  FeedFetcher.extractLoop f feedURL items acc n
  = FeedFetcher.extractLoop f feedURL
      (filter (fun item => match item with Some _ => true | None => false end)
         items) acc n.
Proof.
  induction items as [|[item|] rest IH]; intros acc n.
  - reflexivity.
  - cbn [filter FeedFetcher.extractLoop]. unfold bind.
    destruct (FeedFetcher.validateAndConvertItem f feedURL (Some item) n)
      as [[it r] n1].
    cbn [snd]. destruct r as [parsed|e]; [apply IH|].
    destruct (errors.Is e ErrFeedPublicationDateFormat); [reflexivity|apply IH].
  - cbn [filter FeedFetcher.extractLoop]. apply IH.
Qed.

(** X16.  [extractItems] passes over nil entries: the result is that of
    the loop over the non-nil entries among the first [itemCount], so a
    nil entry counts against [MaxItems]; without a limit the feed and the
    feed without its nil entries yield the same. *)
Theorem nil_entries_are_passed_over (f : FeedFetcher.FeedFetcher)
    (feedURL : string) (parsedURL : option url.URL)
    (items : list (option gofeed.Item)) (n : nat) :
  let present := fun item : option gofeed.Item =>
                   match item with Some _ => true | None => false end in
  FeedFetcher.extractItems f
    (Some (FeedFetcher.mkfeed feedURL parsedURL (Some (gofeed.mkFeed items)))) n
  = FeedFetcher.extractLoop f parsedURL
      (filter present (FeedFetcher.processed f items)) [] n
  /\ (FeedFetcher.MaxItems (FeedFetcher.config f) <= 0 ->
      FeedFetcher.extractItems f
        (Some (FeedFetcher.mkfeed feedURL parsedURL (Some (gofeed.mkFeed items)))) n
      = FeedFetcher.extractItems f
          (Some (FeedFetcher.mkfeed feedURL parsedURL
                   (Some (gofeed.mkFeed (filter present items))))) n).
Proof.
  intros present.
  cbn [FeedFetcher.extractItems FeedFetcher.data FeedFetcher.parsedURL gofeed.Items].
  split; [apply extractLoop_filter|].
  intros Hall. rewrite !processed_all by assumption. apply extractLoop_filter.
Qed.

(** X17.  A feed value whose [parsedURL] is nil (one not made by
    [newFeed]) yields no item and no error, whatever its entries are: each
    fails with the error for nil arguments, the clock unread. *)
Theorem feed_without_parsed_url_yields_nothing (f : FeedFetcher.FeedFetcher)
    (feedURL : string) (data : gofeed.Feed) (n : nat) :
  FeedFetcher.extractItems f
    (Some (FeedFetcher.mkfeed feedURL None (Some data))) n
  = (([], None), n).
Proof.
  cbn [FeedFetcher.extractItems FeedFetcher.data FeedFetcher.parsedURL].
  generalize (FeedFetcher.processed f (gofeed.Items data)). intros items.
  assert (H : forall acc, FeedFetcher.extractLoop f None items acc n
                          = ((acc, None), n)); [|apply H].
  induction items as [|[item|] rest IH]; intros acc.
  - reflexivity.
  - cbn [FeedFetcher.extractLoop]. unfold bind.
    rewrite validateAndConvertItem_nil. cbn. apply IH.
  - cbn [FeedFetcher.extractLoop]. apply IH.
Qed.

End Results.

Section Culprit.
Context {lz : LocalZone} {ck : Clock} {lib : GoParsers}.

(** The date-format failure of an entry comes from its raw date: the
    decoder left no parsed date, the text is there, and the normalizer
    cannot read it. *)
Lemma date_format_failure f feedURL item n e :
  snd (fst (FeedFetcher.validateAndConvertItem f (Some feedURL) (Some item) n))
  = Err e ->
  errors.Is e ErrFeedPublicationDateFormat = true ->
  gofeed.PublishedParsed item = None
  /\ gofeed.Published item <> ""
  /\ exists e0, forall m,
       dateparser.ParseDateWithDefaultTZ (gofeed.Published item) m = (Err e0, m).
Proof.
  unfold FeedFetcher.validateAndConvertItem.
  destruct (validation.ValidateAndResolveURL feedURL (gofeed.Link item))
    as [itemURL|e1] eqn:Hurl.
  - unfold bind.
    destruct (validation.ValidatePublicationDate item _ _ n)
      as [[item' [t|e1]] n1] eqn:Hdate.
    + destruct (validation.ValidateAndSanitizeHeadline _ _) as [h|e1] eqn:Hh;
        [discriminate|].
      cbn. intros H His. injection H as ->.
      apply ValidateAndSanitizeHeadline_error in Hh. destruct Hh; congruence.
    + cbn. intros H His. injection H as ->.
      destruct (ValidatePublicationDate_error _ _ _ _ _ _ _ Hdate)
        as [[Hs _]|(_ & _ & _ & _ & Hp & Hraw & e0 & _ & Hall)]; [congruence|].
      split; [exact Hp|]. split; [exact Hraw|]. now exists e0.
  - cbn. intros H His. injection H as ->.
    apply ValidateAndResolveURL_error in Hurl. destruct Hurl as (_ & ? & _).
    congruence.
Qed.

Lemma extractLoop_culprit f feedURL items : forall acc n res e n',
  FeedFetcher.extractLoop f (Some feedURL) items acc n = ((res, Some e), n') ->
  exists item m e',
    In (Some item) items
    /\ snd (fst (FeedFetcher.validateAndConvertItem f (Some feedURL)
                   (Some item) m)) = Err e'
    /\ errors.Is e' ErrFeedPublicationDateFormat = true.
Proof.
  induction items as [|[item|] rest IH]; intros acc n res e n' H.
  - discriminate H.
  - cbn [FeedFetcher.extractLoop] in H. unfold bind in H.
    destruct (FeedFetcher.validateAndConvertItem f (Some feedURL) (Some item) n)
      as [[it r] n1] eqn:E. cbn [snd] in H.
    destruct r as [parsed|e1].
    + destruct (IH _ _ _ _ _ H) as (item' & m & e' & Hin & Ho & His).
      exists item', m, e'. split; [now right|]. split; assumption.
    + destruct (errors.Is e1 ErrFeedPublicationDateFormat) eqn:His1.
      * exists item, n, e1. split; [now left|]. split; [now rewrite E|exact His1].
      * destruct (IH _ _ _ _ _ H) as (item' & m & e' & Hin & Ho & His).
        exists item', m, e'. split; [now right|]. split; assumption.
  - cbn [FeedFetcher.extractLoop] in H.
    destruct (IH _ _ _ _ _ H) as (item' & m & e' & Hin & Ho & His).
    exists item', m, e'. split; [now right|]. split; assumption.
Qed.

(** X18.  Once the request is admitted and the feed retrieved, the only
    error [FetchAndProcess] can return is [ErrFeedPublicationDateFormat],
    and then one of the processed entries has no parsed date and a raw
    date, not empty, that [ParseDateWithDefaultTZ] cannot read, whatever
    the clock shows. *)
Theorem abort_has_a_culprit (f : FeedFetcher.FeedFetcher)
    (ctx : context.Context) (feedURL : string) (parsedURL : url.URL)
    (feed : gofeed.Feed) (n : nat)
    (items : list FeedFetcher.FeedItem) (err : error) (n' : nat) :
  @limiter.WaitForDomain lib (FeedFetcher.rateLimiter f) ctx feedURL = None ->
  url_Parse feedURL = Ok parsedURL ->
  @feedparser.ParseURLWithContext (FeedFetcher.parser f) feedURL
    (context.WithTimeout ctx (FeedFetcher.RequestTimeout (FeedFetcher.config f)))
  = Ok feed ->
  FeedFetcher.FetchAndProcess f ctx feedURL n = ((items, Some err), n') ->
  err = Sentinel ErrFeedPublicationDateFormat
  /\ exists item e0,
       In (Some item) (FeedFetcher.processed f (gofeed.Items feed))
       /\ gofeed.PublishedParsed item = None
       /\ gofeed.Published item <> ""
       /\ forall m,
            dateparser.ParseDateWithDefaultTZ (gofeed.Published item) m
            = (Err e0, m).
Proof.
  intros Hw Hp Hg H.
  rewrite (FetchAndProcess_run f ctx feedURL parsedURL feed n Hw Hp Hg) in H.
  split.
  - apply extractLoop_result in H.
    destruct H as [[H _]|[H _]]; [now injection H|discriminate].
  - apply extractLoop_culprit in H.
    destruct H as (item & m & e' & Hin & Ho & His).
    destruct (date_format_failure _ _ _ _ _ Ho His) as (Hpp & Hraw & e0 & Hall).
    exists item, e0. auto.
Qed.

(** X19.  An entry with neither a parsed nor a raw date fails with
    [ErrMissingPublishDate] (or with [ErrInvalidURL] when its link is
    invalid), the clock unread and the item unchanged, and the loop of the
    batch goes on with the next entry. *)
Theorem undated_entry_is_dropped (f : FeedFetcher.FeedFetcher)
    (feedURL : url.URL) (item : gofeed.Item)
    (rest : list (option gofeed.Item)) (acc : list FeedFetcher.FeedItem)
    (n : nat) :
  gofeed.PublishedParsed item = None ->
  gofeed.Published item = "" ->
  (exists e,
     FeedFetcher.validateAndConvertItem f (Some feedURL) (Some item) n
     = ((Some item, Err e), n)
     /\ (errors.Is e ErrMissingPublishDate = true
         \/ errors.Is e ErrInvalidURL = true))
  /\ FeedFetcher.extractLoop f (Some feedURL) (Some item :: rest) acc n
     = FeedFetcher.extractLoop f (Some feedURL) rest acc n.
Proof.
  intros Hp Hraw.
  assert (H : exists e,
     FeedFetcher.validateAndConvertItem f (Some feedURL) (Some item) n
     = ((Some item, Err e), n)
     /\ (errors.Is e ErrMissingPublishDate = true
         \/ errors.Is e ErrInvalidURL = true)
     /\ errors.Is e ErrFeedPublicationDateFormat = false).
  { unfold FeedFetcher.validateAndConvertItem.
    destruct (validation.ValidateAndResolveURL feedURL (gofeed.Link item))
      as [itemURL|e] eqn:Hurl.
    - unfold bind, validation.ValidatePublicationDate. rewrite Hp, Hraw.
      cbn. eexists. split; [reflexivity|]. split; [now left|reflexivity].
    - apply ValidateAndResolveURL_error in Hurl. destruct Hurl as (? & ? & _).
      exists e. split; [reflexivity|]. split; [now right|assumption]. }
  destruct H as (e & Hrun & His & Hno).
  split; [now exists e|].
  cbn [FeedFetcher.extractLoop]. unfold bind. rewrite Hrun. cbn [snd].
  now rewrite Hno.
Qed.

End Culprit.

Section Admission.
Context {lz : LocalZone} {ck : Clock} {lib : GoParsers}.

Lemma TrimPrefix_app p s : strings.TrimPrefix (p ++ s) p = s.
Proof.
  unfold strings.TrimPrefix. rewrite HasPrefix_app. apply drop_app.
Qed.

(** X20.  [FetchAndProcess] asks for a feed URL with a host.  A URL
    that does not parse is refused with the error of the rate limiter's
    own parsing, and a URL whose host is empty or just ["www."] with the
    empty-host error, both before anything is retrieved and with the clock
    unread; once the request is admitted, [newFeed] succeeds, so its own
    error for an invalid feed URL is never returned. *)
Theorem feed_url_needs_a_host (f : FeedFetcher.FeedFetcher)
    (ctx : context.Context) (feedURL : string) (n : nat) :
  (forall e, url_Parse feedURL = Err e ->
     FeedFetcher.FetchAndProcess f ctx feedURL n
     = (([], Some (fmt_Errorf "failed to parse URL for rate limiting: %w"
                     [opWrapped e])), n))
  /\ (forall u, url_Parse feedURL = Ok u ->
        url.Host u = "" \/ url.Host u = "www." ->
        FeedFetcher.FetchAndProcess f ctx feedURL n
        = (([], Some (fmt_Errorf "empty host in URL: %s" [opString feedURL])), n))
  /\ (@limiter.WaitForDomain lib (FeedFetcher.rateLimiter f) ctx feedURL = None ->
      exists u,
        url_Parse feedURL = Ok u
        /\ url.Host u <> "" /\ url.Host u <> "www."
        /\ FeedFetcher.newFeed f feedURL
           = Ok (FeedFetcher.mkfeed feedURL (Some u) None)).
Proof.
  unfold FeedFetcher.FetchAndProcess, FeedFetcher.newFeed, limiter.WaitForDomain.
  split; [|split].
  - intros e ->. reflexivity.
  - intros u -> [H|H]; rewrite H; reflexivity.
  - destruct (url_Parse feedURL) as [u|e]; [|discriminate].
    destruct (String.eqb_spec (strings.TrimPrefix (url.Host u) "www.") "") as [E|E];
      [discriminate|].
    intros _. exists u. repeat split; intros H; rewrite H in E; now apply E.
Qed.

(** X21.  A host and the same host with ["www."] before it wait on the
    same limiter: [WaitForDomain] cuts the prefix off, once. *)
Theorem www_prefix_shares_the_limiter (rl : limiter.RateLimiter)
    (ctx : context.Context) (urlStr urlStr' : string) (u u' : url.URL) :
  url_Parse urlStr = Ok u ->
  url_Parse urlStr' = Ok u' ->
  url.Host u = "www." ++ url.Host u' ->
  url.Host u' <> "" ->
  strings.HasPrefix (url.Host u') "www." = false ->
  @limiter.WaitForDomain lib rl ctx urlStr = @limiter.Wait rl (url.Host u') ctx
  /\ @limiter.WaitForDomain lib rl ctx urlStr' = @limiter.Wait rl (url.Host u') ctx.
Proof.
  intros Hu Hu' Hh Hne Hnp. unfold limiter.WaitForDomain.
  assert (Ht : strings.TrimPrefix (url.Host u') "www." = url.Host u')
    by (unfold strings.TrimPrefix; now rewrite Hnp).
  rewrite Hu, Hu', Hh, TrimPrefix_app, Ht.
  destruct (String.eqb_spec (url.Host u') ""); [contradiction|].
  split; reflexivity.
Qed.

(** X22.  A failed retrieval keeps its cause: [download] reads the
    clock once, leaves the feed as it is and returns an error that
    [errors.Is] finds to be exactly what the cause is (a deadline stays a
    deadline, a cancellation a cancellation); [FetchAndProcess] returns
    that error and no item. *)
Theorem download_keeps_the_cause (f : FeedFetcher.FeedFetcher)
    (ctx : context.Context) (fd : FeedFetcher.feed) (cause : error) (n : nat) :
  @feedparser.ParseURLWithContext (FeedFetcher.parser f) (FeedFetcher.feed_url fd)
    (context.WithTimeout ctx (FeedFetcher.RequestTimeout (FeedFetcher.config f)))
  = Err cause ->
  exists err,
    FeedFetcher.download f ctx fd n = ((fd, Some err), S n)
    /\ (forall target, errors.Is err target = errors.Is cause target)
    /\ (@limiter.WaitForDomain lib (FeedFetcher.rateLimiter f) ctx
          (FeedFetcher.feed_url fd) = None ->
        FeedFetcher.FetchAndProcess f ctx (FeedFetcher.feed_url fd) n
        = (([], Some err), S n)).
Proof.
  intros Hg.
  assert (Hfetch : forall err,
    (forall fd', FeedFetcher.feed_url fd' = FeedFetcher.feed_url fd ->
       FeedFetcher.download f ctx fd' n = ((fd', Some err), S n)) ->
    @limiter.WaitForDomain lib (FeedFetcher.rateLimiter f) ctx
      (FeedFetcher.feed_url fd) = None ->
    FeedFetcher.FetchAndProcess f ctx (FeedFetcher.feed_url fd) n
    = (([], Some err), S n)).
  { intros err Hall Hw. unfold FeedFetcher.FetchAndProcess. rewrite Hw.
    unfold FeedFetcher.newFeed.
    destruct (url_Parse (FeedFetcher.feed_url fd)) as [u|e] eqn:Hp.
    - unfold bind. rewrite Hall by reflexivity. reflexivity.
    - unfold limiter.WaitForDomain in Hw. rewrite Hp in Hw. discriminate. }
  assert (Hrun : forall fd', FeedFetcher.feed_url fd' = FeedFetcher.feed_url fd ->
    FeedFetcher.download f ctx fd' n
    = ((fd',
        Some (if errors.Is cause context_DeadlineExceeded
              then fmt_Errorf "timed out after %v fetching feed %s: %w"
                     [opDuration (FeedFetcher.RequestTimeout (FeedFetcher.config f));
                      opString (FeedFetcher.feed_url fd); opWrapped cause]
              else if errors.Is cause context_Canceled
              then fmt_Errorf "feed fetch canceled for %s: %w"
                     [opString (FeedFetcher.feed_url fd); opWrapped cause]
              else fmt_Errorf "failed to parse feed url %s: %w"
                     [opString (FeedFetcher.feed_url fd); opWrapped cause])),
       S n)).
  { intros fd' Hfd'. unfold FeedFetcher.download, bind, Now. rewrite Hfd', Hg.
    destruct (errors.Is cause context_DeadlineExceeded);
      [|destruct (errors.Is cause context_Canceled)]; reflexivity. }
  eexists. split; [apply Hrun; reflexivity|]. split; [|apply Hfetch, Hrun].
  intros target.
  destruct (errors.Is cause context_DeadlineExceeded);
    [|destruct (errors.Is cause context_Canceled)]; reflexivity.
Qed.

End Admission.

(** ** The limiters of the domains *)

Lemma lookup_In {V} (m : list (string * V)) k v :
  dateparser.lookup m k = Some v -> In (k, v) m.
Proof.
  induction m as [|[k' v'] m IH]; simpl; [discriminate|].
  destruct (String.eqb_spec k k') as [->|Hne].
  - intros H. injection H as ->. now left.
  - intros H. right. auto.
Qed.

Lemma lookup_None {V} (m : list (string * V)) k :
  dateparser.lookup m k = None -> ~ In k (map fst m).
Proof.
  induction m as [|[k' v'] m IH]; simpl; [tauto|].
  destruct (String.eqb_spec k k') as [->|Hne]; [discriminate|].
  intros H [E|Hin]; [congruence|]. now apply IH.
Qed.

Lemma values_injective {V} (m : list (string * V)) k k' v :
  NoDup (map snd m) -> In (k, v) m -> In (k', v) m -> k = k'.
Proof.
  induction m as [|[k0 v0] m IH]; simpl; [tauto|].
  intros Hnd [E|Hin] [E'|Hin'].
  - congruence.
  - injection E as <- <-. inversion Hnd as [|? ? Hno _]. exfalso. apply Hno.
    change v0 with (snd (k', v0)). now apply in_map.
  - injection E' as <- <-. inversion Hnd as [|? ? Hno _]. exfalso. apply Hno.
    change v0 with (snd (k, v0)). now apply in_map.
  - inversion Hnd. auto.
Qed.

Section Limiters.
Context {Limit : Type}.

Lemma Forall_replace {A} (P : A -> Prop) i x l :
  P x -> Forall P l -> Forall P (limiter.replace i x l).
Proof.
  intros Hx Hl. revert i. induction Hl as [|y l Hy Hl IH]; intros i.
  - destruct i; constructor.
  - destruct i; simpl; constructor; auto.
Qed.

Lemma sound_start (r : Limit) b heap0 domains :
  limiter.sound r b heap0 domains (limiter.start r b heap0 domains).
Proof.
  unfold limiter.sound, limiter.start. cbn.
  repeat split; try constructor.
  - now rewrite app_nil_r.
  - apply Forall_forall. intros c Hin. apply in_map_iff in Hin.
    destruct Hin as (d & <- & Hd). exact Hd.
Qed.

Lemma sound_step (r : Limit) b heap0 domains w i :
  limiter.sound r b heap0 domains w ->
  limiter.sound r b heap0 domains (limiter.step w i).
Proof.
  intros (Hr & Hb & Hnd & Hsnd & Hheap & Hcalls).
  unfold limiter.step.
  destruct (nth_error (limiter.calls w) i) as [c|] eqn:Hc;
    [|repeat split; assumption].
  assert (Hk : limiter.known (limiter.limiters (limiter.shared w)) domains c).
  { rewrite Forall_forall in Hcalls. apply Hcalls. eapply nth_error_In; eassumption. }
  destruct c as [d|d [p|]|d p]; cbn [limiter.advance].
  - repeat split; try assumption. cbn [limiter.calls limiter.shared].
    apply Forall_replace; [|assumption]. split; [exact Hk|].
    unfold limiter.readLocked. intros p Hp. exact Hp.
  - repeat split; try assumption. cbn [limiter.calls limiter.shared].
    apply Forall_replace; [|assumption]. destruct Hk as [Hd Hp].
    split; [exact Hd|]. now apply Hp.
  - destruct Hk as [Hd _]. unfold limiter.writeLocked.
    destruct (dateparser.lookup (limiter.limiters (limiter.shared w)) d)
      as [p|] eqn:Hl.
    + repeat split; try assumption. cbn [limiter.calls limiter.shared].
      apply Forall_replace; [|assumption]. split; assumption.
    + unfold rate.NewLimiter.
      cbn [limiter.calls limiter.shared limiter.heap limiter.limiters
           limiter.r limiter.b].
      set (m := limiter.limiters (limiter.shared w)) in *.
      assert (Hlen : List.length (limiter.heap w)
                     = (List.length heap0 + List.length m)%nat).
      { rewrite Hheap, List.length_app, repeat_length. reflexivity. }
      unfold limiter.sound.
      cbn [limiter.calls limiter.shared limiter.heap limiter.limiters
           limiter.r limiter.b].
      split; [exact Hr|]. split; [exact Hb|].
      split; [|split; [|split]].
      * cbn [map fst]. constructor; [now apply lookup_None|exact Hnd].
      * cbn [map snd List.length]. rewrite seq_S, rev_app_distr. cbn [rev app].
        now rewrite Hsnd, Hlen.
      * rewrite Hheap, Hr, Hb. cbn [List.length].
        rewrite <- app_assoc. f_equal.
        change [rate.mkLimiter r b] with (repeat (rate.mkLimiter r b) 1).
        rewrite <- repeat_app. f_equal. lia.
      * apply Forall_replace.
        { split; [exact Hd|]. cbn. now rewrite String.eqb_refl. }
        eapply Forall_impl; [|exact Hcalls].
        assert (Hkeep : forall d' p', dateparser.lookup m d' = Some p' ->
                  dateparser.lookup ((d, List.length (limiter.heap w)) :: m) d'
                  = Some p').
        { intros d' p' H. cbn.
          destruct (String.eqb_spec d' d) as [->|]; [congruence|exact H]. }
        intros [d'|d' o|d' p']; cbn [limiter.known].
        -- auto.
        -- intros [Hd' Ho]. split; [exact Hd'|]. intros p' Hp'. auto.
        -- intros [Hd' Ho]. split; [exact Hd'|]. auto.
  - repeat split; try assumption. cbn [limiter.calls limiter.shared].
    apply Forall_replace; assumption.
Qed.

Lemma sound_run (r : Limit) b heap0 domains schedule : forall w,
  limiter.sound r b heap0 domains w ->
  limiter.sound r b heap0 domains (limiter.run schedule w).
Proof.
  unfold limiter.run.
  induction schedule as [|i schedule IH]; intros w H; [exact H|].
  cbn [fold_left]. apply IH. now apply sound_step.
Qed.

End Limiters.

Section LimiterTheorems.
Context {Limit : Type}.

(** X23.  [getLimiter] gets or creates: afterwards the map binds the
    domain to the limiter returned and every other domain as before; a
    limiter already there is returned and nothing changes; otherwise one
    limiter is made with the limit and burst of the [DomainRateLimiter];
    a second call returns the same limiter and changes nothing. *)
Theorem getLimiter_gets_or_creates (l : limiter.DomainRateLimiter Limit)
    (domain : string) (heap : rate.Heap Limit) :
  exists limiter l' heap',
    limiter.getLimiter l domain heap = (limiter, l', heap')
    /\ limiter.readLocked l' domain = Some limiter
    /\ (forall other, other <> domain ->
          limiter.readLocked l' other = limiter.readLocked l other)
    /\ (forall kept, limiter.readLocked l domain = Some kept ->
          limiter = kept /\ l' = l /\ heap' = heap)
    /\ (limiter.readLocked l domain = None ->
        limiter = List.length heap
        /\ heap' = (heap ++ [rate.mkLimiter (limiter.r l) (limiter.b l)])%list)
    /\ limiter.r l' = limiter.r l /\ limiter.b l' = limiter.b l
    /\ limiter.getLimiter l' domain heap' = (limiter, l', heap').
Proof.
  unfold limiter.getLimiter, limiter.writeLocked, limiter.readLocked.
  destruct (dateparser.lookup (limiter.limiters l) domain) as [p|] eqn:E.
  - exists p, l, heap. rewrite E.
    split; [reflexivity|]. split; [reflexivity|]. split; [reflexivity|].
    split; [intros kept H; injection H as <-; auto|].
    split; [discriminate|]. auto.
  - eexists. eexists. eexists. split; [reflexivity|].
    cbn [limiter.limiters limiter.r limiter.b dateparser.lookup].
    rewrite String.eqb_refl.
    split; [reflexivity|]. split; [|split; [discriminate|auto]].
    intros other Hne.
    destruct (String.eqb_spec other domain); [contradiction|reflexivity].
Qed.

(** X24.  However the steps of concurrent calls of [getLimiter] on a
    new [DomainRateLimiter] are interleaved: two calls that have returned
    hold the same limiter exactly when they asked for the same domain;
    each limiter returned is the one the map binds the domain to, was made
    with the configured limit and burst, and is none of the limiters that
    existed before; and exactly one limiter has been made for each domain
    of the map. *)
Theorem one_limiter_for_each_domain (r : Limit) (b : Z)
    (heap0 : rate.Heap Limit) (domains : list string) (schedule : list nat) :
  let w := limiter.run schedule (limiter.start r b heap0 domains) in
  (forall i j d d' p p',
      nth_error (limiter.calls w) i = Some (limiter.returned d p) ->
      nth_error (limiter.calls w) j = Some (limiter.returned d' p') ->
      (d = d' <-> p = p'))
  /\ (forall i d p,
        nth_error (limiter.calls w) i = Some (limiter.returned d p) ->
        In d domains
        /\ limiter.readLocked (limiter.shared w) d = Some p
        /\ (List.length heap0 <= p)%nat
        /\ nth_error (limiter.heap w) p = Some (rate.mkLimiter r b))
  /\ (exists made,
        limiter.heap w = (heap0 ++ made)%list
        /\ List.length made
           = List.length (limiter.limiters (limiter.shared w))
        /\ NoDup (map fst (limiter.limiters (limiter.shared w)))).
Proof.
  intros w.
  destruct (sound_run r b heap0 domains schedule _
              (sound_start r b heap0 domains))
    as (Hr & Hb & Hnd & Hsnd & Hheap & Hcalls).
  fold w in Hr, Hb, Hnd, Hsnd, Hheap, Hcalls.
  set (m := limiter.limiters (limiter.shared w)) in *.
  assert (Hret : forall i d p,
             nth_error (limiter.calls w) i = Some (limiter.returned d p) ->
             In d domains /\ dateparser.lookup m d = Some p).
  { intros i d p H. rewrite Forall_forall in Hcalls.
    apply (Hcalls (limiter.returned d p)). eapply nth_error_In; eassumption. }
  assert (Hinj : NoDup (map snd m)).
  { rewrite Hsnd. apply NoDup_rev, seq_NoDup. }
  split; [|split].
  - intros i j d d' p p' Hi Hj.
    destruct (Hret _ _ _ Hi) as [_ Hp]. destruct (Hret _ _ _ Hj) as [_ Hp'].
    split.
    + intros <-. congruence.
    + intros <-. apply lookup_In in Hp, Hp'.
      eapply values_injective; eassumption.
  - intros i d p Hi. destruct (Hret _ _ _ Hi) as [Hd Hp].
    split; [exact Hd|]. split; [exact Hp|].
    assert (Hin : In p (map snd m)).
    { apply lookup_In in Hp. change p with (snd (d, p)). now apply in_map. }
    rewrite Hsnd in Hin. apply in_rev, in_seq in Hin.
    split; [lia|].
    rewrite Hheap, nth_error_app2 by lia.
    apply nth_error_repeat. lia.
  - exists (repeat (rate.mkLimiter r b) (List.length m)).
    split; [exact Hheap|]. split; [apply repeat_length|exact Hnd].
Qed.

End LimiterTheorems.

Section Setters.
Context {lz : LocalZone} {ck : Clock} {lib : GoParsers}.

Lemma extractLoop_config f f' feedURL items :
  FeedFetcher.MaxAge (FeedFetcher.config f')
  = FeedFetcher.MaxAge (FeedFetcher.config f) ->
  FeedFetcher.FutureDriftTolerance (FeedFetcher.config f')
  = FeedFetcher.FutureDriftTolerance (FeedFetcher.config f) ->
  FeedFetcher.MaxHeadingLength (FeedFetcher.config f')
  = FeedFetcher.MaxHeadingLength (FeedFetcher.config f) ->
  forall acc n,
    FeedFetcher.extractLoop f' feedURL items acc n
    = FeedFetcher.extractLoop f feedURL items acc n.
Proof.
  intros Ha Ht Hh.
  assert (Hv : forall item n,
             FeedFetcher.validateAndConvertItem f' feedURL item n
             = FeedFetcher.validateAndConvertItem f feedURL item n).
  { intros item n. unfold FeedFetcher.validateAndConvertItem.
    now rewrite Ha, Ht, Hh. }
  induction items as [|[item|] rest IH]; intros acc n.
  - reflexivity.
  - cbn [FeedFetcher.extractLoop]. unfold bind. rewrite Hv.
    destruct (FeedFetcher.validateAndConvertItem f feedURL (Some item) n)
      as [[it r] n1].
    cbn [snd]. destruct r as [parsed|e]; [apply IH|].
    destruct (errors.Is e ErrFeedPublicationDateFormat); [reflexivity|apply IH].
  - cbn [FeedFetcher.extractLoop]. apply IH.
Qed.

(** X25.  After [WithMaxItems(maxItems)], [extractItems] goes through
    the first [maxItems] entries when [maxItems] is positive and through
    all entries when it is zero or negative; the validation of an entry is
    that of the original fetcher. *)
Theorem WithMaxItems_caps_the_batch (f : FeedFetcher.FeedFetcher)
    (maxItems : Z) (feedURL : string) (parsedURL : option url.URL)
    (items : list (option gofeed.Item)) (n : nat) :
  FeedFetcher.extractItems (FeedFetcher.WithMaxItems f maxItems)
    (Some (FeedFetcher.mkfeed feedURL parsedURL (Some (gofeed.mkFeed items)))) n
  = FeedFetcher.extractLoop f parsedURL
      (if 0 <? maxItems then firstn (Z.to_nat maxItems) items else items) [] n.
Proof.
  cbn [FeedFetcher.extractItems FeedFetcher.data FeedFetcher.parsedURL gofeed.Items].
  rewrite (extractLoop_config f (FeedFetcher.WithMaxItems f maxItems))
    by reflexivity.
  f_equal.
  destruct (Z.ltb_spec 0 maxItems).
  - now apply processed_firstn.
  - now apply processed_all.
Qed.

End Setters.

(** X26.  The setters compose: setting a field twice keeps the last
    value, setters of different fields commute, and a chain of all six
    yields exactly the configuration given; the rate limiter is the one of
    the original fetcher, and so is the parser unless [WithUserAgent] is
    in the chain, which installs a new parser for the user agent. *)
Theorem setters_compose {gf : feedparser.GoFeed} (f : FeedFetcher.FeedFetcher)
    (k k' l l' : Z) (a a' t t' d d' : time.Duration) (ua ua' : string) :
  let MI := fun k f => FeedFetcher.WithMaxItems f k in
  let MA := fun a f => FeedFetcher.WithMaxAge f a in
  let UA := fun ua f => FeedFetcher.WithUserAgent f ua in
  let RT := fun t f => FeedFetcher.WithRequestTimeout f t in
  let HL := fun l f => FeedFetcher.WithMaxHeadingLength f l in
  let FD := fun d f => FeedFetcher.WithFutureDriftTolerance f d in
  (MI k' (MI k f) = MI k' f /\ MA a' (MA a f) = MA a' f
   /\ UA ua' (UA ua f) = UA ua' f /\ RT t' (RT t f) = RT t' f
   /\ HL l' (HL l f) = HL l' f /\ FD d' (FD d f) = FD d' f)
  /\ (MI k (MA a f) = MA a (MI k f) /\ MI k (UA ua f) = UA ua (MI k f)
      /\ MI k (RT t f) = RT t (MI k f) /\ MI k (HL l f) = HL l (MI k f)
      /\ MI k (FD d f) = FD d (MI k f) /\ MA a (UA ua f) = UA ua (MA a f)
      /\ MA a (RT t f) = RT t (MA a f) /\ MA a (HL l f) = HL l (MA a f)
      /\ MA a (FD d f) = FD d (MA a f) /\ UA ua (RT t f) = RT t (UA ua f)
      /\ UA ua (HL l f) = HL l (UA ua f) /\ UA ua (FD d f) = FD d (UA ua f)
      /\ RT t (HL l f) = HL l (RT t f) /\ RT t (FD d f) = FD d (RT t f)
      /\ HL l (FD d f) = FD d (HL l f))
  /\ FeedFetcher.config (FD d (HL l (RT t (UA ua (MA a (MI k f))))))
     = FeedFetcher.mkConfig ua t k l a d
  /\ FeedFetcher.parser (FD d (HL l (RT t (UA ua (MA a (MI k f))))))
     = feedparser.NewGoFeedParser ua
  /\ FeedFetcher.parser (FD d (HL l (RT t (MA a (MI k f)))))
     = FeedFetcher.parser f
  /\ FeedFetcher.rateLimiter (FD d (HL l (RT t (UA ua (MA a (MI k f))))))
     = FeedFetcher.rateLimiter f.
Proof.
  destruct f as [[ua0 t0 k0 l0 a0 d0] p rl]. cbv zeta.
  repeat split.
Qed.

Section Growing.
Context {lz : LocalZone} {ck : Clock} {lib : GoParsers}.

(** The loop over a list in two parts: the second part is gone through
    with what the first has collected, unless the first has stopped with
    the error. *)
Lemma extractLoop_app f feedURL a b : forall acc n,
  FeedFetcher.extractLoop f feedURL (a ++ b) acc n
  = match FeedFetcher.extractLoop f feedURL a acc n with
    | ((res, None), n1) => FeedFetcher.extractLoop f feedURL b res n1
    | stopped => stopped
    end.
Proof.
  induction a as [|[item|] rest IH]; intros acc n.
  - reflexivity.
  - cbn [app FeedFetcher.extractLoop]. unfold bind.
    destruct (FeedFetcher.validateAndConvertItem f feedURL (Some item) n)
      as [[it r] n1].
    cbn [snd]. destruct r as [parsed|e]; [apply IH|].
    destruct (errors.Is e ErrFeedPublicationDateFormat); [reflexivity|apply IH].
  - cbn [app FeedFetcher.extractLoop]. apply IH.
Qed.

(** X27.  Raising [MaxItems] extends the result: when the batch of the
    first [k] entries ends without error, the batch of the first [k'],
    for [k'] at least [k], is the loop going on over the entries from [k]
    to [k'] with the items collected so far; it returns those items
    followed by others, or the date-format error. *)
Theorem raising_the_limit_extends_the_result (f : FeedFetcher.FeedFetcher)
    (k k' : Z) (feedURL : string) (parsedURL : option url.URL)
    (items : list (option gofeed.Item)) (n : nat)
    (res : list FeedFetcher.FeedItem) (n1 : nat) :
  0 < k <= k' ->
  FeedFetcher.extractItems (FeedFetcher.WithMaxItems f k)
    (Some (FeedFetcher.mkfeed feedURL parsedURL (Some (gofeed.mkFeed items)))) n
  = ((res, None), n1) ->
  FeedFetcher.extractItems (FeedFetcher.WithMaxItems f k')
    (Some (FeedFetcher.mkfeed feedURL parsedURL (Some (gofeed.mkFeed items)))) n
  = FeedFetcher.extractLoop f parsedURL
      (skipn (Z.to_nat k) (firstn (Z.to_nat k') items)) res n1
  /\ forall res' n2,
       FeedFetcher.extractItems (FeedFetcher.WithMaxItems f k')
         (Some (FeedFetcher.mkfeed feedURL parsedURL (Some (gofeed.mkFeed items)))) n
       = ((res', None), n2) ->
       exists more, res' = (res ++ more)%list.
Proof.
  intros Hk.
  cbn [FeedFetcher.extractItems FeedFetcher.data FeedFetcher.parsedURL gofeed.Items].
  rewrite !processed_firstn by (cbn; lia).
  rewrite (extractLoop_config f (FeedFetcher.WithMaxItems f k)) by reflexivity.
  rewrite (extractLoop_config f (FeedFetcher.WithMaxItems f k')) by reflexivity.
  cbn [FeedFetcher.WithMaxItems FeedFetcher.config FeedFetcher.MaxItems].
  intros Hrun.
  assert (Hsplit : firstn (Z.to_nat k') items
                   = (firstn (Z.to_nat k) items
                      ++ skipn (Z.to_nat k) (firstn (Z.to_nat k') items))%list).
  { rewrite <- (firstn_skipn (Z.to_nat k) (firstn (Z.to_nat k') items)) at 1.
    rewrite firstn_firstn. f_equal. f_equal. lia. }
  assert (E : FeedFetcher.extractLoop f parsedURL (firstn (Z.to_nat k') items) [] n
              = FeedFetcher.extractLoop f parsedURL
                  (skipn (Z.to_nat k) (firstn (Z.to_nat k') items)) res n1).
  { rewrite Hsplit at 1. rewrite extractLoop_app, Hrun. reflexivity. }
  split; [exact E|].
  intros res' n2 H. rewrite E in H.
  apply extractLoop_result in H.
  destruct H as [[H _]|(_ & new & -> & _)]; [discriminate|]. now exists new.
Qed.

End Growing.

Section Normalizer.
Context {lz : LocalZone} {ck : Clock} {lib : GoParsers}.

(** X28.  [ParseDateWithDefaultTZ] succeeds exactly when [ParseDate]
    does, with the same instant and the same readings of the clock; its
    result is never in [time.Local], and is the value of [ParseDate]
    itself unless that was in [time.Local]; an error of [ParseDate] is
    passed on as it is. *)
Theorem normalizer_result_is_never_local (dateStr : string) (n : nat) :
  (forall t n',
      dateparser.ParseDateWithDefaultTZ dateStr n = (Ok t, n') ->
      time.loc t <> time.Local
      /\ exists t0,
           dateparser.ParseDate dateStr n = (Ok t0, n')
           /\ time.unixNano t = time.unixNano t0
           /\ (time.loc t0 <> time.Local -> t = t0))
  /\ (forall e n',
        dateparser.ParseDateWithDefaultTZ dateStr n = (Err e, n') <->
        dateparser.ParseDate dateStr n = (Err e, n')).
Proof.
  unfold dateparser.ParseDateWithDefaultTZ, bind.
  destruct (dateparser.ParseDate dateStr n) as [[t0|e0] n0].
  - split.
    + intros t n'. unfold time.Location_, ret.
      destruct t0 as [ns [| |name off]]; cbn [time.loc time.Location_eqb];
        intros H; injection H as <- <-;
        (split; [discriminate|]); eexists; (split; [reflexivity|]);
        (split; [reflexivity|]); intros Hl;
        first [reflexivity | exfalso; apply Hl; reflexivity].
    + intros e n'. destruct (time.Location_eqb _ _); unfold ret; split; discriminate.
  - unfold ret. split; [discriminate|]. tauto.
Qed.

End Normalizer.

(** X29.  For a string of the malformed-token shape with a month name
    of [monthMap], [parseEETEPattern] reads the clock once and its result
    depends on the clock through the year only: two calls at readings of
    the same local year return the same instant, whose day of the month
    is between 1 and 7. *)
Theorem eete_instant_follows_the_year {lz : LocalZone} (ck ck' : Clock)
    (weekday ampm patternType month : string) (n n' : nat) :
  dateparser.eeteShape weekday ampm patternType month ->
  dateparser.lookup dateparser.monthMap (strings.ToLower month) <> None ->
  @time.Year lz (time.mkTime (@clock ck n) time.Local)
  = @time.Year lz (time.mkTime (@clock ck' n') time.Local) ->
  exists t,
    @dateparser.parseEETEPattern lz ck
      (dateparser.eeteString weekday ampm patternType month) n = (Ok t, S n)
    /\ @dateparser.parseEETEPattern lz ck'
         (dateparser.eeteString weekday ampm patternType month) n' = (Ok t, S n')
    /\ 1 <= time.Day t <= 7.
Proof.
  intros Hshape Hknown Hyear.
  destruct (@parseEETEPattern_run lz ck weekday ampm patternType month n Hshape)
    as (Hrun & Hm & Hd).
  destruct (@parseEETEPattern_run lz ck' weekday ampm patternType month n' Hshape)
    as (Hrun' & _ & _).
  cbv zeta in Hrun, Hrun', Hm, Hd.
  destruct (dateparser.lookup dateparser.monthMap (strings.ToLower month))
    as [m|] eqn:E; [|congruence].
  rewrite <- Hyear in Hrun'.
  eexists. split; [exact Hrun|]. split; [exact Hrun'|].
  match goal with
  | |- 1 <= time.Day (time.Date ?y ?mo ?d ?h ?mi 0 0) <= 7 =>
      destruct (@Year_Date lz y mo d h mi 0) as (_ & _ & ->); try lia
  end.
  - destruct (String.eqb ampm "PM"); lia.
  - destruct (String.eqb patternType "EESTE_R"); lia.
Qed.

(** ** The properties at work *)

Lemma text_kept_witness :
  unicode.visible (utf8.runes "Test headline")
  = unicode.visible (utf8.runes "  Test   headline  ")
  /\ utf8.RuneCountInString "Test headline"
     <= utf8.RuneCountInString "  Test   headline  "
  /\ len "Test headline" <= 4 * 50.
Proof.
  exact (sanitizing_keeps_the_text "  Test   headline  " 50 "Test headline"
           eq_refl).
Defined.

Lemma failure_kind_witness :
  exists kind,
    In kind [ErrInvalidURL; ErrMissingPublishDate; ErrFeedPublicationDateFormat;
             ErrFuturePublication; ErrPublicationTooOld; ErrEmptyHeadline;
             ErrHeadlineTooLong]
    /\ (forall target,
          errors.Is
            (fmt_Errorf "%w: %s"
               [opWrapped (Sentinel ErrFeedPublicationDateFormat);
                opError (fmt_Errorf "unable to parse date: %s"
                           [opString "yesterday at noon"])]) target
          = sentinel_eqb kind target).
Proof.
  destruct (@failure_has_one_kind utcZone sampleClock (@modelParsers utcZone)
              (sampleFetcher brokenDateFeed) sampleFeedParsed brokenDateItem
              0%nat
              (fmt_Errorf "%w: %s"
                 [opWrapped (Sentinel ErrFeedPublicationDateFormat);
                  opError (fmt_Errorf "unable to parse date: %s"
                             [opString "yesterday at noon"])])
              eq_refl)
    as (kind & Hin & His & _).
  exists kind. split; assumption.
Defined.

Lemma raising_the_limit_witness :
  @FeedFetcher.extractItems utcZone sampleClock (@modelParsers utcZone)
    (FeedFetcher.WithMaxItems (sampleFetcher mixedFeed) 2)
    (Some (FeedFetcher.mkfeed sampleFeedURL (Some sampleFeedParsed)
             (Some (gofeed.mkFeed [Some datedItem; Some rawDatedItem;
                                   Some brokenDateItem])))) 0%nat
  = @FeedFetcher.extractLoop utcZone sampleClock (@modelParsers utcZone)
      (sampleFetcher mixedFeed) (Some sampleFeedParsed) [Some rawDatedItem]
      [FeedFetcher.mkFeedItem 0 "https://example.com/feed"
         "https://example.com/3" "Three" "Test description" recent] 1%nat.
Proof.
  refine (proj1 (@raising_the_limit_extends_the_result utcZone sampleClock
                   (@modelParsers utcZone) (sampleFetcher mixedFeed) 1 2
                   sampleFeedURL (Some sampleFeedParsed)
                   [Some datedItem; Some rawDatedItem; Some brokenDateItem]
                   0%nat _ 1%nat _ _)).
  - lia.
  - vm_compute. reflexivity.
Defined.

Lemma eete_year_witness :
  exists t,
    @dateparser.parseEETEPattern utcZone sampleClock "TueAMEETE_RMarchC822" 0%nat
    = (Ok t, 1%nat)
    /\ @dateparser.parseEETEPattern utcZone sampleClock "TueAMEETE_RMarchC822"
         500%nat = (Ok t, 501%nat)
    /\ 1 <= @time.Day utcZone t <= 7.
Proof.
  apply (@eete_instant_follows_the_year utcZone sampleClock sampleClock
           "Tue" "AM" "EETE_R" "March" 0%nat 500%nat).
  - repeat split; auto.
  - discriminate.
  - vm_compute. reflexivity.
Defined.

Lemma absolute_link_witness :
  @validation.ValidateAndResolveURL (@modelParsers utcZone) sampleFeedParsed
    " https://example.org/a "
  = @validation.ValidateAndResolveURL (@modelParsers utcZone) wwwFeedParsed
      " https://example.org/a ".
Proof.
  exact (@absolute_link_ignores_feed_url (@modelParsers utcZone)
           sampleFeedParsed wwwFeedParsed " https://example.org/a "
           (url.mkURL "https" "" None "example.org" "/a" "" false false "" "" "")
           eq_refl eq_refl).
Defined.

Lemma decoder_date_witness :
  exists r,
    @validation.ValidatePublicationDate utcZone sampleClock (@modelParsers utcZone)
      datedItem (24 * time.Hour) (24 * time.Hour) 0%nat
    = ((datedItem, r), 1%nat).
Proof.
  destruct (@decoder_date_is_used utcZone sampleClock (@modelParsers utcZone)
              datedItem recent (24 * time.Hour) (24 * time.Hour) 0%nat eq_refl)
    as (r & Hrun & _).
  exists r. exact Hrun.
Defined.

Lemma parsed_date_witness :
  fst (fst (@validation.ValidatePublicationDate utcZone sampleClock
              (@modelParsers utcZone) rawDatedItem (24 * time.Hour)
              (24 * time.Hour) 0%nat))
  = gofeed.setPublishedParsed rawDatedItem
      (time.mkTime 1742810400000000000 (time.FixedZone "GMT" 0)).
Proof.
  refine (proj2 (@parsed_date_is_stored utcZone sampleClock (@modelParsers utcZone)
                   rawDatedItem (24 * time.Hour) (24 * time.Hour) 0%nat
                   (time.mkTime 1742810400000000000 (time.FixedZone "GMT" 0))
                   0%nat eq_refl _ _)).
  - discriminate.
  - vm_compute. reflexivity.
Defined.

Lemma undated_entry_witness :
  @FeedFetcher.extractLoop utcZone sampleClock (@modelParsers utcZone)
    (sampleFetcher mixedFeed) (Some sampleFeedParsed)
    [Some undatedItem; Some datedItem] [] 0%nat
  = @FeedFetcher.extractLoop utcZone sampleClock (@modelParsers utcZone)
      (sampleFetcher mixedFeed) (Some sampleFeedParsed) [Some datedItem] [] 0%nat.
Proof.
  exact (proj2 (@undated_entry_is_dropped utcZone sampleClock
                  (@modelParsers utcZone) (sampleFetcher mixedFeed)
                  sampleFeedParsed undatedItem [Some datedItem] [] 0%nat
                  eq_refl eq_refl)).
Defined.

Lemma no_items_witness :
  fst (fst (@FeedFetcher.FetchAndProcess utcZone sampleClock
              (@modelParsers utcZone) (sampleFetcher brokenDateFeed)
              context.Background sampleFeedURL 0%nat)) = [].
Proof.
  apply (@no_items_beside_an_error utcZone sampleClock (@modelParsers utcZone)
           (sampleFetcher brokenDateFeed) context.Background sampleFeedURL 0%nat
           _ (Sentinel ErrFeedPublicationDateFormat) 3%nat).
  vm_compute. reflexivity.
Defined.

Lemma bounded_result_witness :
  Z.of_nat (List.length
    (fst (fst (@FeedFetcher.FetchAndProcess utcZone sampleClock
                 (@modelParsers utcZone)
                 (FeedFetcher.WithMaxItems (sampleFetcher mixedFeed) 2)
                 context.Background sampleFeedURL 0%nat)))) <= 2.
Proof.
  refine (proj1 (@result_is_bounded utcZone sampleClock (@modelParsers utcZone)
                   (FeedFetcher.WithMaxItems (sampleFetcher mixedFeed) 2)
                   context.Background sampleFeedURL 0%nat _ None 4%nat _) _).
  - vm_compute. reflexivity.
  - reflexivity.
Defined.

Lemma valid_item_witness :
  let fi := FeedFetcher.mkFeedItem 0 "https://example.com/feed"
              "https://example.com/3" "Three" "Test description" recent in
  utf8.RuneCountInString (FeedFetcher.Headline fi) <= 250
  /\ strings.TrimSpace (FeedFetcher.Headline fi) = FeedFetcher.Headline fi
  /\ time.loc (FeedFetcher.PublishedAt fi) = time.UTC.
Proof.
  intros fi.
  assert (Hrun : exists items n',
             @FeedFetcher.FetchAndProcess utcZone sampleClock
               (@modelParsers utcZone) (sampleFetcher mixedFeed)
               context.Background sampleFeedURL 0%nat = ((items, None), n')
             /\ In fi items).
  { eexists. eexists. split; [vm_compute; reflexivity|]. right. left. reflexivity. }
  destruct Hrun as (items & n' & Hrun & Hin).
  destruct (@returned_items_are_valid utcZone sampleClock (@modelParsers utcZone)
              (sampleFetcher mixedFeed) context.Background sampleFeedURL 0%nat
              items None n' fi Hrun Hin)
    as (_ & _ & Hlen & Ht & _ & Hloc & _).
  auto.
Defined.

Lemma beyond_the_limit_witness :
  @FeedFetcher.extractItems utcZone sampleClock (@modelParsers utcZone)
    (FeedFetcher.WithMaxItems (sampleFetcher mixedFeed) 1)
    (Some (FeedFetcher.mkfeed sampleFeedURL (Some sampleFeedParsed)
             (Some (gofeed.mkFeed [Some datedItem; Some brokenDateItem])))) 0%nat
  = @FeedFetcher.extractItems utcZone sampleClock (@modelParsers utcZone)
      (FeedFetcher.WithMaxItems (sampleFetcher mixedFeed) 1)
      (Some (FeedFetcher.mkfeed sampleFeedURL (Some sampleFeedParsed)
               (Some (gofeed.mkFeed [Some datedItem])))) 0%nat.
Proof.
  apply (@entries_beyond_the_limit_are_not_read utcZone sampleClock
           (@modelParsers utcZone)
           (FeedFetcher.WithMaxItems (sampleFetcher mixedFeed) 1)).
  - reflexivity.
  - reflexivity.
Defined.

Lemma nil_entries_witness :
  @FeedFetcher.extractItems utcZone sampleClock (@modelParsers utcZone)
    (FeedFetcher.WithMaxItems (sampleFetcher mixedFeed) 0)
    (Some (FeedFetcher.mkfeed sampleFeedURL (Some sampleFeedParsed)
             (Some (gofeed.mkFeed [None; Some datedItem; None])))) 0%nat
  = @FeedFetcher.extractItems utcZone sampleClock (@modelParsers utcZone)
      (FeedFetcher.WithMaxItems (sampleFetcher mixedFeed) 0)
      (Some (FeedFetcher.mkfeed sampleFeedURL (Some sampleFeedParsed)
               (Some (gofeed.mkFeed [Some datedItem])))) 0%nat.
Proof.
  refine (proj2 (@nil_entries_are_passed_over utcZone sampleClock
                   (@modelParsers utcZone)
                   (FeedFetcher.WithMaxItems (sampleFetcher mixedFeed) 0)
                   sampleFeedURL (Some sampleFeedParsed)
                   [None; Some datedItem; None] 0%nat) _).
  vm_compute. discriminate.
Defined.

Lemma abort_culprit_witness :
  exists item e0,
    In (Some item)
       (FeedFetcher.processed (sampleFetcher brokenDateFeed)
          (gofeed.Items brokenDateFeed))
    /\ gofeed.PublishedParsed item = None
    /\ gofeed.Published item <> ""
    /\ forall m,
         @dateparser.ParseDateWithDefaultTZ utcZone sampleClock
           (@modelParsers utcZone) (gofeed.Published item) m = (Err e0, m).
Proof.
  refine (proj2 (@abort_has_a_culprit utcZone sampleClock (@modelParsers utcZone)
                   (sampleFetcher brokenDateFeed) context.Background
                   sampleFeedURL sampleFeedParsed brokenDateFeed 0%nat
                   [] (Sentinel ErrFeedPublicationDateFormat) 3%nat
                   eq_refl eq_refl eq_refl _)).
  vm_compute. reflexivity.
Defined.

Lemma hostless_feed_witness :
  @FeedFetcher.FetchAndProcess utcZone sampleClock (@modelParsers utcZone)
    (sampleFetcher mixedFeed) context.Background "file:///tmp/feed.xml" 0%nat
  = (([], Some (fmt_Errorf "empty host in URL: %s"
                  [opString "file:///tmp/feed.xml"])), 0%nat).
Proof.
  refine (proj1 (proj2 (@feed_url_needs_a_host utcZone sampleClock
                          (@modelParsers utcZone) (sampleFetcher mixedFeed)
                          context.Background "file:///tmp/feed.xml" 0%nat))
            (url.mkURL "file" "" None "" "/tmp/feed.xml" "" false false "" "" "")
            eq_refl _).
  left. reflexivity.
Defined.

Lemma www_prefix_witness :
  @limiter.WaitForDomain (@modelParsers utcZone) admitAll context.Background
    wwwFeedURL
  = @limiter.Wait admitAll "example.com" context.Background
  /\ @limiter.WaitForDomain (@modelParsers utcZone) admitAll context.Background
       sampleFeedURL
     = @limiter.Wait admitAll "example.com" context.Background.
Proof.
  refine (@www_prefix_shares_the_limiter (@modelParsers utcZone) admitAll
            context.Background wwwFeedURL sampleFeedURL wwwFeedParsed
            sampleFeedParsed eq_refl eq_refl eq_refl _ eq_refl).
  discriminate.
Defined.

Lemma download_cause_witness :
  exists err,
    @FeedFetcher.FetchAndProcess utcZone sampleClock (@modelParsers utcZone)
      (FeedFetcher.mkFeedFetcher FeedFetcher.DefaultConfig timedOut admitAll)
      context.Background sampleFeedURL 0%nat
    = (([], Some err), 1%nat)
    /\ errors.Is err context_DeadlineExceeded = true.
Proof.
  destruct (@download_keeps_the_cause utcZone sampleClock (@modelParsers utcZone)
              (FeedFetcher.mkFeedFetcher FeedFetcher.DefaultConfig timedOut admitAll)
              context.Background
              (FeedFetcher.mkfeed sampleFeedURL (Some sampleFeedParsed) None)
              (Sentinel context_DeadlineExceeded) 0%nat eq_refl)
    as (err & _ & His & Hrun).
  exists err. split; [apply Hrun; reflexivity|]. rewrite His. reflexivity.
Defined.

Lemma wider_limits_witness :
  snd (fst (@FeedFetcher.validateAndConvertItem utcZone sampleClock
              (@modelParsers utcZone)
              (FeedFetcher.WithMaxAge (sampleFetcher mixedFeed) (48 * time.Hour))
              (Some sampleFeedParsed) (Some datedItem) 0%nat))
  = Ok (FeedFetcher.mkFeedItem 0 "https://example.com/feed"
          "https://example.com/3" "Three" "Test description" recent).
Proof.
  rewrite (@wider_limits_keep_accepted_entries utcZone sampleClock
             (@modelParsers utcZone) (sampleFetcher mixedFeed)
             (FeedFetcher.WithMaxAge (sampleFetcher mixedFeed) (48 * time.Hour))
             (Some sampleFeedParsed) (Some datedItem) (Some datedItem)
             0%nat 1%nat
             (FeedFetcher.mkFeedItem 0 "https://example.com/feed"
                "https://example.com/3" "Three" "Test description" recent)).
  - reflexivity.
  - vm_compute. discriminate.
  - vm_compute. discriminate.
  - vm_compute. discriminate.
  - vm_compute. reflexivity.
Defined.

Lemma one_limiter_witness :
  let w := limiter.run [0; 1; 2; 1; 0; 2]%nat
             (limiter.start 1 3 []
                ["example.com"; "example.com"; "example.org"]) in
  limiter.calls w
  = [limiter.returned "example.com" 0; limiter.returned "example.com" 0;
     limiter.returned "example.org" 1]
  /\ (forall i j d d' p p',
        nth_error (limiter.calls w) i = Some (limiter.returned d p) ->
        nth_error (limiter.calls w) j = Some (limiter.returned d' p') ->
        (d = d' <-> p = p')).
Proof.
  split; [vm_compute; reflexivity|].
  exact (proj1 (one_limiter_for_each_domain 1 3 []
                  ["example.com"; "example.com"; "example.org"]
                  [0; 1; 2; 1; 0; 2]%nat)).
Defined.
